(** * The ftrace configuration muxer (src/ftrace_reader/ftrace_config_muxer.cc)

    A shallow embedding of [FtraceConfigMuxer] and of the helpers in the
    same translation unit.  The muxer talks to three collaborators that
    are only declared elsewhere: the tracefs adapter [FtraceProcfs], the
    event catalog [ProtoTranslationTable] and the process primitives used
    to run the atrace binary.  They are interfaces here: a record of
    operations over an abstract host state [K].  Every operation may
    answer anything and may change the host, which also covers a foreign
    agent touching tracefs between two calls.  Every call made through one
    of these interfaces is appended to a call log, with its answer, the way
    a recording test double of the interface would keep it. *)

From stdpp Require Import gmap strings list fin_maps sorting.
From Stdlib Require Import NArith.
From Stdlib Require OrderedTypeEx.

Open Scope string_scope.
Open Scope N_scope.
Open Scope list_scope.

(** ** Data model *)

(** Modelled from the spec: [FtraceConfig] is declared in a header that is
    not part of this snapshot.  The muxer uses four fields: the repeated
    string field [event_names] (filled through [add_event_names], which
    appends), [buffer_size_kb], and the two ordered sequences
    [atrace_categories] and [atrace_apps]. *)
Record FtraceConfig := mkFtraceConfig {
  event_names : list string;
  buffer_size_kb : N;
  atrace_categories : list string;
  atrace_apps : list string
}.

(** [FtraceConfig actual;] *)
Definition FtraceConfig_default : FtraceConfig := mkFtraceConfig [] 0 [] [].

(** [*c.add_event_names() = name;] *)
Definition add_event_names (name : string) (c : FtraceConfig) : FtraceConfig :=
  {| event_names := (event_names c ++ [name])%list;
     buffer_size_kb := buffer_size_kb c;
     atrace_categories := atrace_categories c;
     atrace_apps := atrace_apps c |}.

(** Modelled from the spec: [RequiresAtrace] is defined next to
    [FtraceConfig], outside this snapshot; it is true iff
    [atrace_categories] or [atrace_apps] is non-empty. *)
Definition RequiresAtrace (request : FtraceConfig) : bool :=
  negb (bool_decide (atrace_categories request = [])) ||
  negb (bool_decide (atrace_apps request = [])).

(** An entry of the event catalog; only [group] and [name] are read. *)
Record Event := mkEvent {
  event_name : string;
  event_group : string
}.

(** [const ProtoTranslationTable* table_]: a constant lookup table. *)
Record ProtoTranslationTable := mkTable {
  GetEventByName : string → option Event
}.

(** [FtraceState], the muxer's view of what it imposed on the kernel. *)
Record FtraceState := mkFtraceState {
  ftrace_events : gset string;
  tracing_on : bool;
  atrace_on : bool;
  cpu_buffer_size_pages : N
}.

(** The data members of [FtraceConfigMuxer] ([ftrace_] and [table_] point
    to the collaborators, which live outside this record). *)
Record FtraceConfigMuxer := mkMuxer {
  current_state_ : FtraceState;
  configs_ : gmap N FtraceConfig;
  last_id_ : N
}.

(** What the build and the absent headers fix: the Android build flag,
    whether [PERFETTO_DCHECK] is compiled in, [base::kPageSize], the width
    of the unsigned integer type [FtraceConfigId] and the default member
    initialiser of [last_id_]. *)
Record Build := mkBuild {
  PERFETTO_OS_ANDROID : bool;
  PERFETTO_DCHECK_IS_ON : bool;
  kPageSize : N;
  FtraceConfigId_bits : N;
  last_id_init : N
}.

(** ** std::set<std::string> iteration order *)

(** A [std::set<std::string>] is a [gset string]; a range-for over it
    visits the elements in increasing lexicographic (byte) order. *)
Definition string_le (a b : string) : Prop := String.leb a b = true.

#[global] Instance string_le_dec a b : Decision (string_le a b).
Proof. unfold string_le. apply _. Defined.

Definition sorted_elements (s : gset string) : list string :=
  merge_sort string_le (elements s).

(** ** File-level constants and helpers *)

(** trace_clocks in preference order. *)
Definition kClocks : list string := ["boot"; "global"; "local"].

Definition kDefaultPerCpuBufferSizeKb : N := 512.
Definition kMaxPerCpuBufferSizeKb : N := 2 * 1024.

(** [std::set_difference] over the two sorted ranges, collected in order. *)
Definition difference (a b : gset string) : list string :=
  filter (λ x, x ∉ b) (sorted_elements a).

Definition GetFtraceEvents (request : FtraceConfig) : gset string :=
  let events : gset string := list_to_set (event_names request) in
  if RequiresAtrace request then events ∪ {["print"]} else events.

(** The page size enters only through [base::kPageSize / 1024]. *)
Definition ComputeCpuBufferSizeInPages (kPageSize : N)
    (requested_buffer_size_kb : N) : N :=
  let requested_buffer_size_kb :=
    if requested_buffer_size_kb =? 0 then kDefaultPerCpuBufferSizeKb
    else requested_buffer_size_kb in
  let requested_buffer_size_kb :=
    if kMaxPerCpuBufferSizeKb <? requested_buffer_size_kb
    then kDefaultPerCpuBufferSizeKb
    else requested_buffer_size_kb in
  let pages := requested_buffer_size_kb / (kPageSize / 1024) in
  if pages =? 0 then 1 else pages.

(** The buffer policy in the words of the specification: 0 and values
    above the ceiling mean the default, anything else is taken as is. *)
Definition effective_buffer_size_kb (requested : N) : N :=
  if bool_decide (requested = 0 ∨ 2048 < requested) then 512 else requested.

(** ** Collaborators *)

(** The tracefs adapter [FtraceProcfs].  The muxer ignores the results of
    the operations that return nothing here. *)
Record FtraceProcfs (K : Type) := mkProcfs {
  IsTracingEnabled : K → bool * K;
  EnableEvent : string → string → K → bool * K;
  DisableEvent : string → string → K → bool * K;
  DisableAllEvents : K → K;
  EnableTracing : K → K;
  DisableTracing : K → K;
  GetClock : K → string * K;
  AvailableClocks : K → gset string * K;
  SetClock : string → K → K;
  SetCpuBufferSizeInPages : N → K → K;
  ClearTrace : K → K
}.
Arguments IsTracingEnabled {K}.
Arguments EnableEvent {K}.
Arguments DisableEvent {K}.
Arguments DisableAllEvents {K}.
Arguments EnableTracing {K}.
Arguments DisableTracing {K}.
Arguments GetClock {K}.
Arguments AvailableClocks {K}.
Arguments SetClock {K}.
Arguments SetCpuBufferSizeInPages {K}.
Arguments ClearTrace {K}.

(** [fork], [execv] of a binary with an argument vector in the child, and
    [waitpid] in the parent: [None] when [fork] fails, otherwise the wait
    status (a child whose [execv] fails exits with 1). *)
Record Process (K : Type) := mkProcess {
  fork_execv_waitpid : string → list string → K → option Z * K
}.
Arguments fork_execv_waitpid {K}.

(** One entry of the call log, with the answer where there is one. *)
Inductive Call :=
| CallIsTracingEnabled (r : bool)
| CallEnableEvent (group name : string) (r : bool)
| CallDisableEvent (group name : string) (r : bool)
| CallDisableAllEvents
| CallEnableTracing
| CallDisableTracing
| CallGetClock (r : string)
| CallAvailableClocks (r : gset string)
| CallSetClock (clock : string)
| CallSetCpuBufferSizeInPages (pages : N)
| CallClearTrace
| CallExecv (path : string) (argv : list string) (status : option Z).

(** The calls that write to the control surface or spawn a process. *)
Definition is_write (c : Call) : bool :=
  match c with
  | CallIsTracingEnabled _ | CallGetClock _ | CallAvailableClocks _ => false
  | _ => true
  end.

Definition is_SetClock (c : Call) : bool :=
  match c with CallSetClock _ => true | _ => false end.
Definition is_SetCpuBufferSizeInPages (c : Call) : bool :=
  match c with CallSetCpuBufferSizeInPages _ => true | _ => false end.
Definition is_Execv (c : Call) : bool :=
  match c with CallExecv _ _ _ => true | _ => false end.
Definition is_EnableEvent (c : Call) : bool :=
  match c with CallEnableEvent _ _ _ => true | _ => false end.
Definition is_DisableEvent (c : Call) : bool :=
  match c with CallDisableEvent _ _ _ => true | _ => false end.

(** The two calls that flip the kernel's tracing switch. *)
Definition is_tracing_switch (c : Call) : bool :=
  match c with CallEnableTracing | CallDisableTracing => true | _ => false end.

(** Neither a clock write, nor a buffer size write, nor an atrace run. *)
Definition setup_free (c : Call) : bool :=
  negb (is_SetClock c || is_SetCpuBufferSizeInPages c || is_Execv c).

#[global] Instance Call_eq_dec : EqDecision Call.
Proof. solve_decision. Defined.

(** A failed [PERFETTO_CHECK] or (in builds that compile it in) a failed
    [PERFETTO_DCHECK] aborts the process; the string names the place. *)
Inductive Fatal :=
| CheckFailed (site : string)
| DcheckFailed (site : string).

(** ** The muxer in its environment *)

(** The muxer object, the host behind [ftrace_] and the process
    primitives, and the log of the calls made so far (oldest first). *)
Record World (K : Type) := mkWorld {
  muxer : FtraceConfigMuxer;
  host : K;
  calls : list Call
}.
Arguments mkWorld {K}.
Arguments muxer {K}.
Arguments host {K}.
Arguments calls {K}.

(** A member function either returns a value in a new world or aborts. *)
Inductive Res (K A : Type) :=
| Ok (a : A) (w : World K)
| Crash (f : Fatal).
Arguments Ok {K A}.
Arguments Crash {K A}.

Definition M (K A : Type) : Type := World K → Res K A.

(** The world a member function leaves behind, [w] itself when it
    aborts. *)
Definition world_after {K A} (m : M K A) (w : World K) : World K :=
  match m w with
  | Ok _ w' => w'
  | Crash _ => w
  end.

#[global] Instance M_ret {K} : MRet (M K) := λ A a w, Ok a w.

#[global] Instance M_bind {K} : MBind (M K) :=
  λ A B k m w, match m w with
               | Ok a w' => k a w'
               | Crash f => Crash f
               end.

Definition when {K} (b : bool) (m : M K unit) : M K unit :=
  if b then m else mret tt.

(** Field updates of the two structs. *)
Definition set_ftrace_events (v : gset string) (s : FtraceState) : FtraceState :=
  mkFtraceState v (tracing_on s) (atrace_on s) (cpu_buffer_size_pages s).
Definition set_tracing_on (v : bool) (s : FtraceState) : FtraceState :=
  mkFtraceState (ftrace_events s) v (atrace_on s) (cpu_buffer_size_pages s).
Definition set_atrace_on (v : bool) (s : FtraceState) : FtraceState :=
  mkFtraceState (ftrace_events s) (tracing_on s) v (cpu_buffer_size_pages s).
Definition set_cpu_buffer_size_pages (v : N) (s : FtraceState) : FtraceState :=
  mkFtraceState (ftrace_events s) (tracing_on s) (atrace_on s) v.

Definition get_muxer {K} : M K FtraceConfigMuxer := λ w, Ok (muxer w) w.

Definition get_state {K} : M K FtraceState :=
  λ w, Ok (current_state_ (muxer w)) w.

Definition modify_state {K} (f : FtraceState → FtraceState) : M K unit :=
  λ w, Ok tt (mkWorld (mkMuxer (f (current_state_ (muxer w)))
                               (configs_ (muxer w)) (last_id_ (muxer w)))
                      (host w) (calls w)).

Definition put_configs {K} (c : gmap N FtraceConfig) : M K unit :=
  λ w, Ok tt (mkWorld (mkMuxer (current_state_ (muxer w)) c (last_id_ (muxer w)))
                      (host w) (calls w)).

Definition put_last_id {K} (i : N) : M K unit :=
  λ w, Ok tt (mkWorld (mkMuxer (current_state_ (muxer w)) (configs_ (muxer w)) i)
                      (host w) (calls w)).

(** A call through a collaborator that answers, and one that does not. *)
Definition call_host {K A} (f : K → A * K) (entry : A → Call) : M K A :=
  λ w, let r := f (host w) in
       Ok r.1 (mkWorld (muxer w) r.2 (calls w ++ [entry r.1])).

Definition call_host_ {K} (f : K → K) (entry : Call) : M K unit :=
  λ w, Ok tt (mkWorld (muxer w) (f (host w)) (calls w ++ [entry])).

Definition crash {K A} (f : Fatal) : M K A := λ _, Crash f.

Definition PERFETTO_CHECK {K} (site : string) (cond : bool) : M K unit :=
  λ w, if cond then Ok tt w else Crash (CheckFailed site).

(** [std::map::emplace]: no effect when the key is already present. *)
Definition emplace (id : N) (c : FtraceConfig) (m : gmap N FtraceConfig)
    : gmap N FtraceConfig :=
  match m !! id with
  | Some _ => m
  | None => <[id := c]> m
  end.

(** The set built by the first loop of [RemoveConfig]. *)
Definition expected_ftrace_events (configs : gmap N FtraceConfig) : gset string :=
  ⋃ (map (λ id_config : N * FtraceConfig,
            list_to_set (event_names id_config.2)) (map_to_list configs)).

(** The argument vector [EnableAtrace] builds. *)
Definition EnableAtrace_args (request : FtraceConfig) : list string :=
  let args := ["atrace"; "--async_start"] in
  let args := (args ++ atrace_categories request)%list in
  if bool_decide (atrace_apps request = []) then args
  else ((args ++ ["-a"]) ++ atrace_apps request)%list.

(** ** An in-memory host for concrete runs *)

(** A small stand-in for tracefs, the catalog and the atrace binary: the
    tracing switch and the clock are remembered, and three knobs fix the
    answers of [EnableEvent], of [DisableEvent] and the wait status of the
    atrace child. *)
Module Fake.

Record Host := mkHost {
  tracing_enabled : bool;
  clock : string;
  clocks : gset string;
  enable_ok : bool;
  disable_ok : bool;
  atrace_status : option Z
}.

Definition set_tracing_enabled (b : bool) (k : Host) : Host :=
  mkHost b (clock k) (clocks k) (enable_ok k) (disable_ok k) (atrace_status k).

Definition set_clock (c : string) (k : Host) : Host :=
  mkHost (tracing_enabled k) c (clocks k) (enable_ok k) (disable_ok k)
         (atrace_status k).

Definition procfs : FtraceProcfs Host :=
  {| IsTracingEnabled k := (tracing_enabled k, k);
     EnableEvent _ _ k := (enable_ok k, k);
     DisableEvent _ _ k := (disable_ok k, k);
     DisableAllEvents k := k;
     EnableTracing k := set_tracing_enabled true k;
     DisableTracing k := set_tracing_enabled false k;
     GetClock k := (clock k, k);
     AvailableClocks k := (clocks k, k);
     SetClock c k := set_clock c k;
     SetCpuBufferSizeInPages _ k := k;
     ClearTrace k := k |}.

Definition process : Process Host :=
  {| fork_execv_waitpid _ _ k := (atrace_status k, k) |}.

Definition table : ProtoTranslationTable :=
  {| GetEventByName name :=
       if bool_decide (name = "sched_switch") then Some (mkEvent "sched_switch" "sched")
       else if bool_decide (name = "sched_wakeup") then Some (mkEvent "sched_wakeup" "sched")
       else if bool_decide (name = "cpu_idle") then Some (mkEvent "cpu_idle" "power")
       else if bool_decide (name = "print") then Some (mkEvent "print" "ftrace")
       else None |}.

(** A quiet device: tracing off, clock "local", every call succeeds. *)
Definition idle : Host :=
  mkHost false "local" {["boot"; "global"; "local"]} true true (Some 0%Z).

(** A device on which somebody else has tracing switched on. *)
Definition foreign : Host :=
  mkHost true "local" {["boot"; "global"; "local"]} true true (Some 0%Z).

(** A device whose kernel refuses to disable events. *)
Definition sticky : Host :=
  mkHost false "local" {["boot"; "global"; "local"]} true false (Some 0%Z).

(** 4 KiB pages, 64-bit ids, [last_id_] starting at 0. *)
Definition android : Build := mkBuild true false 4096 64 0.
Definition android_debug : Build := mkBuild true true 4096 64 0.
Definition linux : Build := mkBuild false false 4096 64 0.

End Fake.

(** The target of clock selection in the words of the specification: the
    first clock of the preference list that is available. *)
Definition preferred_clock (clocks : gset string) : option string :=
  List.find (λ clock, bool_decide (clock ∈ clocks)) ["boot"; "global"; "local"].

(** The ids issued (as non-zero results of [RequestConfig]) and not yet
    handed to [RemoveConfig], along a sequence of operations paired with
    their results, starting from the set [s]. *)
Inductive Op :=
| OpRequestConfig (request : FtraceConfig)
| OpRemoveConfig (id : N).

Inductive Ret :=
| RetId (id : N)
| RetBool (b : bool).

Fixpoint pending (s : gset N) (ops : list Op) (rets : list Ret) : gset N :=
  match ops, rets with
  | OpRequestConfig _ :: ops, RetId id :: rets =>
      pending (if bool_decide (id = 0) then s else {[id]} ∪ s) ops rets
  | OpRemoveConfig id :: ops, _ :: rets => pending (s ∖ {[id]}) ops rets
  | _ :: ops, _ :: rets => pending s ops rets
  | _, _ => s
  end.

(** The non-zero ids among the results, in the order they were returned. *)
Fixpoint issued_ids (rets : list Ret) : list N :=
  match rets with
  | [] => []
  | RetId id :: rets => if bool_decide (id = 0) then issued_ids rets
                        else id :: issued_ids rets
  | RetBool _ :: rets => issued_ids rets
  end.

(** The last buffer size written to the control surface, if any. *)
Definition last_buffer_write (log : list Call) : option Call :=
  last (filter (λ c, is_SetCpuBufferSizeInPages c = true) log).

Section Muxer.
Context {K : Type}.
Variable ftrace_ : FtraceProcfs K.
Variable process_ : Process K.
Variable table_ : ProtoTranslationTable.
Variable build : Build.

Definition PERFETTO_DCHECK (site : string) (cond : bool) : M K unit :=
  λ w, if PERFETTO_DCHECK_IS_ON build && negb cond
       then Crash (DcheckFailed site) else Ok tt w.

(** Including "atrace" for argv[0]. *)
Definition RunAtrace (args : list string) : M K bool :=
  status ← call_host (fork_execv_waitpid process_ "/system/bin/atrace" args)
                      (CallExecv "/system/bin/atrace" args);
  match (status : option Z) with
  | None => crash (CheckFailed "pid >= 0")
  | Some status => mret (bool_decide (status = 0%Z))
  end.

Definition EnableAtrace (request : FtraceConfig) : M K unit :=
  st ← get_state;
  PERFETTO_DCHECK "EnableAtrace: !current_state_.atrace_on" (negb (atrace_on st));;
  modify_state (set_atrace_on true);;
  ok ← RunAtrace (EnableAtrace_args request);
  PERFETTO_CHECK "RunAtrace(args)" ok.

Definition EnableAtraceOnAndroid (request : FtraceConfig) : M K unit :=
  if PERFETTO_OS_ANDROID build then EnableAtrace request else mret tt.

Definition DisableAtrace : M K unit :=
  st ← get_state;
  PERFETTO_DCHECK "DisableAtrace: !current_state_.atrace_on" (negb (atrace_on st));;
  ok ← RunAtrace ["atrace"; "--async_stop"];
  PERFETTO_CHECK "RunAtrace({atrace, --async_stop})" ok;;
  modify_state (set_atrace_on false).

Definition DisableAtraceOnAndroid : M K unit :=
  if PERFETTO_OS_ANDROID build then DisableAtrace else mret tt.

(** The body of the loop over [kClocks], from index [i] on. *)
Fixpoint SetupClock_loop (current_clock : string) (clocks : gset string)
    (rest : list string) : M K unit :=
  match rest with
  | [] => mret tt
  | clock :: rest =>
      if bool_decide (clock ∈ clocks) then
        if bool_decide (current_clock = clock) then mret tt
        else call_host_ (SetClock ftrace_ clock) (CallSetClock clock)
      else SetupClock_loop current_clock clocks rest
  end.

Definition SetupClock (request : FtraceConfig) : M K unit :=
  current_clock ← call_host (GetClock ftrace_) CallGetClock;
  clocks ← call_host (AvailableClocks ftrace_) CallAvailableClocks;
  SetupClock_loop current_clock clocks kClocks.

Definition SetupBufferSize (request : FtraceConfig) : M K unit :=
  let pages := ComputeCpuBufferSizeInPages (kPageSize build)
                 (buffer_size_kb request) in
  call_host_ (SetCpuBufferSizeInPages ftrace_ pages)
             (CallSetCpuBufferSizeInPages pages);;
  modify_state (set_cpu_buffer_size_pages pages).

(** The loop of [RequestConfig] over the effective event set. *)
Fixpoint RequestConfig_events (events : list string) (actual : FtraceConfig)
    : M K FtraceConfig :=
  match events with
  | [] => mret actual
  | name :: events =>
      match GetEventByName table_ name with
      | None => RequestConfig_events events actual
      | Some event =>
          st ← get_state;
          if bool_decide (name ∈ ftrace_events st)
             || bool_decide ("ftrace" = event_group event)
          then RequestConfig_events events (add_event_names name actual)
          else
            ok ← call_host (EnableEvent ftrace_ (event_group event) (event_name event))
                            (CallEnableEvent (event_group event) (event_name event));
            if (ok : bool) then
              modify_state (λ s, set_ftrace_events ({[name]} ∪ ftrace_events s) s);;
              RequestConfig_events events (add_event_names name actual)
            else RequestConfig_events events actual
      end
  end.

(** [RequestConfig] from the computation of the event set to the end. *)
Definition RequestConfig_accept (request : FtraceConfig) : M K N :=
  let events := GetFtraceEvents request in
  actual ← RequestConfig_events (sorted_elements events) FtraceConfig_default;
  m ← get_muxer;
  when (bool_decide (configs_ m = ∅))
    (PERFETTO_DCHECK "RequestConfig: !current_state_.tracing_on"
                     (negb (tracing_on (current_state_ m)));;
     call_host_ (EnableTracing ftrace_) CallEnableTracing;;
     modify_state (set_tracing_on true));;
  let id := (last_id_ m + 1) mod 2 ^ FtraceConfigId_bits build in
  put_last_id id;;
  put_configs (emplace id actual (configs_ m));;
  mret id.

Definition RequestConfig (request : FtraceConfig) : M K N :=
  is_ftrace_enabled ← call_host (IsTracingEnabled ftrace_) CallIsTracingEnabled;
  m ← get_muxer;
  if bool_decide (configs_ m = ∅) then
    PERFETTO_DCHECK "RequestConfig: !current_state_.tracing_on"
                    (negb (tracing_on (current_state_ m)));;
    if (is_ftrace_enabled : bool) then mret 0
    else
      when (RequiresAtrace request) (EnableAtraceOnAndroid request);;
      SetupClock request;;
      SetupBufferSize request;;
      RequestConfig_accept request
  else
    if negb is_ftrace_enabled then mret 0
    else RequestConfig_accept request.

(** The loop of [RemoveConfig] over [events_to_disable]. *)
Fixpoint RemoveConfig_events (events_to_disable : list string) : M K unit :=
  match events_to_disable with
  | [] => mret tt
  | name :: rest =>
      match GetEventByName table_ name with
      | None => RemoveConfig_events rest
      | Some event =>
          ok ← call_host (DisableEvent ftrace_ (event_group event) (event_name event))
                          (CallDisableEvent (event_group event) (event_name event));
          when ok (modify_state (λ s, set_ftrace_events (ftrace_events s ∖ {[name]}) s));;
          RemoveConfig_events rest
      end
  end.

Definition RemoveConfig (id : N) : M K bool :=
  m ← get_muxer;
  if bool_decide (id = 0) then mret false
  else match configs_ m !! id with
  | None => mret false
  | Some _ =>
      put_configs (delete id (configs_ m));;
      m ← get_muxer;
      let expected_ftrace_events := expected_ftrace_events (configs_ m) in
      let events_to_disable :=
        difference (ftrace_events (current_state_ m)) expected_ftrace_events in
      RemoveConfig_events events_to_disable;;
      m ← get_muxer;
      when (bool_decide (configs_ m = ∅))
        (PERFETTO_DCHECK "RemoveConfig: current_state_.tracing_on"
                         (tracing_on (current_state_ m));;
         call_host_ (DisableTracing ftrace_) CallDisableTracing;;
         call_host_ (SetCpuBufferSizeInPages ftrace_ 0) (CallSetCpuBufferSizeInPages 0);;
         call_host_ (DisableAllEvents ftrace_) CallDisableAllEvents;;
         call_host_ (ClearTrace ftrace_) CallClearTrace;;
         modify_state (set_tracing_on false);;
         st ← get_state;
         when (atrace_on st) DisableAtraceOnAndroid);;
      mret true
  end.

(** The host state in which the teardown of [RemoveConfig id] runs the
    atrace stop: the host the disabling loop leaves, after the four
    teardown calls. *)
Definition teardown_host (id : N) (w : World K) : K :=
  let cs := delete id (configs_ (muxer w)) in
  let w1 :=
    world_after
      (RemoveConfig_events
         (difference (ftrace_events (current_state_ (muxer w)))
                     (expected_ftrace_events cs)))
      (mkWorld (mkMuxer (current_state_ (muxer w)) cs (last_id_ (muxer w)))
               (host w) (calls w)) in
  ClearTrace ftrace_
    (DisableAllEvents ftrace_
       (SetCpuBufferSizeInPages ftrace_ 0 (DisableTracing ftrace_ (host w1)))).

Definition GetConfig (id : N) : M K (option FtraceConfig) :=
  m ← get_muxer;
  mret (configs_ m !! id).

(** The constructor: value-initialised state, empty table. *)
Definition FtraceConfigMuxer_new : FtraceConfigMuxer :=
  mkMuxer (mkFtraceState ∅ false false 0) ∅ (last_id_init build).

Definition initial_world (k : K) : World K := mkWorld FtraceConfigMuxer_new k [].

(** Sequences of external operations on one muxer. *)
Definition step (op : Op) : M K Ret :=
  match op with
  | OpRequestConfig request => id ← RequestConfig request; mret (RetId id)
  | OpRemoveConfig id => b ← RemoveConfig id; mret (RetBool b)
  end.

Fixpoint run (ops : list Op) : M K (list Ret) :=
  match ops with
  | [] => mret []
  | op :: ops => r ← step op; rs ← run ops; mret (r :: rs)
  end.

(** The worlds a muxer can be in between two external operations. *)
Definition reachable (w : World K) : Prop :=
  ∃ k ops rets, run ops (initial_world k) = Ok rets w.

(** [name] is in the catalog and an [EnableEvent] call for its group and
    name is logged with answer [true]. *)
Definition enabled_by_muxer (log : list Call) (name : string) : Prop :=
  match GetEventByName table_ name with
  | Some event => CallEnableEvent (event_group event) (event_name event) true ∈ log
  | None => False
  end.

(** [name] is in the catalog and a [DisableEvent] call for its group and
    name is logged with answer [false]. *)
Definition disable_refused (log : list Call) (name : string) : Prop :=
  match GetEventByName table_ name with
  | Some event => CallDisableEvent (event_group event) (event_name event) false ∈ log
  | None => False
  end.

(** [name] is in the catalog, in the virtual group "ftrace". *)
Definition in_ftrace_group (name : string) : Prop :=
  match GetEventByName table_ name with
  | Some event => "ftrace" = event_group event
  | None => False
  end.

(** What holds of the muxer between two external operations. *)
Record muxer_inv (w : World K) : Prop := mkInv {
  inv_tracing : tracing_on (current_state_ (muxer w)) = true ↔ configs_ (muxer w) ≠ ∅;
  inv_atrace : atrace_on (current_state_ (muxer w)) = true →
               configs_ (muxer w) ≠ ∅ ∧ PERFETTO_OS_ANDROID build = true;
  inv_enabled : ∀ name, name ∈ ftrace_events (current_state_ (muxer w)) →
                enabled_by_muxer (calls w) name;
  inv_accepted : ∀ id config name,
                configs_ (muxer w) !! id = Some config →
                name ∈ event_names config →
                name ∈ ftrace_events (current_state_ (muxer w)) ∨ in_ftrace_group name;
  inv_leftover : configs_ (muxer w) = ∅ →
                ∀ name, name ∈ ftrace_events (current_state_ (muxer w)) →
                disable_refused (calls w) name;
  inv_buffer : configs_ (muxer w) = ∅ →
                last_buffer_write (calls w) = None ∨
                last_buffer_write (calls w) = Some (CallSetCpuBufferSizeInPages 0)
}.

(** What the loop of [RequestConfig] does with the sorted event names
    [events], from the enabled set [E]: the names it accepts, the enabled
    set [E'] it leaves, and the calls [new] it logs. *)
Definition enable_loop_facts (events : list string) (E E' : gset string)
    (accepted : list string) (new : list Call) : Prop :=
  accepted `sublist_of` events
  ∧ (∀ name, name ∈ accepted → is_Some (GetEventByName table_ name))
  ∧ (∀ name, name ∈ E' ↔ name ∈ E ∨ (name ∈ accepted ∧ ¬ in_ftrace_group name))
  ∧ Forall (λ c, ∃ name event r,
              c = CallEnableEvent (event_group event) (event_name event) r
              ∧ name ∈ events
              ∧ GetEventByName table_ name = Some event
              ∧ name ∉ E
              ∧ "ftrace" ≠ event_group event) new
  ∧ (∀ name event, name ∈ events → GetEventByName table_ name = Some event →
       name ∉ accepted →
       CallEnableEvent (event_group event) (event_name event) false ∈ new).

(** What the loop of [RemoveConfig] does with [events_to_disable], from
    the enabled set [E]. *)
Definition disable_loop_facts (events_to_disable : list string)
    (E E' : gset string) (new : list Call) : Prop :=
  E' ⊆ E
  ∧ (∀ name, name ∈ E → name ∉ events_to_disable → name ∈ E')
  ∧ (∀ name, name ∈ events_to_disable → name ∈ E' →
       GetEventByName table_ name = None ∨ disable_refused new name)
  ∧ Forall (λ c, ∃ name event r,
              c = CallDisableEvent (event_group event) (event_name event) r
              ∧ name ∈ events_to_disable
              ∧ GetEventByName table_ name = Some event) new.

(** * Reasoning about runs *)

Local Abbreviation state w := (current_state_ (muxer w)).
Local Abbreviation configs w := (configs_ (muxer w)).

Lemma bind_Ok {A B} (m : M K A) (k : A → M K B) w b w'' :
  (m ≫= k) w = Ok b w'' ↔ ∃ a w', m w = Ok a w' ∧ k a w' = Ok b w''.
Proof.
  unfold mbind, M_bind. destruct (m w) as [a w'|f]; split.
  - eauto.
  - by intros (? & ? & [= <- <-] & ?).
  - done.
  - by intros (? & ? & ? & ?).
Qed.

Lemma set_ftrace_events_twice E1 E2 s :
  set_ftrace_events E2 (set_ftrace_events E1 s) = set_ftrace_events E2 s.
Proof. done. Qed.

Lemma set_ftrace_events_same s : set_ftrace_events (ftrace_events s) s = s.
Proof. by destruct s. Qed.

(** * Clock selection *)

Lemma SetupClock_unfold (request : FtraceConfig) (w : World K) :
  SetupClock request w =
    let cur := GetClock ftrace_ (host w) in
    let av := AvailableClocks ftrace_ cur.2 in
    let reads := [CallGetClock cur.1; CallAvailableClocks av.1] in
    match preferred_clock av.1 with
    | Some target =>
        if bool_decide (target = cur.1)
        then Ok tt (mkWorld (muxer w) av.2 (calls w ++ reads))
        else Ok tt (mkWorld (muxer w) (SetClock ftrace_ target av.2)
                            (calls w ++ reads ++ [CallSetClock target]))
    | None => Ok tt (mkWorld (muxer w) av.2 (calls w ++ reads))
    end.
Proof.
  unfold SetupClock, preferred_clock, kClocks, mbind, M_bind, call_host.
  cbn [SetupClock_loop List.find host muxer calls].
  destruct (GetClock ftrace_ (host w)) as [cur k1] eqn:Hcur.
  destruct (AvailableClocks ftrace_ k1) as [av k2] eqn:Hav.
  cbn [fst snd]. rewrite Hav. cbn [fst snd].
  rewrite <- !(assoc_L (++)). cbn [app].
  repeat (case_bool_decide; try congruence; try done);
    unfold call_host_; cbn [host muxer calls];
    by rewrite <- (assoc_L (++)).
Qed.

(** * The two loops *)

Lemma enabled_by_muxer_app log more name :
  enabled_by_muxer log name ∨ enabled_by_muxer more name →
  enabled_by_muxer (log ++ more) name.
Proof.
  unfold enabled_by_muxer. destruct (GetEventByName table_ name); [|tauto].
  rewrite elem_of_app. tauto.
Qed.

Lemma disable_refused_app log more name :
  disable_refused log name ∨ disable_refused more name →
  disable_refused (log ++ more) name.
Proof.
  unfold disable_refused. destruct (GetEventByName table_ name); [|tauto].
  rewrite elem_of_app. tauto.
Qed.

Lemma RequestConfig_events_spec events : ∀ actual w,
  ∃ actual' E' k' new,
    RequestConfig_events events actual w =
      Ok actual' (mkWorld (mkMuxer (set_ftrace_events E' (state w)) (configs w)
                                   (last_id_ (muxer w)))
                          k' (calls w ++ new))
    ∧ ftrace_events (state w) ⊆ E'
    ∧ Forall (λ c, is_EnableEvent c = true) new
    ∧ (∀ name, name ∈ E' →
         name ∈ ftrace_events (state w) ∨ enabled_by_muxer new name)
    ∧ (∀ name, name ∈ event_names actual' →
         name ∈ event_names actual
         ∨ (name ∈ events ∧ (name ∈ E' ∨ in_ftrace_group name))).
Proof.
  induction events as [|name events IH]; intros actual w.
  - exists actual, (ftrace_events (state w)), (host w), [].
    cbn [RequestConfig_events]. unfold mret, M_ret.
    rewrite set_ftrace_events_same, app_nil_r.
    destruct w as [[? ? ?] ? ?]. cbn. repeat split; auto.
  - cbn [RequestConfig_events].
    destruct (GetEventByName table_ name) as [event|] eqn:Hevent.
    + unfold mbind at 1, M_bind at 1, get_state at 1.
      destruct (bool_decide (name ∈ ftrace_events (state w))
                || bool_decide ("ftrace" = event_group event)) eqn:Hknown.
      * destruct (IH (add_event_names name actual) w)
          as (actual' & E' & k' & new & -> & Hsub & Hnew & HE & Hact).
        exists actual', E', k', new. repeat split; auto.
        intros n Hn. destruct (Hact n Hn) as [Hold|[Hin Hok]].
        -- cbn in Hold. apply elem_of_app in Hold as [Hold|Hold]; [by left|].
           apply list_elem_of_singleton in Hold as ->. right. split; [left|].
           apply orb_true_iff in Hknown as [Hk|Hk]; apply bool_decide_eq_true in Hk.
           ++ left. by apply Hsub.
           ++ right. unfold in_ftrace_group. by rewrite Hevent.
        -- right. split; [by right|done].
      * unfold mbind at 1, M_bind at 1, call_host at 1.
        cbn [host muxer calls].
        destruct (EnableEvent ftrace_ (event_group event) (event_name event) (host w))
          as [ok k1] eqn:Hcall.
        cbn [fst snd]. destruct ok.
        -- unfold mbind at 1, M_bind at 1, modify_state at 1.
           cbn [host muxer calls current_state_ configs_ last_id_].
           match goal with |- context [RequestConfig_events events ?a ?w1] =>
             destruct (IH a w1)
               as (actual' & E' & k' & new & -> & Hsub & Hnew & HE & Hact)
           end.
           cbn [host muxer calls current_state_ configs_ last_id_ ftrace_events
                set_ftrace_events] in *.
           exists actual', E', k',
             (CallEnableEvent (event_group event) (event_name event) true :: new).
           rewrite <- (assoc_L (++)). repeat split; auto.
           ++ set_solver.
           ++ intros n Hn. destruct (HE n Hn) as [Hold|Hlog].
              ** apply elem_of_union in Hold as [Hold|Hold]; [|by left].
                 apply elem_of_singleton in Hold as ->. right.
                 unfold enabled_by_muxer. rewrite Hevent. by left.
              ** right. revert Hlog. unfold enabled_by_muxer.
                 destruct (GetEventByName table_ n); [|done]. by right.
           ++ intros n Hn. destruct (Hact n Hn) as [Hold|[Hin Hok]].
              ** cbn in Hold. apply elem_of_app in Hold as [Hold|Hold]; [by left|].
                 apply list_elem_of_singleton in Hold as ->. right.
                 split; [left|]. left. apply Hsub. set_solver.
              ** right. split; [by right|done].
        -- match goal with |- context [RequestConfig_events events ?a ?w1] =>
             destruct (IH a w1)
               as (actual' & E' & k' & new & -> & Hsub & Hnew & HE & Hact)
           end.
           cbn [host muxer calls current_state_ configs_ last_id_] in *.
           exists actual', E', k',
             (CallEnableEvent (event_group event) (event_name event) false :: new).
           rewrite <- (assoc_L (++)). repeat split; auto.
           ++ intros n Hn. destruct (HE n Hn) as [Hold|Hlog]; [by left|].
              right. revert Hlog. unfold enabled_by_muxer.
              destruct (GetEventByName table_ n); [|done]. by right.
           ++ intros n Hn. destruct (Hact n Hn) as [Hold|[Hin Hok]]; [by left|].
              right. split; [by right|done].
    + destruct (IH actual w)
        as (actual' & E' & k' & new & -> & Hsub & Hnew & HE & Hact).
      exists actual', E', k', new. repeat split; auto.
      intros n Hn. destruct (Hact n Hn) as [Hold|[Hin Hok]]; [by left|].
      right. split; [by right|done].
Qed.

Lemma RemoveConfig_events_spec events_to_disable : ∀ w,
  ∃ E' k' new,
    RemoveConfig_events events_to_disable w =
      Ok tt (mkWorld (mkMuxer (set_ftrace_events E' (state w)) (configs w)
                              (last_id_ (muxer w)))
                     k' (calls w ++ new))
    ∧ E' ⊆ ftrace_events (state w)
    ∧ Forall (λ c, is_DisableEvent c = true) new
    ∧ (∀ name, name ∈ ftrace_events (state w) →
         name ∉ events_to_disable → name ∈ E')
    ∧ (∀ name, name ∈ events_to_disable → name ∈ E' →
         GetEventByName table_ name = None ∨ disable_refused new name).
Proof.
  induction events_to_disable as [|name rest IH]; intros w.
  - exists (ftrace_events (state w)), (host w), [].
    cbn [RemoveConfig_events]. unfold mret, M_ret.
    rewrite set_ftrace_events_same, app_nil_r.
    destruct w as [[? ? ?] ? ?]. cbn. repeat split; auto.
    intros ? Hin. by apply elem_of_nil in Hin.
  - cbn [RemoveConfig_events].
    destruct (GetEventByName table_ name) as [event|] eqn:Hevent.
    + unfold mbind at 1, M_bind at 1, call_host at 1.
      cbn [host muxer calls].
      destruct (DisableEvent ftrace_ (event_group event) (event_name event) (host w))
        as [ok k1] eqn:Hcall.
      cbn [fst snd]. unfold mbind at 1, M_bind at 1.
      destruct ok; cbn [when]; unfold modify_state, mret, M_ret;
        cbn [host muxer calls current_state_ configs_ last_id_];
        match goal with |- context [RemoveConfig_events rest ?w1] =>
          destruct (IH w1) as (E' & k' & new & -> & Hsub & Hnew & Hkeep & Hleft)
        end;
        cbn [host muxer calls current_state_ configs_ last_id_ ftrace_events
             set_ftrace_events] in *;
        rewrite <- (assoc_L (++)); cbn [app];
        eexists E', k', (_ :: new); (split; [reflexivity|]).
      * repeat split; auto.
        -- set_solver.
        -- intros n Hn Hnotin. apply Hkeep; [|set_solver].
           apply elem_of_difference. split; [done|]. set_solver.
        -- intros n Hn HnE. apply elem_of_cons in Hn as [->|Hn].
           ++ apply Hsub in HnE. set_solver.
           ++ destruct (Hleft n Hn HnE) as [?|Hlog]; [by left|]. right.
              revert Hlog. unfold disable_refused.
              destruct (GetEventByName table_ n); [|done]. by right.
      * repeat split; auto.
        -- intros n Hn Hnotin. apply Hkeep; [done|set_solver].
        -- intros n Hn HnE. apply elem_of_cons in Hn as [->|Hn].
           ++ right. unfold disable_refused. rewrite Hevent. by left.
           ++ destruct (Hleft n Hn HnE) as [?|Hlog]; [by left|]. right.
              revert Hlog. unfold disable_refused.
              destruct (GetEventByName table_ n); [|done]. by right.
    + destruct (IH w) as (E' & k' & new & -> & Hsub & Hnew & Hkeep & Hleft).
      exists E', k', new. repeat split; auto.
      * intros n Hn Hnotin. apply Hkeep; [done|set_solver].
      * intros n Hn HnE. apply elem_of_cons in Hn as [->|Hn]; [by left|].
        by apply Hleft.
Qed.

(** * Sets, tables and logs *)

Lemma elem_of_sorted_elements (s : gset string) name :
  name ∈ sorted_elements s ↔ name ∈ s.
Proof.
  unfold sorted_elements. rewrite merge_sort_Permutation. apply elem_of_elements.
Qed.

#[local] Instance string_le_total : Total string_le.
Proof. intros a b. apply String.leb_total. Qed.

(** The iteration order is the sorted one, without repetitions. *)
Lemma sorted_elements_Sorted (s : gset string) :
  Sorted string_le (sorted_elements s) ∧ NoDup (sorted_elements s).
Proof.
  split; [apply Sorted_merge_sort, _|].
  unfold sorted_elements. rewrite merge_sort_Permutation. apply NoDup_elements.
Qed.

Lemma elem_of_difference_list (a b : gset string) name :
  name ∈ difference a b ↔ name ∈ a ∧ name ∉ b.
Proof.
  unfold difference. rewrite list_elem_of_filter, elem_of_sorted_elements. tauto.
Qed.

Lemma elem_of_expected_ftrace_events (cs : gmap N FtraceConfig) name :
  name ∈ expected_ftrace_events cs ↔
  ∃ id config, cs !! id = Some config ∧ name ∈ event_names config.
Proof.
  unfold expected_ftrace_events. rewrite elem_of_union_list. split.
  - intros (X & HX & Hname). apply list_elem_of_In, in_map_iff in HX
      as ([id config] & <- & Hin).
    apply list_elem_of_In, elem_of_map_to_list in Hin.
    exists id, config. split; [done|]. by apply elem_of_list_to_set in Hname.
  - intros (id & config & Hlook & Hname).
    exists (list_to_set (event_names config)). split.
    + apply list_elem_of_In, in_map_iff. exists (id, config). split; [done|].
      by apply list_elem_of_In, elem_of_map_to_list.
    + by apply elem_of_list_to_set.
Qed.

Lemma emplace_not_empty id config (cs : gmap N FtraceConfig) :
  emplace id config cs ≠ ∅.
Proof.
  unfold emplace. destruct (cs !! id) eqn:Hid.
  - intros ->. by rewrite lookup_empty in Hid.
  - apply insert_non_empty.
Qed.

Lemma lookup_emplace id config (cs : gmap N FtraceConfig) id' config' :
  emplace id config cs !! id' = Some config' →
  cs !! id' = Some config' ∨ (id' = id ∧ config' = config).
Proof.
  unfold emplace. destruct (cs !! id) eqn:Hid; [by left|].
  rewrite lookup_insert. case_decide; [intros [= <-]; by right|by left].
Qed.

Lemma last_buffer_write_app log more :
  Forall (λ c, is_SetCpuBufferSizeInPages c = false) more →
  last_buffer_write (log ++ more) = last_buffer_write log.
Proof.
  intros Hmore. unfold last_buffer_write. rewrite filter_app.
  replace (filter _ more) with (@nil Call); [by rewrite app_nil_r|].
  symmetry. induction Hmore as [|c more Hc _ IH]; [done|].
  rewrite filter_cons_False; [done|]. by rewrite Hc.
Qed.

Lemma last_buffer_write_snoc log pages more :
  Forall (λ c, is_SetCpuBufferSizeInPages c = false) more →
  last_buffer_write (log ++ CallSetCpuBufferSizeInPages pages :: more)
  = Some (CallSetCpuBufferSizeInPages pages).
Proof.
  intros Hmore.
  change (CallSetCpuBufferSizeInPages pages :: more)
    with ([CallSetCpuBufferSizeInPages pages] ++ more).
  rewrite (assoc_L (++)), last_buffer_write_app by done.
  unfold last_buffer_write. rewrite filter_app, filter_cons_True by done.
  rewrite filter_nil. apply last_snoc.
Qed.

(** * Session setup and teardown helpers *)

Lemma EnableAtrace_unfold request w :
  EnableAtrace request w =
  let r := fork_execv_waitpid process_ "/system/bin/atrace"
             (EnableAtrace_args request) (host w) in
  if PERFETTO_DCHECK_IS_ON build && atrace_on (state w)
  then Crash (DcheckFailed "EnableAtrace: !current_state_.atrace_on")
  else match r.1 with
       | None => Crash (CheckFailed "pid >= 0")
       | Some status =>
           if bool_decide (status = 0%Z)
           then Ok tt (mkWorld (mkMuxer (set_atrace_on true (state w)) (configs w)
                                        (last_id_ (muxer w)))
                               r.2
                               (calls w ++ [CallExecv "/system/bin/atrace"
                                              (EnableAtrace_args request) r.1]))
           else Crash (CheckFailed "RunAtrace(args)")
       end.
Proof.
  unfold EnableAtrace, RunAtrace, mbind, M_bind, get_state, PERFETTO_DCHECK,
    PERFETTO_CHECK, modify_state, call_host, crash, mret, M_ret.
  rewrite negb_involutive.
  destruct (PERFETTO_DCHECK_IS_ON build && atrace_on (state w)); [done|].
  cbn [host muxer calls current_state_ configs_ last_id_].
  destruct (fork_execv_waitpid _ _ _ _) as [[status|] k1]; cbn [fst snd]; [|done].
  by case_bool_decide.
Qed.

Lemma DisableAtrace_unfold w :
  DisableAtrace w =
  let r := fork_execv_waitpid process_ "/system/bin/atrace"
             ["atrace"; "--async_stop"] (host w) in
  if PERFETTO_DCHECK_IS_ON build && atrace_on (state w)
  then Crash (DcheckFailed "DisableAtrace: !current_state_.atrace_on")
  else match r.1 with
       | None => Crash (CheckFailed "pid >= 0")
       | Some status =>
           if bool_decide (status = 0%Z)
           then Ok tt (mkWorld (mkMuxer (set_atrace_on false (state w)) (configs w)
                                        (last_id_ (muxer w)))
                               r.2
                               (calls w ++ [CallExecv "/system/bin/atrace"
                                              ["atrace"; "--async_stop"] r.1]))
           else Crash (CheckFailed "RunAtrace({atrace, --async_stop})")
       end.
Proof.
  unfold DisableAtrace, RunAtrace, mbind, M_bind, get_state, PERFETTO_DCHECK,
    PERFETTO_CHECK, modify_state, call_host, crash, mret, M_ret.
  rewrite negb_involutive.
  destruct (PERFETTO_DCHECK_IS_ON build && atrace_on (state w)); [done|].
  cbn [host muxer calls current_state_ configs_ last_id_].
  destruct (fork_execv_waitpid _ _ _ _) as [[status|] k1]; cbn [fst snd]; [|done].
  by case_bool_decide.
Qed.

Lemma SetupBufferSize_unfold request w :
  SetupBufferSize request w =
  let pages := ComputeCpuBufferSizeInPages (kPageSize build) (buffer_size_kb request) in
  Ok tt (mkWorld (mkMuxer (set_cpu_buffer_size_pages pages (state w)) (configs w)
                          (last_id_ (muxer w)))
                 (SetCpuBufferSizeInPages ftrace_ pages (host w))
                 (calls w ++ [CallSetCpuBufferSizeInPages pages])).
Proof. done. Qed.

(** [SetupClock] always returns; it touches the host and the log only,
    and logs two reads followed by at most one clock write. *)
Lemma SetupClock_frame request w :
  ∃ k' new, SetupClock request w = Ok tt (mkWorld (muxer w) k' (calls w ++ new))
    ∧ Forall (λ c, is_SetCpuBufferSizeInPages c = false ∧ is_Execv c = false
                   ∧ is_EnableEvent c = false) new.
Proof.
  rewrite SetupClock_unfold. cbv zeta.
  destruct (preferred_clock _) as [target|]; [case_bool_decide|];
    eexists _, _; (split; [reflexivity|]); repeat constructor.
Qed.

(** * RequestConfig *)

Lemma RequestConfig_accept_spec request w :
  let id := (last_id_ (muxer w) + 1) mod 2 ^ FtraceConfigId_bits build in
  let cold := bool_decide (configs w = ∅) in
  if cold && (PERFETTO_DCHECK_IS_ON build && tracing_on (state w))
  then RequestConfig_accept request w
       = Crash (DcheckFailed "RequestConfig: !current_state_.tracing_on")
  else ∃ actual E' k' new,
    RequestConfig_accept request w =
      Ok id (mkWorld (mkMuxer (mkFtraceState E' (cold || tracing_on (state w))
                                 (atrace_on (state w))
                                 (cpu_buffer_size_pages (state w)))
                              (emplace id actual (configs w)) id)
                     k' (calls w ++ new))
    ∧ ftrace_events (state w) ⊆ E'
    ∧ Forall (λ c, setup_free c = true) new
    ∧ (∀ name, name ∈ E' →
         name ∈ ftrace_events (state w) ∨ enabled_by_muxer new name)
    ∧ (∀ name, name ∈ event_names actual →
         name ∈ GetFtraceEvents request ∧ (name ∈ E' ∨ in_ftrace_group name)).
Proof.
  intros id cold.
  destruct (RequestConfig_events_spec (sorted_elements (GetFtraceEvents request))
              FtraceConfig_default w)
    as (actual & E' & k' & new & Hloop & Hsub & Hnew & HE & Hact).
  assert (Hact' : ∀ name, name ∈ event_names actual →
            name ∈ GetFtraceEvents request ∧ (name ∈ E' ∨ in_ftrace_group name)).
  { intros n Hn. destruct (Hact n Hn) as [Hnil|[Hin Hok]].
    - by apply elem_of_nil in Hnil.
    - split; [|done]. by apply elem_of_sorted_elements. }
  unfold RequestConfig_accept, mbind, M_bind, get_muxer. rewrite Hloop.
  cbn [host muxer calls current_state_ configs_ last_id_].
  fold cold id. destruct cold eqn:Hcold; cbn [when orb andb].
  - unfold PERFETTO_DCHECK, call_host_, modify_state, put_last_id,
      put_configs, mret, M_ret.
    cbn [tracing_on set_ftrace_events]. rewrite negb_involutive.
    destruct (PERFETTO_DCHECK_IS_ON build && tracing_on (state w)); [done|].
    cbn [host muxer calls current_state_ configs_ last_id_ set_tracing_on
         ftrace_events atrace_on cpu_buffer_size_pages tracing_on].
    exists actual, E', (EnableTracing ftrace_ k'), (new ++ [CallEnableTracing]).
    rewrite <- (assoc_L (++)). split; [done|]. split; [done|]. split; [|split].
    + apply Forall_app. split; [|by repeat constructor].
      eapply Forall_impl; [exact Hnew|]. by intros [].
    + intros n Hn. destruct (HE n Hn) as [?|Hlog]; [by left|]. right.
      revert Hlog. unfold enabled_by_muxer.
      destruct (GetEventByName table_ n); [|done]. rewrite elem_of_app. tauto.
    + done.
  - unfold put_last_id, put_configs, mret, M_ret.
    cbn [host muxer calls current_state_ configs_ last_id_ set_ftrace_events].
    exists actual, E', k', new. split; [done|]. split; [done|]. split; [|split].
    + eapply Forall_impl; [exact Hnew|]. by intros [].
    + done.
    + done.
Qed.

Lemma RequestConfig_reject_cold request w :
  configs w = ∅ →
  (IsTracingEnabled ftrace_ (host w)).1 = true →
  PERFETTO_DCHECK_IS_ON build && tracing_on (state w) = false →
  RequestConfig request w =
    Ok 0 (mkWorld (muxer w) (IsTracingEnabled ftrace_ (host w)).2
                  (calls w ++ [CallIsTracingEnabled true])).
Proof.
  intros Hempty Hen Hdcheck.
  unfold RequestConfig, mbind, M_bind, call_host, get_muxer, PERFETTO_DCHECK.
  cbn [host muxer calls]. rewrite Hen, bool_decide_eq_true_2 by done.
  by rewrite negb_involutive, Hdcheck.
Qed.

Lemma RequestConfig_reject_warm request w :
  configs w ≠ ∅ →
  (IsTracingEnabled ftrace_ (host w)).1 = false →
  RequestConfig request w =
    Ok 0 (mkWorld (muxer w) (IsTracingEnabled ftrace_ (host w)).2
                  (calls w ++ [CallIsTracingEnabled false])).
Proof.
  intros Hne Hen.
  unfold RequestConfig, mbind, M_bind, call_host, get_muxer.
  cbn [host muxer calls]. by rewrite Hen, bool_decide_eq_false_2 by done.
Qed.

Lemma RequestConfig_warm request w :
  configs w ≠ ∅ →
  (IsTracingEnabled ftrace_ (host w)).1 = true →
  let id := (last_id_ (muxer w) + 1) mod 2 ^ FtraceConfigId_bits build in
  ∃ actual E' k' new,
    RequestConfig request w =
      Ok id (mkWorld (mkMuxer (mkFtraceState E' (tracing_on (state w))
                                 (atrace_on (state w))
                                 (cpu_buffer_size_pages (state w)))
                              (emplace id actual (configs w)) id)
                     k' (calls w ++ CallIsTracingEnabled true :: new))
    ∧ ftrace_events (state w) ⊆ E'
    ∧ Forall (λ c, is_EnableEvent c = true) new
    ∧ (∀ name, name ∈ E' →
         name ∈ ftrace_events (state w) ∨ enabled_by_muxer new name)
    ∧ (∀ name, name ∈ event_names actual →
         name ∈ GetFtraceEvents request ∧ (name ∈ E' ∨ in_ftrace_group name)).
Proof.
  intros Hne Hen id.
  unfold RequestConfig, mbind, M_bind, call_host, get_muxer.
  cbn [host muxer calls]. rewrite Hen, bool_decide_eq_false_2 by done.
  cbn [negb].
  set (w0 := mkWorld (muxer w) _ _).
  destruct (RequestConfig_events_spec (sorted_elements (GetFtraceEvents request))
              FtraceConfig_default w0)
    as (actual & E' & k' & new & Hloop & Hsub & Hnew & HE & Hact).
  unfold RequestConfig_accept, mbind, M_bind, get_muxer. rewrite Hloop.
  cbn [host muxer calls current_state_ configs_ last_id_ w0].
  rewrite bool_decide_eq_false_2 by done. cbn [when].
  unfold put_last_id, put_configs, mret, M_ret.
  cbn [host muxer calls current_state_ configs_ last_id_ set_ftrace_events].
  exists actual, E', k', new. rewrite <- (assoc_L (++)).
  split; [done|]. split; [done|]. split; [done|]. split; [done|].
  intros n Hn. destruct (Hact n Hn) as [Hnil|[Hin Hok]].
  - by apply elem_of_nil in Hnil.
  - split; [|done]. by apply elem_of_sorted_elements.
Qed.

Lemma RequestConfig_cold request w :
  configs w = ∅ →
  (IsTracingEnabled ftrace_ (host w)).1 = false →
  let id := (last_id_ (muxer w) + 1) mod 2 ^ FtraceConfigId_bits build in
  let pages := ComputeCpuBufferSizeInPages (kPageSize build) (buffer_size_kb request) in
  let with_atrace := RequiresAtrace request && PERFETTO_OS_ANDROID build in
  let a := fork_execv_waitpid process_ "/system/bin/atrace"
             (EnableAtrace_args request) (IsTracingEnabled ftrace_ (host w)).2 in
  if (PERFETTO_DCHECK_IS_ON build && tracing_on (state w))
     || with_atrace && ((PERFETTO_DCHECK_IS_ON build && atrace_on (state w))
                        || negb (bool_decide (a.1 = Some 0%Z)))
  then ∃ f, RequestConfig request w = Crash f
  else ∃ actual E' k' rest,
    RequestConfig request w =
      Ok id (mkWorld (mkMuxer (mkFtraceState E' true
                                 (with_atrace || atrace_on (state w)) pages)
                              (emplace id actual ∅) id)
                     k' (calls w ++ CallIsTracingEnabled false ::
                           (if with_atrace
                            then [CallExecv "/system/bin/atrace"
                                    (EnableAtrace_args request) (Some 0%Z)]
                            else []) ++ rest))
    ∧ ftrace_events (state w) ⊆ E'
    ∧ Forall (λ c, is_Execv c = false) rest
    ∧ (∀ name, name ∈ E' →
         name ∈ ftrace_events (state w) ∨ enabled_by_muxer rest name)
    ∧ (∀ name, name ∈ event_names actual →
         name ∈ GetFtraceEvents request ∧ (name ∈ E' ∨ in_ftrace_group name)).
Proof.
  intros Hempty Hen id pages with_atrace a.
  remember (RequestConfig request w) as res eqn:Hres.
  unfold RequestConfig in Hres.
  unfold mbind at 1, M_bind at 1, call_host at 1 in Hres.
  cbn [host muxer calls fst snd] in Hres. rewrite Hen in Hres.
  unfold mbind at 1, M_bind at 1, get_muxer at 1 in Hres.
  cbn [host muxer calls] in Hres.
  rewrite bool_decide_eq_true_2 in Hres by done.
  unfold mbind at 1, M_bind at 1, PERFETTO_DCHECK at 1 in Hres.
  rewrite negb_involutive in Hres.
  destruct (PERFETTO_DCHECK_IS_ON build && tracing_on (state w)) eqn:Hd1;
    cbn [orb]; [by eexists|].
  unfold mbind at 1, M_bind at 1 in Hres. unfold EnableAtraceOnAndroid in Hres.
  match type of Hres with context [when _ _ ?w1] => set (w0 := w1) in Hres end.
  assert (Hstart :
    if with_atrace && ((PERFETTO_DCHECK_IS_ON build && atrace_on (state w))
                       || negb (bool_decide (a.1 = Some 0%Z)))
    then ∃ f, when (RequiresAtrace request)
                (if PERFETTO_OS_ANDROID build then EnableAtrace request else mret ())
                w0 = Crash f
    else ∃ k1, when (RequiresAtrace request)
                (if PERFETTO_OS_ANDROID build then EnableAtrace request else mret ())
                w0 =
           Ok tt (mkWorld (mkMuxer (set_atrace_on (with_atrace || atrace_on (state w))
                                      (state w))
                                   (configs w) (last_id_ (muxer w)))
                          k1
                          (calls w ++ CallIsTracingEnabled false ::
                             (if with_atrace
                              then [CallExecv "/system/bin/atrace"
                                      (EnableAtrace_args request) (Some 0%Z)]
                              else [])))).
  { clear Hres. subst with_atrace.
    destruct (RequiresAtrace request); cbn [when andb orb].
    2:{ eexists. unfold mret, M_ret, w0.
        do 2 f_equal. by destruct (muxer w) as [[] ? ?]. }
    destruct (PERFETTO_OS_ANDROID build); cbn [andb orb].
    2:{ eexists. unfold mret, M_ret, w0.
        do 2 f_equal. by destruct (muxer w) as [[] ? ?]. }
    rewrite EnableAtrace_unfold. cbv zeta. cbn [w0 host muxer calls].
    fold a. destruct (PERFETTO_DCHECK_IS_ON build && atrace_on (state w));
      cbn [orb]; [by eexists|].
    destruct a.1 as [status|]; cbn [negb].
    - destruct (bool_decide_reflect (status = 0%Z)) as [->|Hst].
      + rewrite bool_decide_eq_true_2 by done. cbn [negb].
        eexists. by rewrite <- (assoc_L (++)).
      + rewrite (bool_decide_eq_false_2 (Some status = Some 0%Z)) by congruence.
        by eexists.
    - rewrite bool_decide_eq_false_2 by done. by eexists. }
  destruct (with_atrace && _) eqn:Hd2.
  { destruct Hstart as [f Hf]. rewrite Hf in Hres. by eexists. }
  destruct Hstart as [k1 Hk1]. rewrite Hk1 in Hres. clear Hk1.
  unfold mbind at 1, M_bind at 1 in Hres.
  match type of Hres with context [SetupClock request ?w1] =>
    destruct (SetupClock_frame request w1) as (k2 & clock_calls & Hc & Hclock)
  end.
  rewrite Hc in Hres. clear Hc.
  unfold mbind at 1, M_bind at 1 in Hres.
  rewrite SetupBufferSize_unfold in Hres. cbv zeta in Hres.
  cbn [host muxer calls current_state_ configs_ last_id_] in Hres.
  fold pages in Hres.
  match type of Hres with context [RequestConfig_accept request ?w3] =>
    pose proof (RequestConfig_accept_spec request w3) as Hacc
  end.
  cbv zeta in Hacc.
  cbn [host muxer calls current_state_ configs_ last_id_ set_atrace_on
       set_cpu_buffer_size_pages tracing_on atrace_on cpu_buffer_size_pages
       ftrace_events] in Hacc.
  rewrite Hd1, andb_false_r in Hacc.
  destruct Hacc as (actual & E' & k' & new & Hacc & Hsub & Hnew & HE & Hact).
  rewrite Hacc in Hres. clear Hacc.
  rewrite Hempty, bool_decide_eq_true_2 in Hres by done.
  cbn [orb] in Hres. fold id in Hres.
  exists actual, E', k',
    (clock_calls ++ CallSetCpuBufferSizeInPages pages :: new).
  split.
  { rewrite Hres. do 2 f_equal. by rewrite <- !(assoc_L (++)). }
  split; [done|]. split; [|split; [|done]].
  - apply Forall_app. split.
    + eapply Forall_impl; [exact Hclock|]. by intros ? (? & ? & ?).
    + constructor; [done|]. eapply Forall_impl; [exact Hnew|].
      intros []; cbn; done.
  - intros n Hn. destruct (HE n Hn) as [?|Hlog]; [by left|]. right.
    revert Hlog. unfold enabled_by_muxer.
    destruct (GetEventByName table_ n); [|done].
    rewrite elem_of_app, elem_of_cons. tauto.
Qed.

(** * RemoveConfig *)

Lemma RemoveConfig_unknown id w :
  id = 0 ∨ configs w !! id = None → RemoveConfig id w = Ok false w.
Proof.
  intros Hid. unfold RemoveConfig, mbind, M_bind, get_muxer.
  case_bool_decide; [done|]. destruct Hid as [? | ->]; done.
Qed.

Lemma RemoveConfig_known id w config :
  id ≠ 0 → configs w !! id = Some config →
  let cs := delete id (configs w) in
  ∃ E' k' new,
    E' ⊆ ftrace_events (state w)
    ∧ Forall (λ c, is_DisableEvent c = true) new
    ∧ (∀ name, name ∈ ftrace_events (state w) →
         name ∈ expected_ftrace_events cs → name ∈ E')
    ∧ (∀ name, name ∈ E' → name ∉ expected_ftrace_events cs →
         GetEventByName table_ name = None ∨ disable_refused new name)
    ∧ RemoveConfig id w =
      if bool_decide (cs = ∅) then
        if PERFETTO_DCHECK_IS_ON build && negb (tracing_on (state w))
        then Crash (DcheckFailed "RemoveConfig: current_state_.tracing_on")
        else
          let k'' := ClearTrace ftrace_ (DisableAllEvents ftrace_
                       (SetCpuBufferSizeInPages ftrace_ 0
                          (DisableTracing ftrace_ k'))) in
          let log := calls w ++ new ++
                     [CallDisableTracing; CallSetCpuBufferSizeInPages 0;
                      CallDisableAllEvents; CallClearTrace] in
          if atrace_on (state w) && PERFETTO_OS_ANDROID build then
            if PERFETTO_DCHECK_IS_ON build
            then Crash (DcheckFailed "DisableAtrace: !current_state_.atrace_on")
            else
              let r := fork_execv_waitpid process_ "/system/bin/atrace"
                         ["atrace"; "--async_stop"] k'' in
              match r.1 with
              | None => Crash (CheckFailed "pid >= 0")
              | Some status =>
                  if bool_decide (status = 0%Z)
                  then Ok true (mkWorld
                         (mkMuxer (mkFtraceState E' false false
                                     (cpu_buffer_size_pages (state w)))
                                  cs (last_id_ (muxer w)))
                         r.2
                         (log ++ [CallExecv "/system/bin/atrace"
                                    ["atrace"; "--async_stop"] r.1]))
                  else Crash (CheckFailed "RunAtrace({atrace, --async_stop})")
              end
          else Ok true (mkWorld
                 (mkMuxer (mkFtraceState E' false (atrace_on (state w))
                             (cpu_buffer_size_pages (state w)))
                          cs (last_id_ (muxer w)))
                 k'' log)
      else Ok true (mkWorld (mkMuxer (set_ftrace_events E' (state w)) cs
                                     (last_id_ (muxer w)))
                            k' (calls w ++ new)).
Proof.
  intros Hid Hconfig cs.
  remember (RemoveConfig id w) as res eqn:Hres.
  unfold RemoveConfig in Hres.
  unfold mbind at 1, M_bind at 1, get_muxer at 1 in Hres.
  rewrite bool_decide_eq_false_2, Hconfig in Hres by done.
  unfold mbind at 1, M_bind at 1, put_configs at 1 in Hres.
  unfold mbind at 1, M_bind at 1, get_muxer at 1 in Hres.
  cbn [host muxer calls current_state_ configs_ last_id_] in Hres.
  fold cs in Hres.
  unfold mbind at 1, M_bind at 1 in Hres.
  match type of Hres with context [RemoveConfig_events ?l ?w1] =>
    destruct (RemoveConfig_events_spec l w1)
      as (E' & k' & new & Hloop & Hsub & Hnew & Hkeep & Hleft)
  end.
  rewrite Hloop in Hres. clear Hloop.
  cbn [host muxer calls current_state_ configs_ last_id_] in *.
  exists E', k', new. split; [done|]. split; [done|]. split; [|split].
  { intros n Hn Hexp. apply Hkeep; [done|].
    rewrite elem_of_difference_list. tauto. }
  { intros n Hn Hexp. apply Hleft; [|done].
    apply elem_of_difference_list. split; [by apply Hsub|done]. }
  unfold mbind at 1, M_bind at 1, get_muxer at 1 in Hres.
  cbn [host muxer calls current_state_ configs_ last_id_] in Hres.
  destruct (bool_decide (cs = ∅)); cbn [when] in Hres.
  2:{ by rewrite Hres. }
  unfold mbind at 1, M_bind at 1 in Hres.
  unfold mbind at 1, M_bind at 1, PERFETTO_DCHECK at 1 in Hres.
  cbn [tracing_on set_ftrace_events] in Hres.
  destruct (PERFETTO_DCHECK_IS_ON build && negb (tracing_on (state w)));
    [by rewrite Hres|].
  unfold mbind at 1 2 3 4 5 6, M_bind at 1 2 3 4 5 6, call_host_, modify_state,
    get_state in Hres.
  cbn [host muxer calls current_state_ configs_ last_id_ set_tracing_on
       set_ftrace_events atrace_on ftrace_events cpu_buffer_size_pages] in Hres.
  rewrite <- !(assoc_L (++)) in Hres. cbn [app] in Hres.
  cbv zeta. unfold DisableAtraceOnAndroid in Hres.
  assert (Hst : ∀ b, set_atrace_on b (set_tracing_on false (set_ftrace_events E' (state w)))
                = mkFtraceState E' false b (cpu_buffer_size_pages (state w))) by done.
  assert (Hst' : set_tracing_on false (set_ftrace_events E' (state w))
                = mkFtraceState E' false (atrace_on (state w))
                    (cpu_buffer_size_pages (state w))) by done.
  destruct (atrace_on (state w)) eqn:Hatrace; cbn [when andb] in Hres |- *.
  2:{ by rewrite Hres, Hst'. }
  destruct (PERFETTO_OS_ANDROID build).
  2:{ by rewrite Hres, Hst'. }
  rewrite DisableAtrace_unfold in Hres. cbv zeta in Hres.
  cbn [host muxer calls current_state_ configs_ last_id_ set_tracing_on
       set_ftrace_events atrace_on] in Hres.
  rewrite Hatrace in Hres.
  destruct (PERFETTO_DCHECK_IS_ON build); cbn [andb] in Hres; [by rewrite Hres|].
  destruct (fork_execv_waitpid _ _ _ _) as [[status|] k3]; cbn [fst snd] in *;
    [|by rewrite Hres].
  case_bool_decide; rewrite Hres; [|done].
  unfold mret, M_ret. by rewrite <- !(assoc_L (++)).
Qed.

(** * The invariant *)

Lemma initial_world_inv k : muxer_inv (initial_world k).
Proof.
  split; cbn.
  - split; [done|]. by intros [].
  - done.
  - intros ? Hin. by apply not_elem_of_empty in Hin.
  - intros ???. by rewrite lookup_empty.
  - intros _ ? Hin. by apply not_elem_of_empty in Hin.
  - by left.
Qed.

(** Reads, and more generally calls that are not buffer size writes, do
    not disturb the invariant. *)
Lemma muxer_inv_more_calls m k k' log more :
  Forall (λ c, is_SetCpuBufferSizeInPages c = false) more →
  muxer_inv (mkWorld m k log) → muxer_inv (mkWorld m k' (log ++ more)).
Proof.
  intros Hmore [H1 H2 H3 H4 H5 H6]. split; cbn [muxer host calls] in *; try done.
  - intros n Hn. apply enabled_by_muxer_app. left. by apply H3.
  - intros Hempty n Hn. apply disable_refused_app. left. by apply H5.
  - intros Hempty. rewrite last_buffer_write_app by done. by apply H6.
Qed.

Lemma RequestConfig_preserves_inv request w id w' :
  muxer_inv w → RequestConfig request w = Ok id w' → muxer_inv w'.
Proof.
  intros Hinv Hrun. pose proof Hinv as [H1 H2 H3 H4 H5 H6].
  destruct (decide (configs w = ∅)) as [Hempty|Hne];
    destruct (IsTracingEnabled ftrace_ (host w)).1 eqn:Hen.
  - rewrite RequestConfig_reject_cold in Hrun; [|done..|].
    + injection Hrun as <- <-. apply (muxer_inv_more_calls _ (host w)); [by repeat constructor|].
      by destruct w.
    + destruct (tracing_on (state w)) eqn:Hon; [|by rewrite andb_false_r].
      by destruct H1 as [H1 _]; destruct H1.
  - pose proof (RequestConfig_cold request w Hempty Hen) as Hcold.
    cbv zeta in Hcold.
    destruct (_ || _) in Hcold; [destruct Hcold as [f Hf]; congruence|].
    destruct Hcold as (actual & E' & k' & rest & Heq & Hsub & Hrest & HE & Hact).
    rewrite Heq in Hrun. injection Hrun as <- <-. clear Heq.
    split; cbn [muxer calls current_state_ configs_ tracing_on atrace_on
                ftrace_events].
    + split; [intros _; apply emplace_not_empty|done].
    + intros Hat. split; [apply emplace_not_empty|].
      apply orb_true_iff in Hat as [Hat|Hat]; [|by apply H2].
      by apply andb_true_iff in Hat as [_ ?].
    + intros n Hn. apply enabled_by_muxer_app.
      destruct (HE n Hn) as [Hold|Hlog]; [left; by apply H3|]. right.
      revert Hlog. unfold enabled_by_muxer.
      destruct (GetEventByName table_ n); [|done].
      rewrite elem_of_cons, elem_of_app. tauto.
    + intros id' config n Hlook Hn.
      apply lookup_emplace in Hlook as [Hlook|[_ ->]].
      * by rewrite lookup_empty in Hlook.
      * by apply Hact.
    + intros Habs. by apply emplace_not_empty in Habs.
    + intros Habs. by apply emplace_not_empty in Habs.
  - destruct (RequestConfig_warm request w Hne Hen)
      as (actual & E' & k' & new & Heq & Hsub & Hnew & HE & Hact).
    rewrite Heq in Hrun. injection Hrun as <- <-. clear Heq.
    split; cbn [muxer calls current_state_ configs_ tracing_on atrace_on
                ftrace_events].
    + split; [intros _; apply emplace_not_empty|]. intros _. by apply H1.
    + intros Hat. split; [apply emplace_not_empty|]. by apply H2.
    + intros n Hn. apply enabled_by_muxer_app.
      destruct (HE n Hn) as [Hold|Hlog]; [left; by apply H3|]. right.
      revert Hlog. unfold enabled_by_muxer.
      destruct (GetEventByName table_ n); [|done].
      rewrite elem_of_cons. tauto.
    + intros id' config n Hlook Hn.
      apply lookup_emplace in Hlook as [Hlook|[_ ->]].
      * destruct (H4 _ _ _ Hlook Hn) as [?|?]; [left; by apply Hsub|by right].
      * by apply Hact.
    + intros Habs. by apply emplace_not_empty in Habs.
    + intros Habs. by apply emplace_not_empty in Habs.
  - rewrite RequestConfig_reject_warm in Hrun by done.
    injection Hrun as <- <-. apply (muxer_inv_more_calls _ (host w)); [by repeat constructor|].
    by destruct w.
Qed.

Lemma expected_ftrace_events_empty : expected_ftrace_events ∅ = ∅.
Proof. unfold expected_ftrace_events. by rewrite map_to_list_empty. Qed.

Lemma RemoveConfig_preserves_inv id w b w' :
  muxer_inv w → RemoveConfig id w = Ok b w' → muxer_inv w'.
Proof.
  intros Hinv Hrun. pose proof Hinv as [H1 H2 H3 H4 H5 H6].
  destruct (decide (id = 0)) as [->|Hid].
  { rewrite RemoveConfig_unknown in Hrun by (by left). by injection Hrun as <- <-. }
  destruct (configs w !! id) as [config|] eqn:Hconfig.
  2:{ rewrite RemoveConfig_unknown in Hrun by (by right).
      by injection Hrun as <- <-. }
  assert (Hne : configs w ≠ ∅) by (intros Habs; by rewrite Habs in Hconfig).
  destruct (RemoveConfig_known id w config Hid Hconfig)
    as (E' & k' & new & Hsub & Hnew & Hkeep & Hleft & Heq).
  cbv zeta in Heq. rewrite Heq in Hrun. clear Heq.
  assert (Hen : ∀ log n, n ∈ E' → enabled_by_muxer (calls w ++ log) n).
  { intros log n Hn. apply enabled_by_muxer_app. left. by apply H3, Hsub. }
  case_bool_decide as Hcs.
  - (* the last config went away: teardown *)
    assert (Href : ∀ log n, n ∈ E' → disable_refused (calls w ++ new ++ log) n).
    { intros log n Hn. apply disable_refused_app. right.
      apply disable_refused_app. left.
      assert (Hnot : n ∉ expected_ftrace_events (delete id (configs w))).
      { rewrite Hcs, expected_ftrace_events_empty. apply not_elem_of_empty. }
      destruct (Hleft n Hn Hnot) as [Hnone|?]; [|done].
      specialize (Hen [] n Hn). unfold enabled_by_muxer in Hen.
      by rewrite Hnone in Hen. }
    assert (Hbuf : ∀ more,
      Forall (λ c, is_SetCpuBufferSizeInPages c = false) more →
      last_buffer_write ((calls w ++ new ++
        [CallDisableTracing; CallSetCpuBufferSizeInPages 0;
         CallDisableAllEvents; CallClearTrace]) ++ more)
      = Some (CallSetCpuBufferSizeInPages 0)).
    { intros more Hmore.
      replace ((calls w ++ new ++ [CallDisableTracing; CallSetCpuBufferSizeInPages 0;
                 CallDisableAllEvents; CallClearTrace]) ++ more)
        with ((calls w ++ new ++ [CallDisableTracing]) ++
              CallSetCpuBufferSizeInPages 0 ::
              ([CallDisableAllEvents; CallClearTrace] ++ more)).
      - apply last_buffer_write_snoc. by repeat constructor.
      - by rewrite <- !(assoc_L (++)). }
    destruct (PERFETTO_DCHECK_IS_ON build && negb (tracing_on (state w)));
      [done|].
    cbv zeta in Hrun.
    destruct (atrace_on (state w) && PERFETTO_OS_ANDROID build) eqn:Hstop.
    + destruct (PERFETTO_DCHECK_IS_ON build); [done|].
      destruct (fork_execv_waitpid _ _ _ _).1 as [status|]; [|done].
      case_bool_decide; [|done]. injection Hrun as <- <-.
      split; cbn [muxer calls current_state_ configs_ tracing_on atrace_on
                  ftrace_events].
      * split; [done|]. by intros [].
      * done.
      * intros n Hn. rewrite <- !(assoc_L (++)). by apply Hen.
      * intros id' c n Hlook. by rewrite Hcs, lookup_empty in Hlook.
      * intros _ n Hn. rewrite <- !(assoc_L (++)). by apply Href.
      * intros _. right. apply Hbuf. by repeat constructor.
    + injection Hrun as <- <-.
      split; cbn [muxer calls current_state_ configs_ tracing_on atrace_on
                  ftrace_events].
      * split; [done|]. by intros [].
      * intros Hat. destruct (H2 Hat) as [_ Handroid].
        by rewrite Hat, Handroid in Hstop.
      * intros n Hn. by apply Hen.
      * intros id' c n Hlook. by rewrite Hcs, lookup_empty in Hlook.
      * intros _ n Hn. by apply Href.
      * intros _. right. rewrite <- (app_nil_r (_ ++ _ ++ _)).
        by apply Hbuf.
  - injection Hrun as <- <-.
    split; cbn [muxer calls current_state_ configs_ tracing_on atrace_on
                ftrace_events set_ftrace_events].
    + split; [done|]. intros _. by apply H1.
    + intros Hat. split; [done|]. by apply H2.
    + intros n Hn. by apply Hen.
    + intros id' c n Hlook Hn.
      assert (Hold : configs w !! id' = Some c).
      { apply lookup_delete_Some in Hlook. tauto. }
      destruct (H4 _ _ _ Hold Hn) as [Hin|?]; [left|by right].
      apply Hkeep; [done|]. apply elem_of_expected_ftrace_events. eauto.
    + done.
    + done.
Qed.

Lemma step_preserves_inv op w r w' :
  muxer_inv w → step op w = Ok r w' → muxer_inv w'.
Proof.
  intros Hinv Hstep. destruct op as [request|id]; cbn [step] in Hstep;
    apply bind_Ok in Hstep as (a & w1 & Hop & Hret);
    injection Hret as <- <-.
  - by eapply RequestConfig_preserves_inv.
  - by eapply RemoveConfig_preserves_inv.
Qed.

Lemma run_cons_Ok op ops w rets w' :
  run (op :: ops) w = Ok rets w' ↔
  ∃ r w1 rs, step op w = Ok r w1 ∧ run ops w1 = Ok rs w' ∧ rets = r :: rs.
Proof.
  cbn [run]. rewrite bind_Ok. split.
  - intros (r & w1 & Hstep & Hrest). apply bind_Ok in Hrest as (rs & w2 & Hrun & Hret).
    injection Hret as <- <-. by exists r, w1, rs.
  - intros (r & w1 & rs & Hstep & Hrun & ->). exists r, w1. split; [done|].
    apply bind_Ok. by exists rs, w'.
Qed.

Lemma run_preserves_inv ops : ∀ w rets w',
  muxer_inv w → run ops w = Ok rets w' → muxer_inv w'.
Proof.
  induction ops as [|op ops IH]; intros w rets w' Hinv Hrun.
  - by injection Hrun as <- <-.
  - apply run_cons_Ok in Hrun as (r & w1 & rs & Hstep & Hrun & ->).
    eapply IH; [|exact Hrun]. by eapply step_preserves_inv.
Qed.

Lemma reachable_inv w : reachable w → muxer_inv w.
Proof.
  intros (k & ops & rets & Hrun).
  eapply run_preserves_inv; [apply initial_world_inv|exact Hrun].
Qed.

(** * The config table and the id counter *)

Lemma RequestConfig_dcheck_cold request w :
  configs w = ∅ →
  PERFETTO_DCHECK_IS_ON build && tracing_on (state w) = true →
  RequestConfig request w
  = Crash (DcheckFailed "RequestConfig: !current_state_.tracing_on").
Proof.
  intros Hempty Hdcheck.
  unfold RequestConfig, mbind, M_bind, call_host, get_muxer, PERFETTO_DCHECK.
  cbn [host muxer calls]. rewrite bool_decide_eq_true_2 by done.
  by rewrite negb_involutive, Hdcheck.
Qed.

(** What [RequestConfig] does to the table and to the counter: nothing
    when it rejects, and otherwise it stores the accepted config under
    the incremented counter, which it returns. *)
Lemma RequestConfig_table request w id w' :
  RequestConfig request w = Ok id w' →
  let enabled := (IsTracingEnabled ftrace_ (host w)).1 in
  (bool_decide (configs w = ∅) = enabled
   ∧ id = 0 ∧ muxer w' = muxer w)
  ∨ (bool_decide (configs w = ∅) ≠ enabled
     ∧ id = (last_id_ (muxer w) + 1) mod 2 ^ FtraceConfigId_bits build
     ∧ last_id_ (muxer w') = id
     ∧ ∃ actual, configs w' = emplace id actual (configs w)).
Proof.
  intros Hrun enabled. subst enabled.
  destruct (decide (configs w = ∅)) as [Hempty|Hne];
    destruct (IsTracingEnabled ftrace_ (host w)).1 eqn:Hen.
  - left. rewrite bool_decide_eq_true_2 by done. split; [done|].
    destruct (PERFETTO_DCHECK_IS_ON build && tracing_on (state w)) eqn:Hd.
    + by rewrite RequestConfig_dcheck_cold in Hrun.
    + rewrite RequestConfig_reject_cold in Hrun by done.
      by injection Hrun as <- <-.
  - right. rewrite bool_decide_eq_true_2 by done. split; [done|].
    pose proof (RequestConfig_cold request w Hempty Hen) as Hcold.
    cbv zeta in Hcold.
    destruct (_ || _) in Hcold; [destruct Hcold as [f Hf]; congruence|].
    destruct Hcold as (actual & E' & k' & rest & Heq & _).
    rewrite Heq in Hrun. injection Hrun as <- <-.
    rewrite Hempty. eauto.
  - right. rewrite bool_decide_eq_false_2 by done. split; [done|].
    destruct (RequestConfig_warm request w Hne Hen)
      as (actual & E' & k' & new & Heq & _).
    rewrite Heq in Hrun. injection Hrun as <- <-. eauto.
  - left. rewrite bool_decide_eq_false_2 by done. split; [done|].
    rewrite RequestConfig_reject_warm in Hrun by done.
    by injection Hrun as <- <-.
Qed.

Lemma RemoveConfig_table id w b w' :
  RemoveConfig id w = Ok b w' →
  last_id_ (muxer w') = last_id_ (muxer w)
  ∧ ((b = false ∧ w' = w ∧ (id = 0 ∨ configs w !! id = None))
     ∨ (b = true ∧ id ≠ 0 ∧ is_Some (configs w !! id)
        ∧ configs w' = delete id (configs w))).
Proof.
  intros Hrun.
  destruct (decide (id = 0)) as [->|Hid].
  { rewrite RemoveConfig_unknown in Hrun by (by left).
    injection Hrun as <- <-. split; [done|]. left. auto. }
  destruct (configs w !! id) as [config|] eqn:Hconfig.
  2:{ rewrite RemoveConfig_unknown in Hrun by (by right).
      injection Hrun as <- <-. split; [done|]. left. auto. }
  destruct (RemoveConfig_known id w config Hid Hconfig)
    as (E' & k' & new & _ & _ & _ & _ & Heq).
  cbv zeta in Heq. rewrite Heq in Hrun. clear Heq.
  repeat match type of Hrun with
         | (if ?c then _ else _) = _ => destruct c
         | match ?c with _ => _ end = _ => destruct c
         end; try discriminate;
    injection Hrun as <- <-; (split; [done|]); right; eauto.
Qed.

Lemma dom_emplace id config (cs : gmap N FtraceConfig) :
  dom (emplace id config cs) ⊆ {[id]} ∪ dom cs.
Proof.
  unfold emplace. destruct (cs !! id); [set_solver|].
  rewrite dom_insert_L. set_solver.
Qed.

Lemma step_last_id op w r w' :
  step op w = Ok r w' →
  last_id_ (muxer w) + 1 < 2 ^ FtraceConfigId_bits build →
  match op, r with
  | OpRequestConfig _, RetId id =>
      (id = 0 ∧ muxer w' = muxer w)
      ∨ (id = last_id_ (muxer w) + 1 ∧ last_id_ (muxer w') = id
         ∧ ∃ actual, configs w' = emplace id actual (configs w))
  | OpRemoveConfig id, RetBool b =>
      last_id_ (muxer w') = last_id_ (muxer w)
      ∧ ((b = false ∧ w' = w ∧ (id = 0 ∨ configs w !! id = None))
         ∨ (b = true ∧ configs w' = delete id (configs w)))
  | _, _ => False
  end.
Proof.
  intros Hstep Hsmall. destruct op as [request|id]; cbn [step] in Hstep;
    apply bind_Ok in Hstep as (a & w1 & Hop & Hret);
    injection Hret as <- <-.
  - apply RequestConfig_table in Hop. cbv zeta in Hop.
    rewrite (N.mod_small _ _ Hsmall) in Hop.
    destruct Hop as [(_ & ? & ?)|(_ & ? & ? & ?)]; [by left|by right].
  - apply RemoveConfig_table in Hop as [Hlast Hcases]. split; [done|].
    destruct Hcases as [(? & ? & ?)|(? & ? & ? & ?)]; [by left|by right].
Qed.

Lemma run_ids ops : ∀ w rets w',
  run ops w = Ok rets w' →
  last_id_ (muxer w) + N.of_nat (length ops) < 2 ^ FtraceConfigId_bits build →
  last_id_ (muxer w) ≤ last_id_ (muxer w')
  ∧ last_id_ (muxer w') ≤ last_id_ (muxer w) + N.of_nat (length ops)
  ∧ Forall (λ id, last_id_ (muxer w) < id ∧ id ≤ last_id_ (muxer w'))
           (issued_ids rets)
  ∧ StronglySorted N.lt (issued_ids rets).
Proof.
  induction ops as [|op ops IH]; intros w rets w' Hrun Hsmall.
  - injection Hrun as <- <-. cbn. repeat split; try lia; constructor.
  - apply run_cons_Ok in Hrun as (r & w1 & rs & Hstep & Hrun & ->).
    cbn [length] in Hsmall |- *.
    apply step_last_id in Hstep; [|lia].
    assert (Hw1 : (last_id_ (muxer w1) = last_id_ (muxer w)
                   ∧ issued_ids (r :: rs) = issued_ids rs)
                  ∨ (last_id_ (muxer w1) = last_id_ (muxer w) + 1
                     ∧ issued_ids (r :: rs)
                       = (last_id_ (muxer w) + 1) :: issued_ids rs)).
    { destruct op as [request|id'], r as [id|b]; try done; cbn [issued_ids].
      - destruct Hstep as [[-> ->]|(-> & ? & _)]; [by left|right].
        rewrite bool_decide_eq_false_2 by lia. done.
      - left. tauto. }
    clear Hstep.
    destruct (IH w1 rs w' Hrun) as (Hle & Hub & Hall & Hsorted);
      [destruct Hw1 as [[-> _]|[-> _]]; lia|].
    split; [destruct Hw1 as [[? _]|[? _]]; lia|].
    split; [destruct Hw1 as [[? _]|[? _]]; lia|].
    assert (Hall' : Forall (λ id, last_id_ (muxer w) < id
                                  ∧ id ≤ last_id_ (muxer w')) (issued_ids rs)).
    { eapply Forall_impl; [exact Hall|]. cbn. intros id [? ?].
      destruct Hw1 as [[? _]|[? _]]; lia. }
    destruct Hw1 as [[Hlast ->]|[Hlast ->]]; [done|].
    split.
    + constructor; [lia|done].
    + constructor; [done|]. eapply Forall_impl; [exact Hall|]. cbn.
      intros ? [? ?]. lia.
Qed.

Lemma run_pending ops : ∀ w rets w' (s : gset N),
  run ops w = Ok rets w' →
  last_id_ (muxer w) + N.of_nat (length ops) < 2 ^ FtraceConfigId_bits build →
  dom (configs w) ⊆ s → 0 ∉ dom (configs w) →
  dom (configs w') ⊆ pending s ops rets.
Proof.
  induction ops as [|op ops IH]; intros w rets w' s Hrun Hsmall Hdom Hzero.
  - by injection Hrun as <- <-.
  - apply run_cons_Ok in Hrun as (r & w1 & rs & Hstep & Hrun & ->).
    cbn [length] in Hsmall.
    apply step_last_id in Hstep; [|lia].
    destruct op as [request|id'], r as [id|b]; try done; cbn [pending].
    + destruct Hstep as [[-> Hsame]|(-> & Hlast & actual & Hcs)].
      * rewrite bool_decide_eq_true_2 by done.
        apply (IH w1 rs w'); rewrite ?Hsame; try done. lia.
      * rewrite bool_decide_eq_false_2 by lia.
        apply (IH w1 rs w'); rewrite ?Hlast, ?Hcs; try done; [lia| |].
        -- pose proof (dom_emplace (last_id_ (muxer w) + 1) actual (configs w)).
           set_solver.
        -- pose proof (dom_emplace (last_id_ (muxer w) + 1) actual (configs w)).
           assert (0 ≠ last_id_ (muxer w) + 1) by lia. set_solver.
    + destruct Hstep as [Hlast [(-> & -> & Hunknown)|(-> & Hcs)]].
      * apply (IH w rs w'); try done; [lia|].
        assert (id' ∉ dom (configs w)); [|set_solver].
        destruct Hunknown as [->|Hnone]; [done|].
        by apply not_elem_of_dom.
      * apply (IH w1 rs w'); rewrite ?Hlast, ?Hcs; try done; [lia| |].
        -- rewrite dom_delete_L. set_solver.
        -- rewrite dom_delete_L. set_solver.
Qed.

Lemma StronglySorted_lt_NoDup (l : list N) : StronglySorted N.lt l → NoDup l.
Proof.
  induction 1 as [|x l _ IH Hall]; constructor; [|done].
  intros Hin. eapply Forall_forall in Hall; [|exact Hin]. lia.
Qed.

(** * The claims *)

(** X20. Take any sequence of [RequestConfig] and [RemoveConfig] calls
    on a fresh muxer that runs to its end, that is shorter than the
    number of ids left in [FtraceConfigId], and in which every id issued
    was later handed to [RemoveConfig].  At the end the config table is
    empty, [tracing_on] and [atrace_on] are false, every event left in
    [ftrace_events] is one whose [DisableEvent] call was refused (so
    [ftrace_events] is empty when no [DisableEvent] call was refused),
    and the last buffer size written to the control surface, if any,
    is 0. *)
Theorem balanced_run_returns_to_idle k ops rets w :
  run ops (initial_world k) = Ok rets w →
  last_id_init build + N.of_nat (length ops) < 2 ^ FtraceConfigId_bits build →
  pending ∅ ops rets = ∅ →
  configs w = ∅
  ∧ tracing_on (state w) = false
  ∧ atrace_on (state w) = false
  ∧ (∀ name, name ∈ ftrace_events (state w) → disable_refused (calls w) name)
  ∧ ((∀ group name, CallDisableEvent group name false ∉ calls w) →
     ftrace_events (state w) = ∅)
  ∧ (last_buffer_write (calls w) = None
     ∨ last_buffer_write (calls w) = Some (CallSetCpuBufferSizeInPages 0)).
Proof.
  intros Hrun Hsmall Hbalanced.
  assert (Hempty : configs w = ∅).
  { apply dom_empty_iff_L, set_eq. intros id. split; [|set_solver].
    intros Hid. rewrite <- Hbalanced.
    revert id Hid. change (dom (configs w) ⊆ pending ∅ ops rets).
    eapply run_pending; [exact Hrun|exact Hsmall|..]; cbn; set_solver. }
  destruct (reachable_inv w) as [H1 H2 H3 H4 H5 H6]; [by exists k, ops, rets|].
  split; [done|]. split; [|split; [|split; [|split]]].
  - destruct (tracing_on (state w)); [|done]. by destruct H1 as [H1 _], H1.
  - destruct (atrace_on (state w)); [|done]. by destruct H2 as [H2 _].
  - by apply H5.
  - intros Hnone. apply set_eq. intros n. split; [|set_solver].
    intros Hn. specialize (H5 Hempty n Hn). unfold disable_refused in H5.
    destruct (GetEventByName table_ n) as [event|]; [|done].
    by apply Hnone in H5.
  - by apply H6.
Qed.

(** C2 (amended). Between two external operations, every event name of
    an accepted config in the table is in [ftrace_events] unless its
    catalog entry is in the virtual group "ftrace", and every member of
    [ftrace_events] is in the catalog and has a logged [EnableEvent]
    call of this muxer that answered [true]. *)
Theorem ftrace_events_cover_accepted w :
  reachable w →
  (∀ id config name,
     configs w !! id = Some config → name ∈ event_names config →
     name ∈ ftrace_events (state w) ∨ in_ftrace_group name)
  ∧ (∀ name, name ∈ ftrace_events (state w) → enabled_by_muxer (calls w) name).
Proof.
  intros Hreach. destruct (reachable_inv w Hreach) as [_ _ H3 H4 _ _]. auto.
Qed.

(** C3. In a reachable world, when the table is empty and
    [IsTracingEnabled] answers true, and when the table is non-empty and
    [IsTracingEnabled] answers false, [RequestConfig] returns 0, leaves
    the muxer as it was and makes no call besides that one read; and as
    long as the id counter does not wrap, a result of 0 comes from one
    of these two situations only. *)
Theorem RequestConfig_rejection request w :
  reachable w →
  let r := IsTracingEnabled ftrace_ (host w) in
  let rejected := (configs w = ∅ ∧ r.1 = true) ∨ (configs w ≠ ∅ ∧ r.1 = false) in
  (rejected →
   RequestConfig request w
   = Ok 0 (mkWorld (muxer w) r.2 (calls w ++ [CallIsTracingEnabled r.1]))
   ∧ is_write (CallIsTracingEnabled r.1) = false)
  ∧ (last_id_ (muxer w) + 1 < 2 ^ FtraceConfigId_bits build →
     ∀ w', RequestConfig request w = Ok 0 w' → rejected).
Proof.
  intros Hreach r rejected. split.
  - intros [[Hempty Hen]|[Hne Hen]]; (split; [|done]); subst r; rewrite Hen.
    + apply RequestConfig_reject_cold; [done..|].
      destruct (reachable_inv w Hreach) as [H1 _ _ _ _ _].
      destruct (tracing_on (state w)); [|by rewrite andb_false_r].
      by destruct H1 as [H1 _], H1.
    + by apply RequestConfig_reject_warm.
  - intros Hsmall w' Hrun. apply RequestConfig_table in Hrun. cbv zeta in Hrun.
    rewrite (N.mod_small _ _ Hsmall) in Hrun. subst rejected r.
    destruct Hrun as [(Hcase & _)|(_ & Hid & _)]; [|lia].
    case_bool_decide; [left|right]; done.
Qed.

(** C5. Along any sequence of operations on a fresh muxer that runs to
    its end and is shorter than the number of ids left in
    [FtraceConfigId], the non-zero ids returned by [RequestConfig] are
    strictly increasing, so no id is issued twice and a removed id is
    never issued again. *)
Theorem issued_ids_strictly_increasing k ops rets w :
  run ops (initial_world k) = Ok rets w →
  last_id_init build + N.of_nat (length ops) < 2 ^ FtraceConfigId_bits build →
  StronglySorted N.lt (issued_ids rets) ∧ NoDup (issued_ids rets).
Proof.
  intros Hrun Hsmall.
  destruct (run_ids ops _ _ _ Hrun Hsmall) as (_ & _ & _ & Hsorted).
  split; [done|]. by apply StronglySorted_lt_NoDup.
Qed.

(** C6. [SetupClock] scans the preference list "boot", "global", "local"
    in order and takes the first clock found in [AvailableClocks] as the
    target; when the target is the clock read from [GetClock] nothing is
    written, otherwise [SetClock] is called once, with the target; when
    no preferred clock is available [SetClock] is not called. *)
Theorem SetupClock_effect (request : FtraceConfig) (w : World K) :
  kClocks = ["boot"; "global"; "local"]
  ∧ SetupClock request w =
    let cur := GetClock ftrace_ (host w) in
    let av := AvailableClocks ftrace_ cur.2 in
    let reads := [CallGetClock cur.1; CallAvailableClocks av.1] in
    match preferred_clock av.1 with
    | Some target =>
        if bool_decide (target = cur.1)
        then Ok tt (mkWorld (muxer w) av.2 (calls w ++ reads))
        else Ok tt (mkWorld (muxer w) (SetClock ftrace_ target av.2)
                            (calls w ++ reads ++ [CallSetClock target]))
    | None => Ok tt (mkWorld (muxer w) av.2 (calls w ++ reads))
    end.
Proof. split; [done|]. apply SetupClock_unfold. Qed.

(** C7. The effective event set of a request is its [event_names], plus
    "print" exactly when the request requires atrace.  [EnableAtrace] runs
    the helper with the argument vector "atrace", "--async_start", the
    categories in order and, exactly when there are apps, "-a" followed by
    the apps in order; it returns, with [atrace_on] set, when the helper
    exits with status 0.  A cold-start request that requires atrace goes
    through [EnableAtrace] in an Android build: the helper is run once,
    right after the read of the tracing switch, and the request returns
    exactly when the helper exits with status 0. *)
Theorem atrace_start_and_effective_events request w :
  let argv := ["atrace"; "--async_start"] ++ atrace_categories request ++
              (if bool_decide (atrace_apps request = []) then []
               else "-a" :: atrace_apps request) in
  (∀ name, name ∈ GetFtraceEvents request ↔
           name ∈ event_names request
           ∨ (RequiresAtrace request = true ∧ name = "print"))
  ∧ EnableAtrace request w =
    (let r := fork_execv_waitpid process_ "/system/bin/atrace" argv (host w) in
     if PERFETTO_DCHECK_IS_ON build && atrace_on (state w)
     then Crash (DcheckFailed "EnableAtrace: !current_state_.atrace_on")
     else match r.1 with
          | None => Crash (CheckFailed "pid >= 0")
          | Some status =>
              if bool_decide (status = 0%Z)
              then Ok tt (mkWorld (mkMuxer (set_atrace_on true (state w)) (configs w)
                                           (last_id_ (muxer w)))
                                  r.2
                                  (calls w ++ [CallExecv "/system/bin/atrace" argv r.1]))
              else Crash (CheckFailed "RunAtrace(args)")
          end)
  ∧ (reachable w → configs w = ∅ →
     (IsTracingEnabled ftrace_ (host w)).1 = false →
     RequiresAtrace request = true → PERFETTO_OS_ANDROID build = true →
     let a := fork_execv_waitpid process_ "/system/bin/atrace" argv
                (IsTracingEnabled ftrace_ (host w)).2 in
     (a.1 = Some 0%Z →
      ∃ id w' rest,
        RequestConfig request w = Ok id w'
        ∧ calls w' = calls w ++ [CallIsTracingEnabled false;
                                 CallExecv "/system/bin/atrace" argv (Some 0%Z)]
                             ++ rest
        ∧ Forall (λ c, is_Execv c = false) rest
        ∧ atrace_on (state w') = true)
     ∧ (a.1 ≠ Some 0%Z → ∃ f, RequestConfig request w = Crash f)).
Proof.
  intros argv.
  assert (Hargs : EnableAtrace_args request = argv).
  { unfold EnableAtrace_args, argv. case_bool_decide.
    - by rewrite app_nil_r.
    - by rewrite <- !(assoc_L (++)). }
  split; [|split].
  { intros name. unfold GetFtraceEvents.
    destruct (RequiresAtrace request).
    - rewrite elem_of_union, elem_of_list_to_set, elem_of_singleton.
      split; [intros [?|?]; auto|intros [?|[_ ?]]; auto].
    - rewrite elem_of_list_to_set. split; [auto|]. by intros [?|[? _]]. }
  { by rewrite EnableAtrace_unfold, Hargs. }
  intros Hreach Hempty Hen Hreq Handroid a.
  pose proof (RequestConfig_cold request w Hempty Hen) as Hcold.
  cbv zeta in Hcold. rewrite Hreq, Handroid, Hargs in Hcold. fold a in Hcold.
  destruct (reachable_inv w Hreach) as [H1 H2 _ _ _ _].
  assert (Hoff : tracing_on (state w) = false).
  { destruct (tracing_on (state w)); [|done]. by destruct H1 as [H1 _], H1. }
  assert (Hatr : atrace_on (state w) = false).
  { destruct (atrace_on (state w)); [|done]. by destruct H2 as [H2 _]. }
  rewrite Hoff, Hatr, !andb_false_r in Hcold. cbn [andb orb] in Hcold.
  split.
  - intros Hok. rewrite bool_decide_eq_true_2 in Hcold by done.
    destruct Hcold as (actual & E' & k' & rest & Heq & _ & Hrest & _).
    eexists _, _, rest. split; [exact Heq|].
    cbn [calls muxer current_state_ atrace_on]. done.
  - intros Hfail. by rewrite bool_decide_eq_false_2 in Hcold by done.
Qed.

(** C10. A [RequestConfig] call made while the table is non-empty
    always returns; the calls it makes include no [SetClock], no
    [SetCpuBufferSizeInPages] and no run of the atrace helper; it leaves
    [cpu_buffer_size_pages], [atrace_on] and [tracing_on] as they were;
    and its outcome depends on the request through the effective event
    set only, so that the buffer size and the atrace fields matter only
    through the "print" event they force into that set. *)
Theorem RequestConfig_warm_frame request w :
  configs w ≠ ∅ →
  (∃ id w' new,
     RequestConfig request w = Ok id w'
     ∧ calls w' = calls w ++ new
     ∧ Forall (λ c, is_SetClock c = false
                    ∧ is_SetCpuBufferSizeInPages c = false
                    ∧ is_Execv c = false) new
     ∧ cpu_buffer_size_pages (state w') = cpu_buffer_size_pages (state w)
     ∧ atrace_on (state w') = atrace_on (state w)
     ∧ tracing_on (state w') = tracing_on (state w))
  ∧ (∀ request', GetFtraceEvents request' = GetFtraceEvents request →
       RequestConfig request' w = RequestConfig request w).
Proof.
  intros Hne. split.
  - destruct (IsTracingEnabled ftrace_ (host w)).1 eqn:Hen.
    + destruct (RequestConfig_warm request w Hne Hen)
        as (actual & E' & k' & new & Heq & _ & Hnew & _).
      eexists _, _, _. split; [exact Heq|].
      cbn [calls muxer current_state_ cpu_buffer_size_pages atrace_on tracing_on].
      repeat split; try done. constructor; [done|].
      eapply Forall_impl; [exact Hnew|]. by intros [].
    + rewrite RequestConfig_reject_warm by done.
      eexists _, _, _. split; [done|]. cbn [calls muxer].
      repeat split; try done. by repeat constructor.
  - intros request' Hsame.
    unfold RequestConfig, mbind, M_bind, call_host, get_muxer.
    cbn [host muxer calls]. rewrite !bool_decide_eq_false_2 by done.
    destruct (IsTracingEnabled ftrace_ (host w)).1; cbn [negb]; [|done].
    unfold RequestConfig_accept. by rewrite Hsame.
Qed.

(** The guard [if (current_state_.atrace_on)] in the teardown of
    [RemoveConfig] is the only way into [DisableAtrace], so the flag is
    true at every entry: where [PERFETTO_DCHECK] is compiled in, an
    Android teardown with atrace started stops at the assertion
    [!current_state_.atrace_on]; with atrace not started, or off
    Android, [DisableAtrace] is not entered and no helper is run. *)
Lemma RemoveConfig_teardown_enters_DisableAtrace id w config :
  id ≠ 0 → configs w !! id = Some config → delete id (configs w) = ∅ →
  tracing_on (state w) = true →
  (atrace_on (state w) = true → PERFETTO_OS_ANDROID build = true →
   PERFETTO_DCHECK_IS_ON build = true →
   RemoveConfig id w
   = Crash (DcheckFailed "DisableAtrace: !current_state_.atrace_on"))
  ∧ (atrace_on (state w) && PERFETTO_OS_ANDROID build = false →
     ∃ w' new, RemoveConfig id w = Ok true w'
               ∧ calls w' = calls w ++ new
               ∧ Forall (λ c, is_Execv c = false) new).
Proof.
  intros Hid Hconfig Hlast Hon.
  destruct (RemoveConfig_known id w config Hid Hconfig)
    as (E' & k' & new & _ & Hnew & _ & _ & Heq).
  cbv zeta in Heq. rewrite Heq. clear Heq.
  rewrite bool_decide_eq_true_2, Hon, andb_false_r by done. split.
  - by intros -> -> ->.
  - intros ->. eexists _, _. split; [done|]. cbn [calls]. split; [done|].
    apply Forall_app. split; [|by repeat constructor].
    eapply Forall_impl; [exact Hnew|]. by intros [].
Qed.

(** * More on the two loops *)

(** The first loop in full: which names are accepted, what becomes of
    [ftrace_events], and what each logged call is. *)
Lemma RequestConfig_events_detail events : ∀ actual w,
  ∃ accepted E' k' new,
    RequestConfig_events events actual w =
      Ok (mkFtraceConfig (event_names actual ++ accepted) (buffer_size_kb actual)
            (atrace_categories actual) (atrace_apps actual))
         (mkWorld (mkMuxer (set_ftrace_events E' (state w)) (configs w)
                           (last_id_ (muxer w)))
                  k' (calls w ++ new))
    ∧ accepted `sublist_of` events
    ∧ (∀ name, name ∈ accepted → is_Some (GetEventByName table_ name))
    ∧ (∀ name, name ∈ E' ↔
         name ∈ ftrace_events (state w)
         ∨ (name ∈ accepted ∧ ¬ in_ftrace_group name))
    ∧ Forall (λ c, ∃ name event r,
                c = CallEnableEvent (event_group event) (event_name event) r
                ∧ name ∈ events
                ∧ GetEventByName table_ name = Some event
                ∧ name ∉ ftrace_events (state w)
                ∧ "ftrace" ≠ event_group event) new
    ∧ (∀ name event, name ∈ events → GetEventByName table_ name = Some event →
         name ∉ accepted →
         CallEnableEvent (event_group event) (event_name event) false ∈ new).
Proof.
  induction events as [|name events IH]; intros actual w.
  - exists [], (ftrace_events (state w)), (host w), [].
    cbn [RequestConfig_events]. unfold mret, M_ret.
    rewrite set_ftrace_events_same, !app_nil_r.
    destruct w as [[? ? ?] ? ?], actual. cbn.
    split; [done|]. split; [done|]. split; [by intros ? ?%elem_of_nil|].
    split; [|split; [done|by intros ? ? ?%elem_of_nil]].
    intros n. split; [by left|]. intros [?|[?%elem_of_nil _]]; done.
  - cbn [RequestConfig_events].
    destruct (GetEventByName table_ name) as [event|] eqn:Hevent.
    + unfold mbind at 1, M_bind at 1, get_state at 1.
      destruct (bool_decide (name ∈ ftrace_events (state w))
                || bool_decide ("ftrace" = event_group event)) eqn:Hknown.
      * destruct (IH (add_event_names name actual) w)
          as (accepted & E' & k' & new & -> & Hsub & Hcat & HE & Hnew & Hrefused).
        exists (name :: accepted), E', k', new.
        cbn [add_event_names event_names buffer_size_kb atrace_categories atrace_apps].
        rewrite <- (assoc_L (++)). cbn [app].
        split; [done|]. split; [by constructor|]. split; [|split; [|split]].
        -- intros n [->|Hn]%elem_of_cons; [by rewrite Hevent|by apply Hcat].
        -- intros n. rewrite HE, elem_of_cons. split; [tauto|].
           intros [?|[[->|?] Hnf]]; [tauto| |tauto]. left.
           apply orb_true_iff in Hknown as [Hk|Hk]; apply bool_decide_eq_true in Hk;
             [done|]. destruct Hnf. unfold in_ftrace_group. by rewrite Hevent.
        -- eapply Forall_impl; [exact Hnew|]. cbn.
           intros c (n & e & r & ? & ? & ? & ? & ?). exists n, e, r.
           repeat split; try done. by right.
        -- intros n e [->|Hn]%elem_of_cons Hn' Hnot.
           ++ destruct Hnot. by left.
           ++ apply (Hrefused n e Hn Hn'). intros ?. apply Hnot. by right.
      * apply orb_false_iff in Hknown as [Hk1 Hk2].
        apply bool_decide_eq_false in Hk1, Hk2.
        unfold mbind at 1, M_bind at 1, call_host at 1.
        cbn [host muxer calls].
        destruct (EnableEvent ftrace_ (event_group event) (event_name event) (host w))
          as [ok k1] eqn:Hcall.
        cbn [fst snd]. destruct ok.
        -- unfold mbind at 1, M_bind at 1, modify_state at 1.
           cbn [host muxer calls current_state_ configs_ last_id_].
           match goal with |- context [RequestConfig_events events ?a ?w1] =>
             destruct (IH a w1)
               as (accepted & E' & k' & new & -> & Hsub & Hcat & HE & Hnew & Hrefused)
           end.
           cbn [host muxer calls current_state_ configs_ last_id_ ftrace_events
                set_ftrace_events add_event_names event_names buffer_size_kb
                atrace_categories atrace_apps] in *.
           exists (name :: accepted), E', k',
             (CallEnableEvent (event_group event) (event_name event) true :: new).
           rewrite <- !(assoc_L (++)). cbn [app].
           split; [done|]. split; [by constructor|]. split; [|split; [|split]].
           ++ intros n [->|Hn]%elem_of_cons; [by rewrite Hevent|by apply Hcat].
           ++ intros n. rewrite HE, elem_of_union, elem_of_singleton, elem_of_cons.
              split; [|tauto]. intros [[->|?]|?]; [|tauto..]. right.
              split; [by left|]. unfold in_ftrace_group. by rewrite Hevent.
           ++ constructor.
              ** exists name, event, true. repeat split; try done. by left.
              ** eapply Forall_impl; [exact Hnew|]. cbn.
                 intros c (n & e & r & ? & ? & ? & Hnin & ?). exists n, e, r.
                 repeat split; try done; [by right|]. set_solver.
           ++ intros n e [->|Hn]%elem_of_cons Hn' Hnot.
              ** destruct Hnot. by left.
              ** right. apply (Hrefused n e Hn Hn'). intros ?. apply Hnot. by right.
        -- match goal with |- context [RequestConfig_events events ?a ?w1] =>
             destruct (IH a w1)
               as (accepted & E' & k' & new & -> & Hsub & Hcat & HE & Hnew & Hrefused)
           end.
           cbn [host muxer calls current_state_ configs_ last_id_] in *.
           exists accepted, E', k',
             (CallEnableEvent (event_group event) (event_name event) false :: new).
           rewrite <- !(assoc_L (++)). cbn [app].
           split; [done|]. split; [by constructor|]. split; [done|].
           split; [done|]. split.
           ++ constructor.
              ** exists name, event, false. repeat split; try done. by left.
              ** eapply Forall_impl; [exact Hnew|]. cbn.
                 intros c (n & e & r & ? & ? & ? & ? & ?). exists n, e, r.
                 repeat split; try done. by right.
           ++ intros n e [->|Hn]%elem_of_cons Hn' Hnot.
              ** assert (e = event) as -> by congruence. by left.
              ** right. by apply (Hrefused n e Hn Hn').
    + destruct (IH actual w)
        as (accepted & E' & k' & new & -> & Hsub & Hcat & HE & Hnew & Hrefused).
      exists accepted, E', k', new.
      split; [done|]. split; [by constructor|]. split; [done|]. split; [done|].
      split.
      * eapply Forall_impl; [exact Hnew|]. cbn.
        intros c (n & e & r & ? & ? & ? & ? & ?). exists n, e, r.
        repeat split; try done. by right.
      * intros n e [->|Hn]%elem_of_cons Hn' Hnot; [congruence|].
        by apply (Hrefused n e Hn Hn').
Qed.

Lemma RequestConfig_events_facts events actual w :
  ∃ accepted E' k' new,
    RequestConfig_events events actual w =
      Ok (mkFtraceConfig (event_names actual ++ accepted) (buffer_size_kb actual)
            (atrace_categories actual) (atrace_apps actual))
         (mkWorld (mkMuxer (set_ftrace_events E' (state w)) (configs w)
                           (last_id_ (muxer w)))
                  k' (calls w ++ new))
    ∧ enable_loop_facts events (ftrace_events (state w)) E' accepted new.
Proof.
  destruct (RequestConfig_events_detail events actual w)
    as (accepted & E' & k' & new & Heq & Hfacts).
  by exists accepted, E', k', new.
Qed.

Lemma RequestConfig_accept_detail request w :
  let id := (last_id_ (muxer w) + 1) mod 2 ^ FtraceConfigId_bits build in
  let cold := bool_decide (configs w = ∅) in
  ∃ accepted E' k' new,
    enable_loop_facts (sorted_elements (GetFtraceEvents request))
      (ftrace_events (state w)) E' accepted new
    ∧ RequestConfig_accept request w =
      if cold && (PERFETTO_DCHECK_IS_ON build && tracing_on (state w))
      then Crash (DcheckFailed "RequestConfig: !current_state_.tracing_on")
      else Ok id (mkWorld
             (mkMuxer (mkFtraceState E' (cold || tracing_on (state w))
                         (atrace_on (state w)) (cpu_buffer_size_pages (state w)))
                      (emplace id (mkFtraceConfig accepted 0 [] []) (configs w)) id)
             (if cold then EnableTracing ftrace_ k' else k')
             (calls w ++ new ++ (if cold then [CallEnableTracing] else []))).
Proof.
  intros id cold.
  destruct (RequestConfig_events_facts (sorted_elements (GetFtraceEvents request))
              FtraceConfig_default w)
    as (accepted & E' & k' & new & Hloop & Hfacts).
  exists accepted, E', k', new. split; [exact Hfacts|].
  unfold RequestConfig_accept, mbind, M_bind, get_muxer. rewrite Hloop.
  cbn [host muxer calls current_state_ configs_ last_id_ FtraceConfig_default
       event_names buffer_size_kb atrace_categories atrace_apps app].
  fold cold id. destruct cold eqn:Hcold; cbn [when orb andb].
  - unfold PERFETTO_DCHECK, call_host_, modify_state, put_last_id,
      put_configs, mret, M_ret.
    cbn [tracing_on set_ftrace_events]. rewrite negb_involutive.
    destruct (PERFETTO_DCHECK_IS_ON build && tracing_on (state w)); [done|].
    cbn [host muxer calls current_state_ configs_ last_id_ set_tracing_on
         ftrace_events atrace_on cpu_buffer_size_pages tracing_on].
    by rewrite <- (assoc_L (++)).
  - unfold put_last_id, put_configs, mret, M_ret.
    cbn [host muxer calls current_state_ configs_ last_id_ set_ftrace_events].
    by rewrite app_nil_r.
Qed.

(** With a non-empty table and tracing on, [RequestConfig] is the read of
    the tracing switch followed by the accepting part. *)
Lemma RequestConfig_warm_eq request w :
  configs w ≠ ∅ →
  (IsTracingEnabled ftrace_ (host w)).1 = true →
  RequestConfig request w =
  RequestConfig_accept request
    (mkWorld (muxer w) (IsTracingEnabled ftrace_ (host w)).2
             (calls w ++ [CallIsTracingEnabled true])).
Proof.
  intros Hne Hen.
  unfold RequestConfig, mbind at 1 2, M_bind at 1 2, call_host, get_muxer.
  cbn [host muxer calls]. by rewrite Hen, bool_decide_eq_false_2 by done.
Qed.

(** A cold start that gets past its assertions and the atrace start is
    the session setup followed by the accepting part. *)
Lemma RequestConfig_cold_eq request w :
  configs w = ∅ →
  (IsTracingEnabled ftrace_ (host w)).1 = false →
  let pages := ComputeCpuBufferSizeInPages (kPageSize build) (buffer_size_kb request) in
  let with_atrace := RequiresAtrace request && PERFETTO_OS_ANDROID build in
  let a := fork_execv_waitpid process_ "/system/bin/atrace"
             (EnableAtrace_args request) (IsTracingEnabled ftrace_ (host w)).2 in
  (PERFETTO_DCHECK_IS_ON build && tracing_on (state w))
  || with_atrace && ((PERFETTO_DCHECK_IS_ON build && atrace_on (state w))
                     || negb (bool_decide (a.1 = Some 0%Z))) = false →
  let k1 := if with_atrace then a.2 else (IsTracingEnabled ftrace_ (host w)).2 in
  let cur := GetClock ftrace_ k1 in
  let av := AvailableClocks ftrace_ cur.2 in
  let target := match preferred_clock av.1 with
                | Some target => if bool_decide (target = cur.1) then None
                                 else Some target
                | None => None
                end in
  RequestConfig request w =
  RequestConfig_accept request
    (mkWorld
       (mkMuxer (mkFtraceState (ftrace_events (state w)) (tracing_on (state w))
                   (with_atrace || atrace_on (state w)) pages)
                (configs w) (last_id_ (muxer w)))
       (SetCpuBufferSizeInPages ftrace_ pages
          (match target with Some t => SetClock ftrace_ t av.2 | None => av.2 end))
       (calls w ++ [CallIsTracingEnabled false]
          ++ (if with_atrace
              then [CallExecv "/system/bin/atrace" (EnableAtrace_args request)
                      (Some 0%Z)]
              else [])
          ++ [CallGetClock cur.1; CallAvailableClocks av.1]
          ++ (match target with Some t => [CallSetClock t] | None => [] end)
          ++ [CallSetCpuBufferSizeInPages pages])).
Proof.
  intros Hempty Hen pages with_atrace a Hsafe k1 cur av target.
  apply orb_false_iff in Hsafe as [Hd1 Hd2].
  unfold RequestConfig.
  unfold mbind at 1, M_bind at 1, call_host at 1.
  cbn [host muxer calls fst snd]. rewrite Hen.
  unfold mbind at 1, M_bind at 1, get_muxer at 1. cbn [host muxer calls].
  rewrite bool_decide_eq_true_2 by done.
  unfold mbind at 1, M_bind at 1, PERFETTO_DCHECK at 1.
  rewrite negb_involutive, Hd1.
  unfold mbind at 1, M_bind at 1. unfold EnableAtraceOnAndroid.
  match goal with |- context [when _ _ ?w1] => set (w0 := w1) end.
  assert (Hstart :
    when (RequiresAtrace request)
      (if PERFETTO_OS_ANDROID build then EnableAtrace request else mret ()) w0 =
    Ok tt (mkWorld (mkMuxer (set_atrace_on (with_atrace || atrace_on (state w))
                               (state w))
                            (configs w) (last_id_ (muxer w)))
                   k1
                   (calls w ++ CallIsTracingEnabled false ::
                      (if with_atrace
                       then [CallExecv "/system/bin/atrace"
                               (EnableAtrace_args request) (Some 0%Z)]
                       else [])))).
  { subst k1 with_atrace.
    destruct (RequiresAtrace request); cbn [when andb orb] in *.
    2:{ unfold mret, M_ret, w0. do 2 f_equal. by destruct (muxer w) as [[] ? ?]. }
    destruct (PERFETTO_OS_ANDROID build); cbn [andb orb] in *.
    2:{ unfold mret, M_ret, w0. do 2 f_equal. by destruct (muxer w) as [[] ? ?]. }
    rewrite EnableAtrace_unfold. cbv zeta. cbn [w0 host muxer calls].
    fold a. apply orb_false_iff in Hd2 as [-> Hst].
    apply negb_false_iff, bool_decide_eq_true in Hst. rewrite Hst.
    rewrite bool_decide_eq_true_2 by done. by rewrite <- (assoc_L (++)). }
  rewrite Hstart. clear Hstart.
  unfold mbind at 1, M_bind at 1. rewrite SetupClock_unfold. cbv zeta.
  cbn [host muxer calls]. fold cur av.
  assert (Hclock :
    match preferred_clock av.1 with
    | Some t =>
        if bool_decide (t = cur.1)
        then Ok () (mkWorld (mkMuxer (set_atrace_on (with_atrace || atrace_on (state w))
                                        (state w)) (configs w) (last_id_ (muxer w)))
                      av.2
                      ((calls w ++ CallIsTracingEnabled false ::
                          (if with_atrace
                           then [CallExecv "/system/bin/atrace"
                                   (EnableAtrace_args request) (Some 0%Z)]
                           else [])) ++ [CallGetClock cur.1; CallAvailableClocks av.1]))
        else Ok () (mkWorld (mkMuxer (set_atrace_on (with_atrace || atrace_on (state w))
                                        (state w)) (configs w) (last_id_ (muxer w)))
                      (SetClock ftrace_ t av.2)
                      ((calls w ++ CallIsTracingEnabled false ::
                          (if with_atrace
                           then [CallExecv "/system/bin/atrace"
                                   (EnableAtrace_args request) (Some 0%Z)]
                           else [])) ++ [CallGetClock cur.1; CallAvailableClocks av.1]
                          ++ [CallSetClock t]))
    | None =>
        Ok () (mkWorld (mkMuxer (set_atrace_on (with_atrace || atrace_on (state w))
                                   (state w)) (configs w) (last_id_ (muxer w)))
                 av.2
                 ((calls w ++ CallIsTracingEnabled false ::
                     (if with_atrace
                      then [CallExecv "/system/bin/atrace"
                              (EnableAtrace_args request) (Some 0%Z)]
                      else [])) ++ [CallGetClock cur.1; CallAvailableClocks av.1]))
    end =
    Ok () (mkWorld (mkMuxer (set_atrace_on (with_atrace || atrace_on (state w))
                               (state w)) (configs w) (last_id_ (muxer w)))
             (match target with Some t => SetClock ftrace_ t av.2 | None => av.2 end)
             (calls w ++ [CallIsTracingEnabled false]
                ++ (if with_atrace
                    then [CallExecv "/system/bin/atrace" (EnableAtrace_args request)
                            (Some 0%Z)]
                    else [])
                ++ [CallGetClock cur.1; CallAvailableClocks av.1]
                ++ (match target with Some t => [CallSetClock t] | None => [] end)))).
  { subst target. destruct (preferred_clock av.1) as [t|];
      [repeat case_bool_decide; try congruence|];
      do 2 f_equal; rewrite <- ?(assoc_L (++)); cbn [app];
      by rewrite ?app_nil_r. }
  rewrite Hclock. clear Hclock.
  unfold mbind at 1, M_bind at 1. rewrite SetupBufferSize_unfold. cbv zeta.
  cbn [host muxer calls current_state_ configs_ last_id_]. fold pages.
  f_equal. f_equal;
    first [ done | by destruct (muxer w) as [[] ? ?]
          | by rewrite <- !(assoc_L (++)) ].
Qed.

(** Each call logged by the second loop is a [DisableEvent] for the
    catalog entry of one of the names handed to it. *)
Lemma RemoveConfig_events_calls events_to_disable : ∀ w w',
  RemoveConfig_events events_to_disable w = Ok tt w' →
  ∃ new, calls w' = calls w ++ new
    ∧ Forall (λ c, ∃ name event r,
                c = CallDisableEvent (event_group event) (event_name event) r
                ∧ name ∈ events_to_disable
                ∧ GetEventByName table_ name = Some event) new.
Proof.
  induction events_to_disable as [|name rest IH]; intros w w' Hrun.
  - injection Hrun as <-. exists []. by rewrite app_nil_r.
  - cbn [RemoveConfig_events] in Hrun.
    destruct (GetEventByName table_ name) as [event|] eqn:Hevent.
    + apply bind_Ok in Hrun as (ok & w1 & Hcall & Hrun).
      unfold call_host in Hcall. injection Hcall as <- <-.
      apply bind_Ok in Hrun as ([] & w2 & Hwhen & Hrun).
      apply IH in Hrun as (new & Hcalls & Hnew).
      assert (Hw2 : calls w2 = calls w ++
                [CallDisableEvent (event_group event) (event_name event)
                   (DisableEvent ftrace_ (event_group event) (event_name event)
                      (host w)).1]).
      { destruct (DisableEvent ftrace_ _ _ _).1; cbn [when] in Hwhen;
          by injection Hwhen as <-. }
      eexists (_ :: new). split.
      * by rewrite Hcalls, Hw2, <- (assoc_L (++)).
      * constructor.
        -- eexists name, event, _. split; [done|]. split; [by left|done].
        -- eapply Forall_impl; [exact Hnew|]. cbn.
           intros c (n & e & r & ? & ? & ?). exists n, e, r.
           split; [done|]. split; [by right|done].
    + apply IH in Hrun as (new & Hcalls & Hnew). exists new. split; [done|].
      eapply Forall_impl; [exact Hnew|]. cbn.
      intros c (n & e & r & ? & ? & ?). exists n, e, r.
      split; [done|]. split; [by right|done].
Qed.

Lemma RemoveConfig_known_exact id w config :
  id ≠ 0 → configs w !! id = Some config →
  let cs := delete id (configs w) in
  ∃ E' k' new,
    teardown_host id w
    = ClearTrace ftrace_ (DisableAllEvents ftrace_
        (SetCpuBufferSizeInPages ftrace_ 0 (DisableTracing ftrace_ k')))
    ∧ disable_loop_facts
      (difference (ftrace_events (state w)) (expected_ftrace_events cs))
      (ftrace_events (state w)) E' new
    ∧ RemoveConfig id w =
      if bool_decide (cs = ∅) then
        if PERFETTO_DCHECK_IS_ON build && negb (tracing_on (state w))
        then Crash (DcheckFailed "RemoveConfig: current_state_.tracing_on")
        else
          let k'' := ClearTrace ftrace_ (DisableAllEvents ftrace_
                       (SetCpuBufferSizeInPages ftrace_ 0
                          (DisableTracing ftrace_ k'))) in
          let log := calls w ++ new ++
                     [CallDisableTracing; CallSetCpuBufferSizeInPages 0;
                      CallDisableAllEvents; CallClearTrace] in
          if atrace_on (state w) && PERFETTO_OS_ANDROID build then
            if PERFETTO_DCHECK_IS_ON build
            then Crash (DcheckFailed "DisableAtrace: !current_state_.atrace_on")
            else
              let r := fork_execv_waitpid process_ "/system/bin/atrace"
                         ["atrace"; "--async_stop"] k'' in
              match r.1 with
              | None => Crash (CheckFailed "pid >= 0")
              | Some status =>
                  if bool_decide (status = 0%Z)
                  then Ok true (mkWorld
                         (mkMuxer (mkFtraceState E' false false
                                     (cpu_buffer_size_pages (state w)))
                                  cs (last_id_ (muxer w)))
                         r.2
                         (log ++ [CallExecv "/system/bin/atrace"
                                    ["atrace"; "--async_stop"] r.1]))
                  else Crash (CheckFailed "RunAtrace({atrace, --async_stop})")
              end
          else Ok true (mkWorld
                 (mkMuxer (mkFtraceState E' false (atrace_on (state w))
                             (cpu_buffer_size_pages (state w)))
                          cs (last_id_ (muxer w)))
                 k'' log)
      else Ok true (mkWorld (mkMuxer (set_ftrace_events E' (state w)) cs
                                     (last_id_ (muxer w)))
                            k' (calls w ++ new)).
Proof.
  intros Hid Hconfig cs.
  remember (RemoveConfig id w) as res eqn:Hres.
  unfold RemoveConfig in Hres.
  unfold mbind at 1, M_bind at 1, get_muxer at 1 in Hres.
  rewrite bool_decide_eq_false_2, Hconfig in Hres by done.
  unfold mbind at 1, M_bind at 1, put_configs at 1 in Hres.
  unfold mbind at 1, M_bind at 1, get_muxer at 1 in Hres.
  cbn [host muxer calls current_state_ configs_ last_id_] in Hres.
  fold cs in Hres.
  unfold mbind at 1, M_bind at 1 in Hres.
  match type of Hres with context [RemoveConfig_events ?l ?w1] =>
    destruct (RemoveConfig_events_spec l w1)
      as (E' & k' & new & Hloop & Hsub & Hnew & Hkeep & Hleft)
  end.
  destruct (RemoveConfig_events_calls _ _ _ Hloop) as (new' & Hcalls & Hdetail).
  cbn [calls] in Hcalls. apply app_inv_head in Hcalls as <-.
  assert (Hhost : teardown_host id w
                  = ClearTrace ftrace_ (DisableAllEvents ftrace_
                      (SetCpuBufferSizeInPages ftrace_ 0
                         (DisableTracing ftrace_ k')))).
  { unfold teardown_host, world_after. cbv zeta. fold cs. by rewrite Hloop. }
  rewrite Hloop in Hres. clear Hloop.
  cbn [host muxer calls current_state_ configs_ last_id_] in *.
  exists E', k', new. split; [exact Hhost|]. split; [by repeat split|].
  unfold mbind at 1, M_bind at 1, get_muxer at 1 in Hres.
  cbn [host muxer calls current_state_ configs_ last_id_] in Hres.
  destruct (bool_decide (cs = ∅)); cbn [when] in Hres.
  2:{ by rewrite Hres. }
  unfold mbind at 1, M_bind at 1 in Hres.
  unfold mbind at 1, M_bind at 1, PERFETTO_DCHECK at 1 in Hres.
  cbn [tracing_on set_ftrace_events] in Hres.
  destruct (PERFETTO_DCHECK_IS_ON build && negb (tracing_on (state w)));
    [by rewrite Hres|].
  unfold mbind at 1 2 3 4 5 6, M_bind at 1 2 3 4 5 6, call_host_, modify_state,
    get_state in Hres.
  cbn [host muxer calls current_state_ configs_ last_id_ set_tracing_on
       set_ftrace_events atrace_on ftrace_events cpu_buffer_size_pages] in Hres.
  rewrite <- !(assoc_L (++)) in Hres. cbn [app] in Hres.
  cbv zeta. unfold DisableAtraceOnAndroid in Hres.
  assert (Hst : ∀ b, set_atrace_on b (set_tracing_on false (set_ftrace_events E' (state w)))
                = mkFtraceState E' false b (cpu_buffer_size_pages (state w))) by done.
  assert (Hst' : set_tracing_on false (set_ftrace_events E' (state w))
                = mkFtraceState E' false (atrace_on (state w))
                    (cpu_buffer_size_pages (state w))) by done.
  destruct (atrace_on (state w)) eqn:Hatrace; cbn [when andb] in Hres |- *.
  2:{ by rewrite Hres, Hst'. }
  destruct (PERFETTO_OS_ANDROID build).
  2:{ by rewrite Hres, Hst'. }
  rewrite DisableAtrace_unfold in Hres. cbv zeta in Hres.
  cbn [host muxer calls current_state_ configs_ last_id_ set_tracing_on
       set_ftrace_events atrace_on] in Hres.
  rewrite Hatrace in Hres.
  destruct (PERFETTO_DCHECK_IS_ON build); cbn [andb] in Hres; [by rewrite Hres|].
  destruct (fork_execv_waitpid _ _ _ _) as [[status|] k3]; cbn [fst snd] in *;
    [|by rewrite Hres].
  case_bool_decide; rewrite Hres; [|done].
  unfold mret, M_ret. by rewrite <- !(assoc_L (++)).
Qed.

Lemma RemoveConfig_known_detail id w config :
  id ≠ 0 → configs w !! id = Some config →
  let cs := delete id (configs w) in
  ∃ E' k' new,
    disable_loop_facts
      (difference (ftrace_events (state w)) (expected_ftrace_events cs))
      (ftrace_events (state w)) E' new
    ∧ RemoveConfig id w =
      if bool_decide (cs = ∅) then
        if PERFETTO_DCHECK_IS_ON build && negb (tracing_on (state w))
        then Crash (DcheckFailed "RemoveConfig: current_state_.tracing_on")
        else
          let k'' := ClearTrace ftrace_ (DisableAllEvents ftrace_
                       (SetCpuBufferSizeInPages ftrace_ 0
                          (DisableTracing ftrace_ k'))) in
          let log := calls w ++ new ++
                     [CallDisableTracing; CallSetCpuBufferSizeInPages 0;
                      CallDisableAllEvents; CallClearTrace] in
          if atrace_on (state w) && PERFETTO_OS_ANDROID build then
            if PERFETTO_DCHECK_IS_ON build
            then Crash (DcheckFailed "DisableAtrace: !current_state_.atrace_on")
            else
              let r := fork_execv_waitpid process_ "/system/bin/atrace"
                         ["atrace"; "--async_stop"] k'' in
              match r.1 with
              | None => Crash (CheckFailed "pid >= 0")
              | Some status =>
                  if bool_decide (status = 0%Z)
                  then Ok true (mkWorld
                         (mkMuxer (mkFtraceState E' false false
                                     (cpu_buffer_size_pages (state w)))
                                  cs (last_id_ (muxer w)))
                         r.2
                         (log ++ [CallExecv "/system/bin/atrace"
                                    ["atrace"; "--async_stop"] r.1]))
                  else Crash (CheckFailed "RunAtrace({atrace, --async_stop})")
              end
          else Ok true (mkWorld
                 (mkMuxer (mkFtraceState E' false (atrace_on (state w))
                             (cpu_buffer_size_pages (state w)))
                          cs (last_id_ (muxer w)))
                 k'' log)
      else Ok true (mkWorld (mkMuxer (set_ftrace_events E' (state w)) cs
                                     (last_id_ (muxer w)))
                            k' (calls w ++ new)).
Proof.
  intros Hid Hconfig cs.
  destruct (RemoveConfig_known_exact id w config Hid Hconfig)
    as (E' & k' & new & _ & Hfacts & Heq).
  by exists E', k', new.
Qed.

(** * One operation in full *)

Lemma RequestConfig_rejected_detail request w id w' :
  RequestConfig request w = Ok id w' →
  bool_decide (configs w = ∅) = (IsTracingEnabled ftrace_ (host w)).1 →
  id = 0
  ∧ w' = mkWorld (muxer w) (IsTracingEnabled ftrace_ (host w)).2
           (calls w ++ [CallIsTracingEnabled (IsTracingEnabled ftrace_ (host w)).1]).
Proof.
  intros Hrun Hcase. destruct (IsTracingEnabled ftrace_ (host w)).1 eqn:Hen.
  - apply bool_decide_eq_true in Hcase.
    destruct (PERFETTO_DCHECK_IS_ON build && tracing_on (state w)) eqn:Hd.
    + by rewrite RequestConfig_dcheck_cold in Hrun.
    + rewrite RequestConfig_reject_cold in Hrun by done. by injection Hrun as <- <-.
  - apply bool_decide_eq_false in Hcase.
    rewrite RequestConfig_reject_warm in Hrun by done. by injection Hrun as <- <-.
Qed.

(** An accepted request: the session setup of a cold start, then the
    enabling loop, then [EnableTracing] on a cold start, and the accepted
    config stored under the incremented counter. *)
Lemma RequestConfig_accepted_detail request w id w' :
  RequestConfig request w = Ok id w' →
  bool_decide (configs w = ∅) ≠ (IsTracingEnabled ftrace_ (host w)).1 →
  let cold := bool_decide (configs w = ∅) in
  let pages := ComputeCpuBufferSizeInPages (kPageSize build) (buffer_size_kb request) in
  let with_atrace := RequiresAtrace request && PERFETTO_OS_ANDROID build in
  ∃ accepted setup enables,
    enable_loop_facts (sorted_elements (GetFtraceEvents request))
      (ftrace_events (state w)) (ftrace_events (state w')) accepted enables
    ∧ tracing_on (state w') = cold || tracing_on (state w)
    ∧ atrace_on (state w') = cold && with_atrace || atrace_on (state w)
    ∧ cpu_buffer_size_pages (state w')
      = (if cold then pages else cpu_buffer_size_pages (state w))
    ∧ id = (last_id_ (muxer w) + 1) mod 2 ^ FtraceConfigId_bits build
    ∧ last_id_ (muxer w') = id
    ∧ configs w' = emplace id (mkFtraceConfig accepted 0 [] []) (configs w)
    ∧ calls w' = calls w ++ setup ++ enables
                 ++ (if cold then [CallEnableTracing] else [])
    ∧ (if cold
       then ∃ cur av,
         setup = [CallIsTracingEnabled false]
                 ++ (if with_atrace
                     then [CallExecv "/system/bin/atrace" (EnableAtrace_args request)
                             (Some 0%Z)]
                     else [])
                 ++ [CallGetClock cur; CallAvailableClocks av]
                 ++ (match preferred_clock av with
                     | Some target => if bool_decide (target = cur) then []
                                      else [CallSetClock target]
                     | None => []
                     end)
                 ++ [CallSetCpuBufferSizeInPages pages]
       else setup = [CallIsTracingEnabled true]).
Proof.
  intros Hrun Hcase cold pages with_atrace.
  destruct (decide (configs w = ∅)) as [Hempty|Hne].
  - assert (Hen : (IsTracingEnabled ftrace_ (host w)).1 = false).
    { rewrite bool_decide_eq_true_2 in Hcase by done.
      by destruct (IsTracingEnabled ftrace_ (host w)).1. }
    pose proof (RequestConfig_cold request w Hempty Hen) as Hcold.
    pose proof (RequestConfig_cold_eq request w Hempty Hen) as Heq.
    cbv zeta in Hcold, Heq.
    destruct (_ || _) eqn:Hsafe in Hcold; [destruct Hcold as [f Hf]; congruence|].
    clear Hcold. specialize (Heq Hsafe). rewrite Heq in Hrun. clear Heq.
    match type of Hrun with RequestConfig_accept request ?w3 = _ =>
      destruct (RequestConfig_accept_detail request w3)
        as (accepted & E' & k' & enables & Hfacts & Hacc)
    end.
    cbv zeta in Hacc.
    cbn [host muxer calls current_state_ configs_ last_id_ tracing_on atrace_on
         cpu_buffer_size_pages ftrace_events] in Hacc, Hfacts.
    apply orb_false_iff in Hsafe as [Hd1 _].
    rewrite Hd1, andb_false_r in Hacc. rewrite Hacc in Hrun. clear Hacc.
    injection Hrun as <- <-.
    subst cold. rewrite bool_decide_eq_true_2 by done.
    cbn [muxer calls current_state_ configs_ last_id_ tracing_on atrace_on
         cpu_buffer_size_pages ftrace_events orb andb].
    match goal with |- context [(calls w ++ ?s) ++ enables ++ _] =>
      exists accepted, s, enables
    end.
    split; [exact Hfacts|]. repeat (split; [done|]). split.
    + symmetry. apply app_assoc.
    + match goal with
      | |- context [CallGetClock ?c :: CallAvailableClocks ?a :: _] =>
          exists c, a
      end.
      cbn [app].
      destruct (preferred_clock _) as [t|]; [destruct (bool_decide (t = _))|];
        done.
  - assert (Hen : (IsTracingEnabled ftrace_ (host w)).1 = true).
    { rewrite bool_decide_eq_false_2 in Hcase by done.
      by destruct (IsTracingEnabled ftrace_ (host w)).1. }
    rewrite (RequestConfig_warm_eq request w Hne Hen) in Hrun.
    match type of Hrun with RequestConfig_accept request ?w3 = _ =>
      destruct (RequestConfig_accept_detail request w3)
        as (accepted & E' & k' & enables & Hfacts & Hacc)
    end.
    cbv zeta in Hacc.
    cbn [host muxer calls current_state_ configs_ last_id_] in Hacc, Hfacts.
    rewrite (bool_decide_eq_false_2 (configs w = ∅)) in Hacc by done.
    cbn [andb orb] in Hacc. rewrite Hacc in Hrun. clear Hacc.
    injection Hrun as <- <-.
    subst cold. rewrite bool_decide_eq_false_2 by done.
    cbn [muxer calls current_state_ configs_ last_id_ tracing_on atrace_on
         cpu_buffer_size_pages ftrace_events orb andb].
    exists accepted, [CallIsTracingEnabled true], enables.
    split; [exact Hfacts|]. repeat (split; [done|]). split; [|done].
    by rewrite <- !(assoc_L (++)).
Qed.

(** A removal that returns true: the disabling loop over the events no
    remaining config lists, then the teardown when the table became
    empty. *)
Lemma RemoveConfig_removed_detail id w w' :
  RemoveConfig id w = Ok true w' →
  let cs := delete id (configs w) in
  let last := bool_decide (cs = ∅) in
  let stop := atrace_on (state w) && PERFETTO_OS_ANDROID build in
  ∃ disables,
    id ≠ 0 ∧ is_Some (configs w !! id)
    ∧ disable_loop_facts
        (difference (ftrace_events (state w)) (expected_ftrace_events cs))
        (ftrace_events (state w)) (ftrace_events (state w')) disables
    ∧ configs w' = cs
    ∧ last_id_ (muxer w') = last_id_ (muxer w)
    ∧ cpu_buffer_size_pages (state w') = cpu_buffer_size_pages (state w)
    ∧ tracing_on (state w') = (if last then false else tracing_on (state w))
    ∧ atrace_on (state w') = atrace_on (state w) && negb (last && stop)
    ∧ calls w' = calls w ++ disables
                 ++ (if last
                     then [CallDisableTracing; CallSetCpuBufferSizeInPages 0;
                           CallDisableAllEvents; CallClearTrace]
                          ++ (if stop
                              then [CallExecv "/system/bin/atrace"
                                      ["atrace"; "--async_stop"] (Some 0%Z)]
                              else [])
                     else []).
Proof.
  intros Hrun cs last stop.
  pose proof (RemoveConfig_table _ _ _ _ Hrun) as [_ [(? & _)|(_ & Hid & [config Hconfig] & _)]];
    [done|].
  destruct (RemoveConfig_known_detail id w config Hid Hconfig)
    as (E' & k' & disables & Hfacts & Heq).
  cbv zeta in Heq. rewrite Heq in Hrun. clear Heq. fold cs last in Hrun.
  exists disables. split; [done|]. split; [by rewrite Hconfig|].
  destruct last.
  - destruct (PERFETTO_DCHECK_IS_ON build && negb (tracing_on (state w)));
      [done|].
    fold stop in Hrun. destruct stop eqn:Hstop.
    + destruct (PERFETTO_DCHECK_IS_ON build); [done|].
      destruct (fork_execv_waitpid _ _ _ _).1 as [status|]; [|done].
      case_bool_decide as Hst; [|done]. subst status. injection Hrun as <-.
      cbn [muxer calls current_state_ configs_ last_id_ tracing_on atrace_on
           cpu_buffer_size_pages ftrace_events].
      split; [exact Hfacts|]. repeat (split; [done|]).
      split; [by rewrite andb_false_r|]. by rewrite <- !(assoc_L (++)).
    + injection Hrun as <-.
      cbn [muxer calls current_state_ configs_ last_id_ tracing_on atrace_on
           cpu_buffer_size_pages ftrace_events].
      split; [exact Hfacts|]. repeat (split; [done|]).
      split; [by rewrite andb_true_r|]. by rewrite app_nil_r.
  - injection Hrun as <-.
    cbn [muxer calls current_state_ configs_ last_id_ tracing_on atrace_on
         cpu_buffer_size_pages ftrace_events set_ftrace_events].
    split; [exact Hfacts|]. repeat (split; [done|]).
    split; [by rewrite andb_true_r|]. by rewrite app_nil_r.
Qed.

(** The teardown writes 0 to the control surface and leaves the field
    [cpu_buffer_size_pages] as it was. *)
Lemma RemoveConfig_teardown_keeps_buffer_pages id w w' :
  RemoveConfig id w = Ok true w' → configs w' = ∅ →
  last_buffer_write (calls w') = Some (CallSetCpuBufferSizeInPages 0)
  ∧ cpu_buffer_size_pages (state w') = cpu_buffer_size_pages (state w).
Proof.
  intros Hrun Hempty.
  destruct (RemoveConfig_removed_detail _ _ _ Hrun)
    as (disables & _ & _ & _ & Hcs & _ & Hcpu & _ & _ & Hcalls).
  rewrite Hcs in Hempty. rewrite (bool_decide_eq_true_2 _ Hempty) in Hcalls.
  split; [|done]. rewrite Hcalls.
  replace (calls w ++ disables
           ++ [CallDisableTracing; CallSetCpuBufferSizeInPages 0;
               CallDisableAllEvents; CallClearTrace]
           ++ (if atrace_on (state w) && PERFETTO_OS_ANDROID build
               then [CallExecv "/system/bin/atrace" ["atrace"; "--async_stop"]
                       (Some 0%Z)]
               else []))
    with ((calls w ++ disables ++ [CallDisableTracing])
          ++ CallSetCpuBufferSizeInPages 0
             :: ([CallDisableAllEvents; CallClearTrace]
                 ++ (if atrace_on (state w) && PERFETTO_OS_ANDROID build
                     then [CallExecv "/system/bin/atrace"
                             ["atrace"; "--async_stop"] (Some 0%Z)]
                     else [])))
    by (by rewrite <- !(assoc_L (++))).
  apply last_buffer_write_snoc.
  destruct (atrace_on (state w) && PERFETTO_OS_ANDROID build);
    by repeat first [apply Forall_nil_2 | apply Forall_cons_2].
Qed.

(** C8. In every world, [RemoveConfig id] returns false and changes
    nothing at all (muxer, host and call log) when [id] is 0 or no config
    is stored under [id], and only then; when it returns true, a config
    was stored under the non-zero [id] and is erased from the table.  In
    a reachable world with a config stored under a non-zero [id], the
    call returns true unless it is the last removal of a session in which
    atrace was started and the stop aborts the process: it returns true
    exactly when atrace was not started, or another config remains, or
    [PERFETTO_DCHECK] is compiled out and the atrace stop exits with
    status 0; it aborts in the remaining case. *)
Theorem RemoveConfig_result id w :
  (id = 0 ∨ configs w !! id = None → RemoveConfig id w = Ok false w)
  ∧ (∀ w', RemoveConfig id w = Ok false w' →
       w' = w ∧ (id = 0 ∨ configs w !! id = None))
  ∧ (∀ w', RemoveConfig id w = Ok true w' →
       id ≠ 0 ∧ is_Some (configs w !! id)
       ∧ configs w' = delete id (configs w) ∧ configs w' !! id = None)
  ∧ (reachable w → id ≠ 0 → is_Some (configs w !! id) →
     let stop := fork_execv_waitpid process_ "/system/bin/atrace"
                   ["atrace"; "--async_stop"] (teardown_host id w) in
     ((∃ w', RemoveConfig id w = Ok true w') ↔
      atrace_on (state w) = false ∨ delete id (configs w) ≠ ∅
      ∨ (PERFETTO_DCHECK_IS_ON build = false ∧ stop.1 = Some 0%Z))
     ∧ ((∃ f, RemoveConfig id w = Crash f) ↔
        atrace_on (state w) = true ∧ delete id (configs w) = ∅
        ∧ (PERFETTO_DCHECK_IS_ON build = true ∨ stop.1 ≠ Some 0%Z))).
Proof.
  split; [apply RemoveConfig_unknown|]. split; [|split].
  - intros w' Hrun. apply RemoveConfig_table in Hrun as [_ Hcases].
    destruct Hcases as [(_ & ? & ?)|(? & _)]; done.
  - intros w' Hrun. apply RemoveConfig_table in Hrun as [_ Hcases].
    destruct Hcases as [(? & _)|(_ & ? & ? & Hcs)]; [done|].
    repeat split; try done. rewrite Hcs. apply lookup_delete_eq.
  - intros Hreach Hid [config Hconfig] stop.
    destruct (RemoveConfig_known_exact id w config Hid Hconfig)
      as (E' & k' & new & Hhost & _ & Heq).
    cbv zeta in Heq. rewrite <- Hhost in Heq. fold stop in Heq.
    destruct (reachable_inv w Hreach) as [H1 H2 _ _ _ _].
    assert (Hon : tracing_on (state w) = true).
    { apply H1. intros Habs. by rewrite Habs in Hconfig. }
    rewrite Hon, andb_false_r in Heq.
    destruct (decide (delete id (configs w) = ∅)) as [Hlast|Hmore].
    2:{ rewrite (bool_decide_eq_false_2 _ Hmore) in Heq. split; split.
        - intros _. right. by left.
        - intros _. by eexists.
        - intros [f Hf]. congruence.
        - by intros (_ & ? & _). }
    rewrite (bool_decide_eq_true_2 _ Hlast) in Heq.
    destruct (atrace_on (state w)) eqn:Hat.
    2:{ cbn [andb] in Heq. split; split.
        - intros _. by left.
        - intros _. by eexists.
        - intros [f Hf]. congruence.
        - by intros (? & _). }
    assert (Handroid : PERFETTO_OS_ANDROID build = true)
      by (by destruct H2 as [_ ?]).
    rewrite Handroid in Heq. cbn [andb] in Heq.
    destruct (PERFETTO_DCHECK_IS_ON build) eqn:Hd.
    { split; split.
      - intros [w' Hw']. congruence.
      - intros [?|[?|[? _]]]; done.
      - intros _. split; [done|]. split; [done|by left].
      - intros _. by eexists. }
    destruct (decide (stop.1 = Some 0%Z)) as [Hok|Hfail].
    + rewrite Hok, bool_decide_eq_true_2 in Heq by done. split; split.
      * intros _. right. right. done.
      * intros _. by eexists.
      * intros [f Hf]. congruence.
      * intros (_ & _ & [?|?]); done.
    + assert (Hcrash : ∃ f, RemoveConfig id w = Crash f).
      { destruct stop.1 as [status|]; [|by eexists].
        rewrite bool_decide_eq_false_2 in Heq; [by eexists|].
        intros ->. by apply Hfail. }
      split; split.
      * intros [w' Hw']. destruct Hcrash as [f Hf]. congruence.
      * intros [?|[?|[_ ?]]]; done.
      * intros _. split; [done|]. split; [done|by right].
      * intros _. exact Hcrash.
Qed.

(** * Further properties *)

Lemma dom_emplace_eq id config (cs : gmap N FtraceConfig) :
  dom (emplace id config cs) = {[id]} ∪ dom cs.
Proof.
  unfold emplace. destruct (cs !! id) eqn:Hid.
  - apply (elem_of_dom_2 (D:=gset N)) in Hid. set_solver.
  - by rewrite dom_insert_L.
Qed.

(** The keys of the table are exactly the ids issued and not yet handed
    to [RemoveConfig]. *)
Lemma run_dom ops : ∀ w rets w',
  run ops w = Ok rets w' →
  last_id_ (muxer w) + N.of_nat (length ops) < 2 ^ FtraceConfigId_bits build →
  0 ∉ dom (configs w) →
  dom (configs w') = pending (dom (configs w)) ops rets ∧ 0 ∉ dom (configs w').
Proof.
  induction ops as [|op ops IH]; intros w rets w' Hrun Hsmall Hzero.
  - by injection Hrun as <- <-.
  - apply run_cons_Ok in Hrun as (r & w1 & rs & Hstep & Hrun & ->).
    cbn [length] in Hsmall.
    apply step_last_id in Hstep; [|lia].
    destruct op as [request|id'], r as [id|b]; try done; cbn [pending].
    + destruct Hstep as [[-> Hsame]|(-> & Hlast & actual & Hcs)].
      * rewrite bool_decide_eq_true_2 by done. rewrite <- Hsame.
        apply (IH w1 rs w'); rewrite ?Hsame; try done. lia.
      * rewrite bool_decide_eq_false_2 by lia.
        rewrite <- (dom_emplace_eq _ actual), <- Hcs.
        apply (IH w1 rs w'); rewrite ?Hlast, ?Hcs; try done; [lia|].
        rewrite dom_emplace_eq.
        assert (0 ≠ last_id_ (muxer w) + 1) by lia. set_solver.
    + destruct Hstep as [Hlast [(-> & -> & Hunknown)|(-> & Hcs)]].
      * assert (Hnot : id' ∉ dom (configs w)).
        { destruct Hunknown as [->|Hnone]; [done|]. by apply not_elem_of_dom. }
        replace (dom (configs w) ∖ {[id']}) with (dom (configs w)) by set_solver.
        apply (IH w rs w'); try done. lia.
      * rewrite <- dom_delete_L, <- Hcs.
        apply (IH w1 rs w'); rewrite ?Hlast, ?Hcs; try done; [lia|].
        rewrite dom_delete_L. set_solver.
Qed.

(** The keys of the table never exceed the counter. *)
Lemma run_keys_bounded ops : ∀ w rets w',
  run ops w = Ok rets w' →
  last_id_ (muxer w) + N.of_nat (length ops) < 2 ^ FtraceConfigId_bits build →
  (∀ id, id ∈ dom (configs w) → id ≤ last_id_ (muxer w)) →
  (∀ id, id ∈ dom (configs w') → id ≤ last_id_ (muxer w'))
  ∧ last_id_ (muxer w') ≤ last_id_ (muxer w) + N.of_nat (length ops).
Proof.
  induction ops as [|op ops IH]; intros w rets w' Hrun Hsmall Hkeys.
  - injection Hrun as <- <-. split; [done|lia].
  - apply run_cons_Ok in Hrun as (r & w1 & rs & Hstep & Hrun & ->).
    cbn [length] in Hsmall |- *.
    apply step_last_id in Hstep; [|lia].
    assert (Hw1 : (∀ id, id ∈ dom (configs w1) → id ≤ last_id_ (muxer w1))
                  ∧ last_id_ (muxer w1) ≤ last_id_ (muxer w) + 1).
    { destruct op as [request|id'], r as [id|b]; try done.
      - destruct Hstep as [[-> ->]|(-> & Hlast & actual & Hcs)]; [split; [done|lia]|].
        rewrite Hlast, Hcs. split; [|lia]. intros id Hid.
        apply dom_emplace in Hid. apply elem_of_union in Hid as [Hid|Hid].
        + apply elem_of_singleton in Hid. lia.
        + apply Hkeys in Hid. lia.
      - destruct Hstep as [Hlast [(-> & -> & _)|(-> & Hcs)]]; [split; [done|lia]|].
        rewrite Hlast, Hcs. split; [|lia]. intros id Hid.
        rewrite dom_delete_L in Hid. apply Hkeys. set_solver. }
    destruct Hw1 as [Hkeys1 Hle1].
    destruct (IH w1 rs w' Hrun) as [Hkeys' Hle']; [lia|done|].
    split; [done|lia].
Qed.

(** X1. Between two external operations, [tracing_on] is true exactly
    when the config table is non-empty, and [atrace_on] is true only
    while the table is non-empty, in an Android build. *)
Theorem session_flags_follow_table w :
  reachable w →
  (tracing_on (state w) = true ↔ configs w ≠ ∅)
  ∧ (atrace_on (state w) = true →
     configs w ≠ ∅ ∧ PERFETTO_OS_ANDROID build = true).
Proof.
  intros Hreach. by destruct (reachable_inv w Hreach) as [H1 H2 _ _ _ _].
Qed.

(** X2. After a sequence of operations on a fresh muxer that runs to its
    end without the id counter wrapping, [GetConfig] answers with a
    stored config exactly for the ids that were issued and not yet handed
    to [RemoveConfig], never for id 0, and leaves the world as it is. *)
Theorem GetConfig_tracks_outstanding_ids k ops rets w :
  run ops (initial_world k) = Ok rets w →
  last_id_init build + N.of_nat (length ops) < 2 ^ FtraceConfigId_bits build →
  dom (configs w) = pending ∅ ops rets
  ∧ (∀ id, ∃ answer, GetConfig id w = Ok answer w
           ∧ (is_Some answer ↔ id ∈ pending ∅ ops rets))
  ∧ GetConfig 0 w = Ok None w.
Proof.
  intros Hrun Hsmall.
  destruct (run_dom ops _ _ _ Hrun Hsmall) as [Hdom Hzero];
    [cbn; set_solver|].
  cbn [initial_world muxer configs_ FtraceConfigMuxer_new] in Hdom.
  rewrite dom_empty_L in Hdom. split; [done|]. split.
  - intros id. exists (configs w !! id). split; [done|].
    by rewrite <- Hdom, elem_of_dom.
  - unfold GetConfig, mbind, M_bind, get_muxer, mret, M_ret. f_equal.
    by apply not_elem_of_dom.
Qed.

(** X3. A removal that returned true cannot be repeated: afterwards
    [GetConfig] finds nothing under the id, a second [RemoveConfig] of the
    id returns false and changes nothing, and the configs stored under
    other ids are the ones stored before. *)
Theorem RemoveConfig_releases_once id w w' :
  RemoveConfig id w = Ok true w' →
  GetConfig id w' = Ok None w'
  ∧ RemoveConfig id w' = Ok false w'
  ∧ (∀ id', id' ≠ id → GetConfig id' w' = Ok (configs w !! id') w').
Proof.
  intros Hrun.
  apply RemoveConfig_table in Hrun as [_ [(? & _)|(_ & Hid & Hsome & Hcs)]]; [done|].
  assert (Hgone : configs w' !! id = None) by (rewrite Hcs; apply lookup_delete_eq).
  split; [|split].
  - unfold GetConfig, mbind, M_bind, get_muxer, mret, M_ret. by rewrite Hgone.
  - apply RemoveConfig_unknown. by right.
  - intros id' Hne. unfold GetConfig, mbind, M_bind, get_muxer, mret, M_ret.
    by rewrite Hcs, lookup_delete_ne.
Qed.

Lemma sublist_all_NoDup {A} (l' l : list A) :
  l' `sublist_of` l → NoDup l → (∀ x, x ∈ l → x ∈ l') → l' = l.
Proof.
  induction 1 as [|x l1 l2 Hsub IH|x l1 l2 Hsub IH]; intros Hnd Hall; [done| |].
  - apply NoDup_cons in Hnd as [Hx Hnd]. f_equal. apply IH; [done|].
    intros y Hy. assert (Hy' : y ∈ x :: l1) by (apply Hall; by right).
    apply elem_of_cons in Hy' as [-> | ?]; done.
  - apply NoDup_cons in Hnd as [Hx _]. destruct Hx.
    eapply elem_of_sublist; [|exact Hsub]. apply Hall. by left.
Qed.

Lemma in_ftrace_group_dec name : in_ftrace_group name ∨ ¬ in_ftrace_group name.
Proof.
  unfold in_ftrace_group. destruct (GetEventByName table_ name) as [event|]; [|tauto].
  destruct (decide ("ftrace" = event_group event)); tauto.
Qed.

(** The calls of a session setup: none of them enables or disables
    anything, and the last of them writes the buffer size. *)
Lemma cold_setup_calls (with_atrace : bool) argv cur av pages :
  let setup :=
    [CallIsTracingEnabled false]
    ++ (if with_atrace then [CallExecv "/system/bin/atrace" argv (Some 0%Z)] else [])
    ++ [CallGetClock cur; CallAvailableClocks av]
    ++ (match preferred_clock av with
        | Some target => if bool_decide (target = cur) then []
                         else [CallSetClock target]
        | None => []
        end)
    ++ [CallSetCpuBufferSizeInPages pages] in
  Forall (λ c, is_EnableEvent c = false ∧ is_DisableEvent c = false
               ∧ c ≠ CallEnableTracing ∧ c ≠ CallDisableTracing
               ∧ c ≠ CallDisableAllEvents ∧ c ≠ CallClearTrace
               ∧ (with_atrace = false → is_Execv c = false)) setup
  ∧ ∃ before, setup = before ++ [CallSetCpuBufferSizeInPages pages].
Proof.
  intros setup. subst setup. split.
  - destruct with_atrace, (preferred_clock av) as [t|]; try case_bool_decide;
      cbn [app]; repeat constructor; done.
  - eexists. rewrite !(assoc_L (++)). reflexivity.
Qed.

(** X4. After a sequence of operations on a fresh muxer that leaves room
    for one more id, a [RequestConfig] that returns a non-zero id stores
    the accepted config under that id, where [GetConfig] finds it: its
    event names are a sub-list of the sorted effective event set, each one
    in the catalog and either enabled or in the group "ftrace"; an
    effective name of the catalog that was left out had its [EnableEvent]
    call refused; and the configs under the other ids are untouched. *)
Theorem RequestConfig_then_GetConfig k ops rets w request id w' :
  run ops (initial_world k) = Ok rets w →
  last_id_init build + N.of_nat (length ops) + 1 < 2 ^ FtraceConfigId_bits build →
  RequestConfig request w = Ok id w' → id ≠ 0 →
  ∃ accepted,
    GetConfig id w' = Ok (Some (mkFtraceConfig accepted 0 [] [])) w'
    ∧ accepted `sublist_of` sorted_elements (GetFtraceEvents request)
    ∧ (∀ name, name ∈ accepted →
         is_Some (GetEventByName table_ name)
         ∧ (name ∈ ftrace_events (state w') ∨ in_ftrace_group name))
    ∧ (∀ name event, name ∈ GetFtraceEvents request →
         GetEventByName table_ name = Some event → name ∉ accepted →
         CallEnableEvent (event_group event) (event_name event) false ∈ calls w')
    ∧ (∀ id', id' ≠ id → GetConfig id' w' = Ok (configs w !! id') w').
Proof.
  intros Hrun Hsmall Hreq Hid.
  destruct (run_keys_bounded ops _ _ _ Hrun) as [Hkeys Hlast];
    [cbn; lia|cbn; set_solver|].
  cbn [initial_world muxer last_id_ FtraceConfigMuxer_new] in Hlast.
  pose proof (RequestConfig_table _ _ _ _ Hreq) as Htable. cbv zeta in Htable.
  destruct Htable as [(_ & ? & _)|(Hcase & _)]; [done|].
  destruct (RequestConfig_accepted_detail _ _ _ _ Hreq Hcase)
    as (accepted & setup & enables & Hfacts & _ & _ & _ & Hidv & _ & Hcs & Hcalls & _).
  destruct Hfacts as (Hsub & Hcat & HE & _ & Hrefused).
  rewrite N.mod_small in Hidv by lia.
  assert (Hfresh : configs w !! id = None).
  { apply not_elem_of_dom. intros Hin. apply Hkeys in Hin. lia. }
  assert (Hcs' : configs w' = <[id := mkFtraceConfig accepted 0 [] []]> (configs w)).
  { rewrite Hcs. unfold emplace. by rewrite Hfresh. }
  exists accepted. split; [|split; [done|split; [|split]]].
  - unfold GetConfig, mbind, M_bind, get_muxer, mret, M_ret.
    by rewrite Hcs', lookup_insert_eq.
  - intros name Hname. split; [by apply Hcat|].
    destruct (in_ftrace_group_dec name) as [?|Hnf]; [by right|left].
    apply HE. right. done.
  - intros name event Hname Hevent Hnot. rewrite Hcalls.
    apply elem_of_app. right. apply elem_of_app. right. apply elem_of_app. left.
    apply (Hrefused name event); [|done..]. by apply elem_of_sorted_elements.
  - intros id' Hne. unfold GetConfig, mbind, M_bind, get_muxer, mret, M_ret.
    by rewrite Hcs', lookup_insert_ne.
Qed.

(** X5. [RequestConfig] only acquires: whenever it returns, every
    [EnableEvent] call it made is for the catalog entry of a name of the
    effective event set that was not yet in [ftrace_events] and is not in
    the group "ftrace"; it made no [DisableEvent], [DisableTracing],
    [DisableAllEvents] or [ClearTrace] call; and [ftrace_events] only grew,
    by names of the effective event set. *)
Theorem RequestConfig_only_acquires request w id w' :
  RequestConfig request w = Ok id w' →
  ∃ new,
    calls w' = calls w ++ new
    ∧ (∀ group name r, CallEnableEvent group name r ∈ new →
         ∃ key event,
           key ∈ GetFtraceEvents request
           ∧ GetEventByName table_ key = Some event
           ∧ group = event_group event ∧ name = event_name event
           ∧ key ∉ ftrace_events (state w)
           ∧ "ftrace" ≠ group)
    ∧ Forall (λ c, is_DisableEvent c = false ∧ c ≠ CallDisableTracing
                   ∧ c ≠ CallDisableAllEvents ∧ c ≠ CallClearTrace) new
    ∧ ftrace_events (state w) ⊆ ftrace_events (state w')
    ∧ ftrace_events (state w') ⊆ ftrace_events (state w) ∪ GetFtraceEvents request.
Proof.
  intros Hreq.
  destruct (decide (bool_decide (configs w = ∅)
                    = (IsTracingEnabled ftrace_ (host w)).1)) as [Hcase|Hcase].
  { destruct (RequestConfig_rejected_detail _ _ _ _ Hreq Hcase) as [_ ->].
    eexists. split; [done|]. cbn [muxer]. split; [|split; [|split]].
    - by intros ? ? ? [=]%list_elem_of_singleton.
    - by repeat constructor.
    - done.
    - set_solver. }
  destruct (RequestConfig_accepted_detail _ _ _ _ Hreq Hcase)
    as (accepted & setup & enables & Hfacts & _ & _ & _ & _ & _ & _ & Hcalls & Hsetup).
  destruct Hfacts as (Hsub & _ & HE & Henables & _).
  assert (Hclass : Forall (λ c, is_EnableEvent c = false ∧ is_DisableEvent c = false
                                ∧ c ≠ CallDisableTracing ∧ c ≠ CallDisableAllEvents
                                ∧ c ≠ CallClearTrace) setup).
  { destruct (bool_decide (configs w = ∅)).
    - destruct Hsetup as (cur & av & ->).
      eapply Forall_impl; [apply cold_setup_calls|]. cbn. tauto.
    - subst setup. by repeat constructor. }
  assert (Htail : Forall (λ c, is_EnableEvent c = false ∧ is_DisableEvent c = false
                               ∧ c ≠ CallDisableTracing ∧ c ≠ CallDisableAllEvents
                               ∧ c ≠ CallClearTrace)
                    (if bool_decide (configs w = ∅) then [CallEnableTracing] else [])).
  { destruct (bool_decide (configs w = ∅)); by repeat constructor. }
  exists (setup ++ enables ++
          (if bool_decide (configs w = ∅) then [CallEnableTracing] else [])).
  split; [done|]. split; [|split; [|split]].
  - intros group name r Hin.
    apply elem_of_app in Hin as [Hin|Hin];
      [eapply Forall_forall in Hclass; [|exact Hin]; by destruct Hclass|].
    apply elem_of_app in Hin as [Hin|Hin];
      [|eapply Forall_forall in Htail; [|exact Hin]; by destruct Htail].
    eapply Forall_forall in Henables; [|exact Hin].
    destruct Henables as (key & event & r' & [= -> -> ->] & Hkey & Hevent & Hnew & Hgroup).
    exists key, event. apply elem_of_sorted_elements in Hkey. done.
  - apply Forall_app. split; [eapply Forall_impl; [exact Hclass|]; cbn; tauto|].
    apply Forall_app. split; [|eapply Forall_impl; [exact Htail|]; cbn; tauto].
    eapply Forall_impl; [exact Henables|]. cbn.
    by intros c (? & ? & ? & -> & _).
  - intros name Hname. apply HE. by left.
  - intros name Hname. apply HE in Hname as [?|[Hacc _]]; [set_solver|].
    apply elem_of_union. right. apply elem_of_sorted_elements.
    eapply elem_of_sublist; [|exact Hsub]. done.
Qed.

(** When every name handed to the first loop is in the catalog and is
    already in [ftrace_events] or in the group "ftrace", the loop accepts
    all of them and touches nothing. *)
Lemma RequestConfig_events_no_call events : ∀ actual w,
  (∀ name, name ∈ events →
     ∃ event, GetEventByName table_ name = Some event
              ∧ (name ∈ ftrace_events (state w) ∨ "ftrace" = event_group event)) →
  RequestConfig_events events actual w =
  Ok (mkFtraceConfig (event_names actual ++ events) (buffer_size_kb actual)
        (atrace_categories actual) (atrace_apps actual)) w.
Proof.
  induction events as [|name events IH]; intros actual w Hall.
  - cbn [RequestConfig_events]. unfold mret, M_ret. rewrite app_nil_r.
    by destruct actual.
  - destruct (Hall name) as (event & Hevent & Hcase); [by left|].
    cbn [RequestConfig_events]. rewrite Hevent.
    unfold mbind at 1, M_bind at 1, get_state at 1.
    assert (Hc : bool_decide (name ∈ ftrace_events (state w))
                 || bool_decide ("ftrace" = event_group event) = true).
    { destruct Hcase as [Hin|Hgrp].
      - by rewrite (bool_decide_eq_true_2 _ Hin).
      - by rewrite (bool_decide_eq_true_2 _ Hgrp), orb_true_r. }
    rewrite Hc, IH.
    + cbn [add_event_names event_names buffer_size_kb atrace_categories
           atrace_apps]. by rewrite <- (assoc_L (++)).
    + intros n Hn. apply Hall. by right.
Qed.

(** X6. In a reachable world with a non-empty table and tracing on, a
    request whose effective events are all in [ftrace_events] already, or
    in the group "ftrace", costs one read and nothing else: no call
    besides [IsTracingEnabled], [CurrentState] unchanged, and the sorted
    effective event set stored as the accepted config. *)
Theorem RequestConfig_of_enabled_events_is_free request w :
  reachable w → configs w ≠ ∅ →
  (IsTracingEnabled ftrace_ (host w)).1 = true →
  (∀ name, name ∈ GetFtraceEvents request →
     name ∈ ftrace_events (state w) ∨ in_ftrace_group name) →
  let id := (last_id_ (muxer w) + 1) mod 2 ^ FtraceConfigId_bits build in
  RequestConfig request w =
  Ok id (mkWorld
           (mkMuxer (state w)
              (emplace id (mkFtraceConfig (sorted_elements (GetFtraceEvents request))
                             0 [] []) (configs w)) id)
           (IsTracingEnabled ftrace_ (host w)).2
           (calls w ++ [CallIsTracingEnabled true])).
Proof.
  intros Hreach Hne Hen Hall id.
  destruct (reachable_inv w Hreach) as [_ _ H3 _ _ _].
  rewrite (RequestConfig_warm_eq request w Hne Hen).
  unfold RequestConfig_accept. unfold mbind at 1, M_bind at 1.
  rewrite RequestConfig_events_no_call.
  2:{ intros name Hname%elem_of_sorted_elements. cbn [muxer current_state_].
      destruct (Hall name Hname) as [Hin|Hgrp].
      - specialize (H3 name Hin). unfold enabled_by_muxer in H3.
        destruct (GetEventByName table_ name) as [event|]; [|done].
        exists event. split; [done|by left].
      - unfold in_ftrace_group in Hgrp.
        destruct (GetEventByName table_ name) as [event|]; [|done].
        exists event. split; [done|by right]. }
  unfold mbind, M_bind, get_muxer, put_last_id, put_configs, mret, M_ret.
  cbn [host muxer calls current_state_ configs_ last_id_ FtraceConfig_default
       event_names buffer_size_kb atrace_categories atrace_apps app].
  rewrite bool_decide_eq_false_2 by done. cbn [when]. unfold mret, M_ret.
  fold id. do 3 f_equal.
Qed.

(** X7. A cold start that returns made its calls in this order: the read
    of the tracing switch, the atrace start when the request requires it
    (Android), the two clock reads and at most one clock write, the buffer
    size write, the [EnableEvent] calls, and [EnableTracing] last; it
    leaves [tracing_on] true and [cpu_buffer_size_pages] equal to the
    pages just written. *)
Theorem RequestConfig_cold_start_sequence request w id w' :
  configs w = ∅ →
  (IsTracingEnabled ftrace_ (host w)).1 = false →
  RequestConfig request w = Ok id w' →
  let pages := ComputeCpuBufferSizeInPages (kPageSize build) (buffer_size_kb request) in
  let with_atrace := RequiresAtrace request && PERFETTO_OS_ANDROID build in
  ∃ cur av enables,
    calls w' =
      calls w ++ [CallIsTracingEnabled false]
      ++ (if with_atrace
          then [CallExecv "/system/bin/atrace" (EnableAtrace_args request) (Some 0%Z)]
          else [])
      ++ [CallGetClock cur; CallAvailableClocks av]
      ++ (match preferred_clock av with
          | Some target => if bool_decide (target = cur) then []
                           else [CallSetClock target]
          | None => []
          end)
      ++ [CallSetCpuBufferSizeInPages pages]
      ++ enables ++ [CallEnableTracing]
    ∧ Forall (λ c, is_EnableEvent c = true) enables
    ∧ tracing_on (state w') = true
    ∧ cpu_buffer_size_pages (state w') = pages
    ∧ atrace_on (state w') = with_atrace || atrace_on (state w)
    ∧ configs w' ≠ ∅.
Proof.
  intros Hempty Hen Hreq pages with_atrace.
  assert (Hcase : bool_decide (configs w = ∅) ≠ (IsTracingEnabled ftrace_ (host w)).1).
  { by rewrite Hen, bool_decide_eq_true_2. }
  destruct (RequestConfig_accepted_detail _ _ _ _ Hreq Hcase)
    as (accepted & setup & enables & Hfacts & Hon & Hat & Hcpu & _ & _ & Hcs
        & Hcalls & Hsetup).
  rewrite bool_decide_eq_true_2 in Hon, Hat, Hcpu, Hcalls, Hsetup by done.
  destruct Hsetup as (cur & av & ->).
  exists cur, av, enables. split; [|split; [|split; [|split; [|split]]]].
  - rewrite Hcalls, <- !(assoc_L (++)). reflexivity.
  - destruct Hfacts as (_ & _ & _ & Henables & _).
    eapply Forall_impl; [exact Henables|]. cbn. by intros c (? & ? & ? & -> & _).
  - done.
  - done.
  - done.
  - rewrite Hcs. apply emplace_not_empty.
Qed.

(** X8. [RemoveConfig] only releases: when it returns true, every
    [DisableEvent] call it made is for the catalog entry of a member of
    [ftrace_events] that no remaining config lists; it made no
    [EnableEvent], [EnableTracing] or [SetClock] call; [ftrace_events] only
    shrank and kept every event a remaining config lists; and while a
    config remains it made [DisableEvent] calls only and left
    [tracing_on], [atrace_on] and [cpu_buffer_size_pages] alone. *)
Theorem RemoveConfig_only_releases id w w' :
  RemoveConfig id w = Ok true w' →
  ∃ new,
    calls w' = calls w ++ new
    ∧ (∀ group name r, CallDisableEvent group name r ∈ new →
         ∃ key event,
           GetEventByName table_ key = Some event
           ∧ group = event_group event ∧ name = event_name event
           ∧ key ∈ ftrace_events (state w)
           ∧ (∀ id' config, id' ≠ id → configs w !! id' = Some config →
                key ∉ event_names config))
    ∧ Forall (λ c, is_EnableEvent c = false ∧ c ≠ CallEnableTracing
                   ∧ is_SetClock c = false) new
    ∧ ftrace_events (state w') ⊆ ftrace_events (state w)
    ∧ (∀ key id' config, key ∈ ftrace_events (state w) → id' ≠ id →
         configs w !! id' = Some config → key ∈ event_names config →
         key ∈ ftrace_events (state w'))
    ∧ (configs w' ≠ ∅ →
       Forall (λ c, is_DisableEvent c = true) new
       ∧ tracing_on (state w') = tracing_on (state w)
       ∧ atrace_on (state w') = atrace_on (state w)
       ∧ cpu_buffer_size_pages (state w') = cpu_buffer_size_pages (state w)).
Proof.
  intros Hrun.
  destruct (RemoveConfig_removed_detail _ _ _ Hrun)
    as (disables & Hid & Hsome & Hfacts & Hcs & _ & Hcpu & Hon & Hat & Hcalls).
  destruct Hfacts as (Hsub & Hkeep & _ & Hdis).
  assert (Hexp : ∀ key, key ∈ expected_ftrace_events (delete id (configs w)) ↔
            ∃ id' config, id' ≠ id ∧ configs w !! id' = Some config
                          ∧ key ∈ event_names config).
  { intros key. rewrite elem_of_expected_ftrace_events. split.
    - intros (id' & config & [? ?]%lookup_delete_Some & ?). by exists id', config.
    - intros (id' & config & ? & ? & ?). exists id', config.
      by rewrite lookup_delete_Some. }
  assert (Hdis' : Forall (λ c, is_DisableEvent c = true) disables).
  { eapply Forall_impl; [exact Hdis|]. cbn. by intros c (? & ? & ? & -> & _). }
  eexists. split; [exact Hcalls|]. split; [|split; [|split; [|split]]].
  - intros group name r Hin. apply elem_of_app in Hin as [Hin|Hin].
    + eapply Forall_forall in Hdis; [|exact Hin].
      destruct Hdis as (key & event & r' & [= -> -> ->] & Hkey & Hevent).
      apply elem_of_difference_list in Hkey as [Hkey Hnot].
      exists key, event. repeat split; try done.
      intros id' config Hne Hlook Hin'. apply Hnot, Hexp. by exists id', config.
    + destruct (bool_decide (delete id (configs w) = ∅)),
        (atrace_on (state w) && PERFETTO_OS_ANDROID build); cbn in Hin;
        repeat (apply elem_of_cons in Hin as [Hin|Hin]; [discriminate|]);
        by apply elem_of_nil in Hin.
  - apply Forall_app. split.
    + eapply Forall_impl; [exact Hdis'|]. by intros [].
    + destruct (bool_decide (delete id (configs w) = ∅)),
        (atrace_on (state w) && PERFETTO_OS_ANDROID build);
        by repeat constructor.
  - done.
  - intros key id' config Hkey Hne Hlook Hin.
    destruct (decide (key ∈ difference (ftrace_events (state w))
                        (expected_ftrace_events (delete id (configs w)))))
      as [Hd|Hd]; [|by apply Hkeep].
    apply elem_of_difference_list in Hd as [_ Hnot]. destruct Hnot.
    apply Hexp. by exists id', config.
  - intros Hne. rewrite Hcs in Hne.
    rewrite (bool_decide_eq_false_2 _ Hne) in Hon, Hat, Hcalls.
    cbn [andb negb] in Hat. rewrite andb_true_r in Hat.
    rewrite (bool_decide_eq_false_2 _ Hne), app_nil_r. done.
Qed.

(** X9. In a reachable world, a [RemoveConfig] that returns true and
    leaves the table empty made, after its [DisableEvent] calls, exactly
    the calls [DisableTracing], [SetCpuBufferSizeInPages 0],
    [DisableAllEvents], [ClearTrace] in this order, followed by one run of
    the helper with "atrace", "--async_stop" exactly when atrace was
    started; [tracing_on] and [atrace_on] are false afterwards. *)
Theorem RemoveConfig_teardown_sequence id w w' :
  reachable w → RemoveConfig id w = Ok true w' → configs w' = ∅ →
  ∃ disables,
    calls w' =
      calls w ++ disables
      ++ [CallDisableTracing; CallSetCpuBufferSizeInPages 0;
          CallDisableAllEvents; CallClearTrace]
      ++ (if atrace_on (state w)
          then [CallExecv "/system/bin/atrace" ["atrace"; "--async_stop"] (Some 0%Z)]
          else [])
    ∧ Forall (λ c, is_DisableEvent c = true) disables
    ∧ tracing_on (state w') = false
    ∧ atrace_on (state w') = false.
Proof.
  intros Hreach Hrun Hempty.
  destruct (reachable_inv w Hreach) as [_ H2 _ _ _ _].
  destruct (RemoveConfig_removed_detail _ _ _ Hrun)
    as (disables & _ & _ & Hfacts & Hcs & _ & _ & Hon & Hat & Hcalls).
  rewrite Hcs in Hempty.
  rewrite (bool_decide_eq_true_2 _ Hempty) in Hon, Hat, Hcalls.
  assert (Hstop : atrace_on (state w) && PERFETTO_OS_ANDROID build
                  = atrace_on (state w)).
  { destruct (atrace_on (state w)); [|done]. by destruct H2 as [_ ->]. }
  rewrite Hstop in Hat, Hcalls.
  exists disables. split; [done|]. split; [|split; [done|]].
  - destruct Hfacts as (_ & _ & _ & Hdis).
    eapply Forall_impl; [exact Hdis|]. cbn. by intros c (? & ? & ? & -> & _).
  - rewrite Hat. by destruct (atrace_on (state w)).
Qed.

(** * More invariants of runs *)

Lemma step_cases op w r w' :
  step op w = Ok r w' →
  match op with
  | OpRequestConfig request =>
      ∃ id, r = RetId id ∧ RequestConfig request w = Ok id w'
  | OpRemoveConfig id => ∃ b, r = RetBool b ∧ RemoveConfig id w = Ok b w'
  end.
Proof.
  intros Hstep. destruct op as [request|id]; cbn [step] in Hstep;
    apply bind_Ok in Hstep as (a & w1 & Hop & Hret);
    injection Hret as <- <-; eauto.
Qed.

Lemma run_invariant (P : World K → Prop) :
  (∀ op w r w', muxer_inv w → P w → step op w = Ok r w' → P w') →
  ∀ ops w rets w', muxer_inv w → P w → run ops w = Ok rets w' → P w'.
Proof.
  intros Hstep. induction ops as [|op ops IH]; intros w rets w' Hinv HP Hrun.
  - by injection Hrun as <- <-.
  - apply run_cons_Ok in Hrun as (r & w1 & rs & Hop & Hrun & ->).
    eapply IH; [|eapply Hstep; [exact Hinv|exact HP|exact Hop]|exact Hrun].
    by eapply step_preserves_inv.
Qed.

Lemma ComputeCpuBufferSizeInPages_pos page_size requested :
  1 ≤ ComputeCpuBufferSizeInPages page_size requested.
Proof.
  unfold ComputeCpuBufferSizeInPages.
  match goal with |- context [?a / ?b =? 0] => generalize (a / b) end.
  intros q. destruct (N.eqb_spec q 0); lia.
Qed.

(** X10. While the table is non-empty, [cpu_buffer_size_pages] mirrors
    the control surface: it is the value of the last
    [SetCpuBufferSizeInPages] call, it was computed by
    [ComputeCpuBufferSizeInPages] at the cold start, and it is at least
    one page. *)
Theorem buffer_pages_mirror_while_active w :
  reachable w → configs w ≠ ∅ →
  last_buffer_write (calls w)
  = Some (CallSetCpuBufferSizeInPages (cpu_buffer_size_pages (state w)))
  ∧ (∃ kb, cpu_buffer_size_pages (state w)
           = ComputeCpuBufferSizeInPages (kPageSize build) kb)
  ∧ 1 ≤ cpu_buffer_size_pages (state w).
Proof.
  intros (k & ops & rets & Hrun) Hne.
  assert (HP : last_buffer_write (calls w)
               = Some (CallSetCpuBufferSizeInPages (cpu_buffer_size_pages (state w)))
               ∧ ∃ kb, cpu_buffer_size_pages (state w)
                       = ComputeCpuBufferSizeInPages (kPageSize build) kb).
  { revert Hne.
    eapply (run_invariant (λ w, configs w ≠ ∅ →
              last_buffer_write (calls w)
              = Some (CallSetCpuBufferSizeInPages (cpu_buffer_size_pages (state w)))
              ∧ ∃ kb, cpu_buffer_size_pages (state w)
                      = ComputeCpuBufferSizeInPages (kPageSize build) kb));
      [|apply (initial_world_inv k)|by intros []|exact Hrun].
    clear. intros op w r w' _ HP Hstep Hne. apply step_cases in Hstep.
    destruct op as [request|id].
    - destruct Hstep as (id & _ & Hreq).
      destruct (decide (bool_decide (configs w = ∅)
                        = (IsTracingEnabled ftrace_ (host w)).1)) as [Hcase|Hcase].
      { destruct (RequestConfig_rejected_detail _ _ _ _ Hreq Hcase) as [_ ->].
        cbn [muxer calls] in *. rewrite last_buffer_write_app by (by repeat constructor).
        by apply HP. }
      destruct (RequestConfig_accepted_detail _ _ _ _ Hreq Hcase)
        as (accepted & setup & enables & Hfacts & _ & _ & Hcpu & _ & _ & _
            & Hcalls & Hsetup).
      destruct Hfacts as (_ & _ & _ & Henables & _).
      assert (Hen : Forall (λ c, is_SetCpuBufferSizeInPages c = false) enables).
      { eapply Forall_impl; [exact Henables|]. cbn. by intros c (? & ? & ? & -> & _). }
      rewrite Hcalls, Hcpu. case_bool_decide as Hempty.
      + destruct Hsetup as (cur & av & ->).
        edestruct cold_setup_calls as [_ [before ->]].
        split; [|by eexists].
        rewrite <- !(assoc_L (++)), (assoc_L (++) (calls w)). cbn [app].
        apply last_buffer_write_snoc. apply Forall_app. split; [done|].
        by repeat constructor.
      + subst setup. rewrite app_nil_r, (assoc_L (++)), !last_buffer_write_app;
          [by apply HP|by repeat constructor|done].
    - destruct Hstep as (b & _ & Hrem). destruct b.
      + destruct (RemoveConfig_removed_detail _ _ _ Hrem)
          as (disables & _ & [config Hconfig] & Hfacts & Hcs & _ & Hcpu & _ & _ & Hcalls).
        rewrite Hcs in Hne. rewrite (bool_decide_eq_false_2 _ Hne) in Hcalls.
        destruct Hfacts as (_ & _ & _ & Hdis).
        rewrite Hcalls, Hcpu, app_nil_r, last_buffer_write_app.
        * apply HP. intros Habs. by rewrite Habs in Hconfig.
        * eapply Forall_impl; [exact Hdis|]. cbn. by intros c (? & ? & ? & -> & _).
      + apply RemoveConfig_table in Hrem as [_ [(_ & -> & _)|(? & _)]]; [|done].
        by apply HP. }
  destruct HP as [Hlast [kb Hkb]]. split; [done|]. split; [by exists kb|].
  rewrite Hkb. apply ComputeCpuBufferSizeInPages_pos.
Qed.

(** X11. In a build that is not for Android, no sequence of operations
    ever runs the atrace helper, and [atrace_on] stays false, whatever
    the requests ask for. *)
Theorem no_atrace_off_android w :
  reachable w → PERFETTO_OS_ANDROID build = false →
  atrace_on (state w) = false
  ∧ Forall (λ c, is_Execv c = false) (calls w).
Proof.
  intros Hreach Hoff. split.
  { destruct (reachable_inv w Hreach) as [_ H2 _ _ _ _].
    destruct (atrace_on (state w)); [|done]. destruct H2 as [_ ?]; congruence. }
  destruct Hreach as (k & ops & rets & Hrun).
  eapply (run_invariant (λ w, Forall (λ c, is_Execv c = false) (calls w)));
    [|apply (initial_world_inv k)|by constructor|exact Hrun].
  clear -Hoff. intros op w r w' _ HP Hstep. apply step_cases in Hstep.
  destruct op as [request|id].
  - destruct Hstep as (id & _ & Hreq).
    destruct (decide (bool_decide (configs w = ∅)
                      = (IsTracingEnabled ftrace_ (host w)).1)) as [Hcase|Hcase].
    { destruct (RequestConfig_rejected_detail _ _ _ _ Hreq Hcase) as [_ ->].
      cbn [calls]. apply Forall_app. split; [done|by repeat constructor]. }
    destruct (RequestConfig_accepted_detail _ _ _ _ Hreq Hcase)
      as (accepted & setup & enables & Hfacts & _ & _ & _ & _ & _ & _
          & Hcalls & Hsetup).
    destruct Hfacts as (_ & _ & _ & Henables & _).
    rewrite Hcalls. rewrite Hoff, andb_false_r in Hsetup.
    apply Forall_app. split; [done|]. apply Forall_app. split; [|apply Forall_app; split].
    + destruct (bool_decide (configs w = ∅)).
      * destruct Hsetup as (cur & av & ->).
        eapply Forall_impl;
          [apply (cold_setup_calls false (EnableAtrace_args request))|].
        cbn. intros c (_ & _ & _ & _ & _ & _ & Hc). by apply Hc.
      * subst setup. by repeat constructor.
    + eapply Forall_impl; [exact Henables|]. cbn. by intros c (? & ? & ? & -> & _).
    + destruct (bool_decide (configs w = ∅)); by repeat constructor.
  - destruct Hstep as (b & _ & Hrem). destruct b.
    + destruct (RemoveConfig_removed_detail _ _ _ Hrem)
        as (disables & _ & _ & Hfacts & _ & _ & _ & _ & _ & Hcalls).
      destruct Hfacts as (_ & _ & _ & Hdis).
      rewrite Hcalls, Hoff, andb_false_r.
      apply Forall_app. split; [done|]. apply Forall_app. split.
      * eapply Forall_impl; [exact Hdis|]. cbn. by intros c (? & ? & ? & -> & _).
      * destruct (bool_decide _); by repeat constructor.
    + apply RemoveConfig_table in Hrem as [_ [(_ & -> & _)|(? & _)]]; done.
Qed.

(** * Ownership of the enabled events *)

Lemma step_keys_bounded op w r w' :
  step op w = Ok r w' →
  last_id_ (muxer w) + 1 < 2 ^ FtraceConfigId_bits build →
  (∀ id, id ∈ dom (configs w) → id ≤ last_id_ (muxer w)) →
  (∀ id, id ∈ dom (configs w') → id ≤ last_id_ (muxer w'))
  ∧ last_id_ (muxer w') ≤ last_id_ (muxer w) + 1.
Proof.
  intros Hstep Hsmall Hkeys. apply step_last_id in Hstep; [|lia].
  destruct op as [request|id'], r as [id|b]; try done.
  - destruct Hstep as [[-> ->]|(-> & Hlast & actual & Hcs)]; [split; [done|lia]|].
    rewrite Hlast, Hcs. split; [|lia]. intros id Hid.
    apply dom_emplace in Hid. apply elem_of_union in Hid as [Hid|Hid].
    + apply elem_of_singleton in Hid. lia.
    + apply Hkeys in Hid. lia.
  - destruct Hstep as [Hlast [(-> & -> & _)|(-> & Hcs)]]; [split; [done|lia]|].
    rewrite Hlast, Hcs. split; [|lia]. intros id Hid.
    rewrite dom_delete_L in Hid. apply Hkeys. set_solver.
Qed.

Lemma step_owned op w r w' :
  muxer_inv w →
  step op w = Ok r w' →
  last_id_ (muxer w) + 1 < 2 ^ FtraceConfigId_bits build →
  (∀ id, id ∈ dom (configs w) → id ≤ last_id_ (muxer w)) →
  (∀ name, name ∈ ftrace_events (state w) →
     name ∈ expected_ftrace_events (configs w) ∨ disable_refused (calls w) name) →
  ∀ name, name ∈ ftrace_events (state w') →
    name ∈ expected_ftrace_events (configs w') ∨ disable_refused (calls w') name.
Proof.
  intros Hinv Hstep Hsmall Hkeys Hown name Hname. apply step_cases in Hstep.
  destruct op as [request|id].
  - destruct Hstep as (id & _ & Hreq).
    destruct (decide (bool_decide (configs w = ∅)
                      = (IsTracingEnabled ftrace_ (host w)).1)) as [Hcase|Hcase].
    { destruct (RequestConfig_rejected_detail _ _ _ _ Hreq Hcase) as [_ ->].
      cbn [muxer calls] in *. destruct (Hown name Hname) as [?|?]; [by left|right].
      apply disable_refused_app. by left. }
    destruct (RequestConfig_accepted_detail _ _ _ _ Hreq Hcase)
      as (accepted & setup & enables & Hfacts & _ & _ & _ & Hidv & _ & Hcs
          & Hcalls & _).
    destruct Hfacts as (_ & _ & HE & _ & _).
    rewrite N.mod_small in Hidv by lia.
    assert (Hfresh : configs w !! id = None).
    { apply not_elem_of_dom. intros Hin. apply Hkeys in Hin. lia. }
    rewrite Hcs. unfold emplace. rewrite Hfresh.
    apply HE in Hname as [Hold|[Hacc _]].
    + destruct (Hown name Hold) as [Hexp|Href].
      * left. apply elem_of_expected_ftrace_events in Hexp
          as (id' & config & Hlook & Hin).
        apply elem_of_expected_ftrace_events. exists id', config. split; [|done].
        rewrite lookup_insert_ne; [done|]. intros ->. congruence.
      * right. rewrite Hcalls. apply disable_refused_app. by left.
    + left. apply elem_of_expected_ftrace_events.
      exists id, (mkFtraceConfig accepted 0 [] []).
      split; [apply lookup_insert_eq|done].
  - destruct Hstep as (b & _ & Hrem). destruct b.
    + destruct (RemoveConfig_removed_detail _ _ _ Hrem)
        as (disables & _ & _ & Hfacts & Hcs & _ & _ & _ & _ & Hcalls).
      destruct Hfacts as (Hsub & _ & Href & _).
      rewrite Hcs.
      destruct (decide (name ∈ expected_ftrace_events (delete id (configs w))))
        as [?|Hnot]; [by left|right].
      assert (Hold : name ∈ ftrace_events (state w)) by (by apply Hsub).
      destruct (Href name) as [Hnone|Hr]; [by apply elem_of_difference_list|done| |].
      * pose proof (inv_enabled _ Hinv name Hold) as Hen.
        unfold enabled_by_muxer in Hen. by rewrite Hnone in Hen.
      * rewrite Hcalls. apply disable_refused_app. right.
        apply disable_refused_app. by left.
    + apply RemoveConfig_table in Hrem as [_ [(_ & -> & _)|(? & _)]]; [|done].
      by apply Hown.
Qed.

Lemma run_owned ops : ∀ w rets w',
  muxer_inv w →
  run ops w = Ok rets w' →
  last_id_ (muxer w) + N.of_nat (length ops) < 2 ^ FtraceConfigId_bits build →
  (∀ id, id ∈ dom (configs w) → id ≤ last_id_ (muxer w)) →
  (∀ name, name ∈ ftrace_events (state w) →
     name ∈ expected_ftrace_events (configs w) ∨ disable_refused (calls w) name) →
  ∀ name, name ∈ ftrace_events (state w') →
    name ∈ expected_ftrace_events (configs w') ∨ disable_refused (calls w') name.
Proof.
  induction ops as [|op ops IH]; intros w rets w' Hinv Hrun Hsmall Hkeys Hown.
  - by injection Hrun as <- <-.
  - apply run_cons_Ok in Hrun as (r & w1 & rs & Hstep & Hrun & ->).
    cbn [length] in Hsmall.
    destruct (step_keys_bounded _ _ _ _ Hstep) as [Hkeys1 Hle1]; [lia|done|].
    apply (IH w1 rs w'); [by eapply step_preserves_inv|done|lia|done|].
    apply (step_owned op w r w1); [done|done|lia|done|done].
Qed.

(** X12. Nothing is left enabled without an owner: after a sequence of
    operations on a fresh muxer that runs to its end without the id
    counter wrapping, every member of [ftrace_events] is listed by a
    config still stored in the table, or the kernel refused the
    [DisableEvent] call the muxer made for it. *)
Theorem ftrace_events_have_an_owner k ops rets w :
  run ops (initial_world k) = Ok rets w →
  last_id_init build + N.of_nat (length ops) < 2 ^ FtraceConfigId_bits build →
  ∀ name, name ∈ ftrace_events (state w) →
    (∃ id config, configs w !! id = Some config ∧ name ∈ event_names config)
    ∨ disable_refused (calls w) name.
Proof.
  intros Hrun Hsmall name Hname.
  rewrite <- elem_of_expected_ftrace_events.
  revert name Hname.
  apply (run_owned ops (initial_world k) rets w);
    [apply initial_world_inv|done|done| |].
  - cbn. set_solver.
  - cbn. set_solver.
Qed.

(** * The buffer size on the control surface *)

Lemma ComputeCpuBufferSizeInPages_ceiling page_size requested :
  1024 ≤ page_size → page_size / 1024 ≤ kMaxPerCpuBufferSizeKb →
  ComputeCpuBufferSizeInPages page_size requested * (page_size / 1024)
  ≤ kMaxPerCpuBufferSizeKb.
Proof.
  intros Hlo Hhi.
  unfold ComputeCpuBufferSizeInPages, kDefaultPerCpuBufferSizeKb,
    kMaxPerCpuBufferSizeKb in *.
  change (2 * 1024) with 2048 in *.
  assert (Hpk : 1 ≤ page_size / 1024).
  { change 1 with (1024 / 1024). by apply N.Div0.div_le_mono. }
  revert Hhi Hpk. generalize (page_size / 1024). intros pk Hhi Hpk.
  match goal with |- context [?a / pk =? 0] => set (x := a) end.
  assert (Hx : x ≤ 2048).
  { subst x. destruct (N.eqb_spec requested 0);
      [done|destruct (N.ltb_spec 2048 requested); [done|lia]]. }
  clearbody x. pose proof (N.Div0.mul_div_le x pk).
  destruct (N.eqb_spec (x / pk) 0); lia.
Qed.

(** X13. With pages of at least 1 KB and at most the 2048 KB ceiling,
    every [SetCpuBufferSizeInPages] call the muxer ever makes writes
    either 0 (the teardown) or at least one page and at most 2048 KB
    worth of pages per CPU, and [cpu_buffer_size_pages] stays within the
    same ceiling. *)
Theorem buffer_writes_within_ceiling w :
  reachable w →
  1024 ≤ kPageSize build → kPageSize build / 1024 ≤ kMaxPerCpuBufferSizeKb →
  Forall (λ c, ∀ pages, c = CallSetCpuBufferSizeInPages pages →
            pages = 0
            ∨ (1 ≤ pages
               ∧ pages * (kPageSize build / 1024) ≤ kMaxPerCpuBufferSizeKb))
         (calls w)
  ∧ cpu_buffer_size_pages (state w) * (kPageSize build / 1024)
    ≤ kMaxPerCpuBufferSizeKb.
Proof.
  intros (k & ops & rets & Hrun) Hlo Hhi.
  eapply (run_invariant (λ w,
            Forall (λ c, ∀ pages, c = CallSetCpuBufferSizeInPages pages →
                      pages = 0
                      ∨ (1 ≤ pages
                         ∧ pages * (kPageSize build / 1024)
                           ≤ kMaxPerCpuBufferSizeKb))
                   (calls w)
            ∧ cpu_buffer_size_pages (state w) * (kPageSize build / 1024)
              ≤ kMaxPerCpuBufferSizeKb));
    [|apply (initial_world_inv k)| |exact Hrun].
  2:{ split; [by constructor|]. cbn. unfold kMaxPerCpuBufferSizeKb. lia. }
  clear -Hlo Hhi. intros op w r w' _ [Hlog Hcpu] Hstep. apply step_cases in Hstep.
  destruct op as [request|id].
  - destruct Hstep as (id & _ & Hreq).
    destruct (decide (bool_decide (configs w = ∅)
                      = (IsTracingEnabled ftrace_ (host w)).1)) as [Hcase|Hcase].
    { destruct (RequestConfig_rejected_detail _ _ _ _ Hreq Hcase) as [_ ->].
      cbn [muxer calls]. split; [|done].
      apply Forall_app. split; [done|].
      by repeat first [apply Forall_nil_2 | apply Forall_cons_2]. }
    destruct (RequestConfig_accepted_detail _ _ _ _ Hreq Hcase)
      as (accepted & setup & enables & Hfacts & _ & _ & Hpages & _ & _ & _
          & Hcalls & Hsetup).
    destruct Hfacts as (_ & _ & _ & Henables & _).
    pose proof (ComputeCpuBufferSizeInPages_ceiling (kPageSize build)
                  (buffer_size_kb request) Hlo Hhi) as Hceil.
    pose proof (ComputeCpuBufferSizeInPages_pos (kPageSize build)
                  (buffer_size_kb request)) as Hpos.
    rewrite Hcalls, Hpages. split.
    + apply Forall_app. split; [done|]. apply Forall_app. split.
      * destruct (bool_decide (configs w = ∅)).
        -- destruct Hsetup as (cur & av & ->).
           destruct (RequiresAtrace request && PERFETTO_OS_ANDROID build),
             (preferred_clock av) as [t|]; try destruct (bool_decide (t = cur));
             cbn [app]; repeat first [apply Forall_nil_2 | apply Forall_cons_2];
             intros pages [= <-]; by right.
        -- subst setup. by repeat first [apply Forall_nil_2 | apply Forall_cons_2].
      * apply Forall_app. split.
        -- eapply Forall_impl; [exact Henables|]. cbn.
           by intros c (? & ? & ? & -> & _) pages.
        -- destruct (bool_decide (configs w = ∅));
             by repeat first [apply Forall_nil_2 | apply Forall_cons_2].
    + by destruct (bool_decide (configs w = ∅)).
  - destruct Hstep as (b & _ & Hrem). destruct b.
    + destruct (RemoveConfig_removed_detail _ _ _ Hrem)
        as (disables & _ & _ & Hfacts & _ & _ & Hpages & _ & _ & Hcalls).
      destruct Hfacts as (_ & _ & _ & Hdis).
      rewrite Hcalls, Hpages. split; [|done].
      apply Forall_app. split; [done|]. apply Forall_app. split.
      * eapply Forall_impl; [exact Hdis|]. cbn.
        by intros c (? & ? & ? & -> & _) pages.
      * destruct (bool_decide (delete id (configs w) = ∅)),
          (atrace_on (state w) && PERFETTO_OS_ANDROID build);
          cbn [app]; repeat first [apply Forall_nil_2 | apply Forall_cons_2];
          intros pages [= <-]; by left.
    + apply RemoveConfig_table in Hrem as [_ [(_ & -> & _)|(? & _)]]; done.
Qed.

(** * Aborts *)

(** A cold start whose atrace helper fails aborts on the [PERFETTO_CHECK]
    of [RunAtrace] or of [EnableAtrace]. *)
Lemma RequestConfig_cold_atrace_failure request w :
  configs w = ∅ →
  (IsTracingEnabled ftrace_ (host w)).1 = false →
  tracing_on (state w) = false → atrace_on (state w) = false →
  RequiresAtrace request = true → PERFETTO_OS_ANDROID build = true →
  let a := fork_execv_waitpid process_ "/system/bin/atrace"
             (EnableAtrace_args request) (IsTracingEnabled ftrace_ (host w)).2 in
  a.1 ≠ Some 0%Z →
  RequestConfig request w =
  Crash (match a.1 with
         | None => CheckFailed "pid >= 0"
         | Some _ => CheckFailed "RunAtrace(args)"
         end).
Proof.
  intros Hempty Hen Hon Hat Hreq Handroid a Hfail.
  unfold RequestConfig.
  unfold mbind at 1, M_bind at 1, call_host at 1.
  cbn [host muxer calls fst snd]. rewrite Hen.
  unfold mbind at 1, M_bind at 1, get_muxer at 1. cbn [host muxer calls].
  rewrite bool_decide_eq_true_2 by done.
  unfold mbind at 1, M_bind at 1, PERFETTO_DCHECK at 1.
  rewrite negb_involutive, Hon, andb_false_r.
  unfold mbind at 1, M_bind at 1. unfold EnableAtraceOnAndroid.
  rewrite Hreq, Handroid. cbn [when]. rewrite EnableAtrace_unfold. cbv zeta.
  cbn [host muxer calls current_state_]. rewrite Hat, andb_false_r. fold a.
  destruct a.1 as [status|]; [|done].
  rewrite bool_decide_eq_false_2; [done|]. intros ->. by apply Hfail.
Qed.

(** X14. In a reachable world the only way [RequestConfig] aborts the
    process is a failing atrace start: it aborts exactly on a cold start,
    with tracing off, of a request that requires atrace, in an Android
    build, when the helper could not be forked or exited with a non-zero
    status; the abort is then a [PERFETTO_CHECK], never one of the
    [PERFETTO_DCHECK]s. *)
Theorem RequestConfig_aborts_iff request w :
  reachable w →
  let a := fork_execv_waitpid process_ "/system/bin/atrace"
             (EnableAtrace_args request) (IsTracingEnabled ftrace_ (host w)).2 in
  ((∃ f, RequestConfig request w = Crash f) ↔
   configs w = ∅ ∧ (IsTracingEnabled ftrace_ (host w)).1 = false
   ∧ RequiresAtrace request = true ∧ PERFETTO_OS_ANDROID build = true
   ∧ a.1 ≠ Some 0%Z)
  ∧ (∀ f, RequestConfig request w = Crash f →
       f = match a.1 with
           | None => CheckFailed "pid >= 0"
           | Some _ => CheckFailed "RunAtrace(args)"
           end).
Proof.
  intros Hreach a.
  destruct (reachable_inv w Hreach) as [H1 H2 _ _ _ _].
  assert (Hcases :
    (configs w = ∅ ∧ (IsTracingEnabled ftrace_ (host w)).1 = false
     ∧ RequiresAtrace request = true ∧ PERFETTO_OS_ANDROID build = true
     ∧ a.1 ≠ Some 0%Z)
    ∨ ∃ id w', RequestConfig request w = Ok id w').
  { destruct (decide (configs w = ∅)) as [Hempty|Hne].
    - assert (Hon : tracing_on (state w) = false).
      { destruct (tracing_on (state w)); [|done]. by destruct H1 as [[] _]. }
      assert (Hat : atrace_on (state w) = false).
      { destruct (atrace_on (state w)); [|done]. by destruct H2 as [[] _]. }
      destruct (IsTracingEnabled ftrace_ (host w)).1 eqn:Hen.
      + right. eexists _, _. apply RequestConfig_reject_cold; [done..|].
        by rewrite Hon, andb_false_r.
      + pose proof (RequestConfig_cold request w Hempty Hen) as Hcold.
        cbv zeta in Hcold. fold a in Hcold.
        rewrite Hon, Hat, !andb_false_r in Hcold. cbn [orb] in Hcold.
        destruct (RequiresAtrace request) eqn:Hreq; cbn [andb] in Hcold.
        2:{ right. destruct Hcold as (? & ? & ? & ? & Heq & _). by eexists _, _. }
        destruct (PERFETTO_OS_ANDROID build) eqn:Handroid; cbn [andb] in Hcold.
        2:{ right. destruct Hcold as (? & ? & ? & ? & Heq & _). by eexists _, _. }
        destruct (decide (a.1 = Some 0%Z)) as [Hok|Hfail].
        * right. rewrite (bool_decide_eq_true_2 _ Hok) in Hcold.
          destruct Hcold as (? & ? & ? & ? & Heq & _). by eexists _, _.
        * by left.
    - right. destruct (IsTracingEnabled ftrace_ (host w)).1 eqn:Hen.
      + destruct (RequestConfig_warm request w Hne Hen)
          as (? & ? & ? & ? & Heq & _). by eexists _, _.
      + eexists _, _. by apply RequestConfig_reject_warm. }
  assert (Hcrash : configs w = ∅ ∧ (IsTracingEnabled ftrace_ (host w)).1 = false
     ∧ RequiresAtrace request = true ∧ PERFETTO_OS_ANDROID build = true
     ∧ a.1 ≠ Some 0%Z →
     RequestConfig request w =
     Crash (match a.1 with
            | None => CheckFailed "pid >= 0"
            | Some _ => CheckFailed "RunAtrace(args)"
            end)).
  { intros (Hempty & Hen & Hreq & Handroid & Hfail).
    apply RequestConfig_cold_atrace_failure; try done.
    - destruct (tracing_on (state w)); [|done]. by destruct H1 as [[] _].
    - destruct (atrace_on (state w)); [|done]. by destruct H2 as [[] _]. }
  split; [split|].
  - intros [f Hf]. destruct Hcases as [?|(id & w' & Hok)]; [done|congruence].
  - intros Hcond. eexists. by apply Hcrash.
  - intros f Hf. destruct Hcases as [Hcond|(id & w' & Hok)]; [|congruence].
    rewrite (Hcrash Hcond) in Hf. by injection Hf as <-.
Qed.

(** * The end of the id space *)

(** X15. When the id counter is at the last value of [FtraceConfigId], an
    accepted [RequestConfig] wraps it: the call returns 0, the value that
    reports a rejection, although the session is up ([tracing_on] true,
    table non-empty) and a config sits under id 0, where [RemoveConfig]
    refuses to look. *)
Theorem RequestConfig_at_last_id request w id w' :
  reachable w →
  last_id_ (muxer w) + 1 = 2 ^ FtraceConfigId_bits build →
  RequestConfig request w = Ok id w' →
  id = 0
  ∧ (bool_decide (configs w = ∅) ≠ (IsTracingEnabled ftrace_ (host w)).1 →
     tracing_on (state w') = true
     ∧ last_id_ (muxer w') = 0
     ∧ is_Some (configs w' !! 0)
     ∧ RemoveConfig 0 w' = Ok false w').
Proof.
  intros Hreach Hlast Hreq.
  destruct (reachable_inv w Hreach) as [H1 _ _ _ _ _].
  assert (Hwrap : (last_id_ (muxer w) + 1) mod 2 ^ FtraceConfigId_bits build = 0).
  { rewrite Hlast. apply N.Div0.mod_same. }
  pose proof (RequestConfig_table _ _ _ _ Hreq) as Htable. cbv zeta in Htable.
  rewrite Hwrap in Htable.
  split; [by destruct Htable as [(_ & ? & _)|(_ & ? & _)]|].
  intros Hcase.
  destruct (RequestConfig_accepted_detail _ _ _ _ Hreq Hcase)
    as (accepted & setup & enables & _ & Hon & _ & _ & Hid & Hlast' & Hcs & _).
  rewrite Hwrap in Hid. subst id. split; [|split; [done|split]].
  - rewrite Hon. case_bool_decide as Hempty; [done|]. cbn [orb]. by apply H1.
  - rewrite Hcs. unfold emplace. destruct (configs w !! 0) eqn:Hold.
    + by rewrite Hold.
    + by rewrite lookup_insert_eq.
  - apply RemoveConfig_unknown. by left.
Qed.

(** * Sorted lists of names *)

#[local] Instance string_le_trans : Transitive string_le.
Proof.
  intros a b c. unfold string_le, String.leb. intros Hab Hbc.
  destruct (String.compare a b) eqn:Eab; [| |done].
  - by apply OrderedTypeEx.String_as_OT.cmp_eq in Eab as ->.
  - destruct (String.compare b c) eqn:Ebc; [| |done].
    + apply OrderedTypeEx.String_as_OT.cmp_eq in Ebc as <-. by rewrite Eab.
    + apply OrderedTypeEx.String_as_OT.cmp_lt in Eab, Ebc.
      pose proof (OrderedTypeEx.String_as_OT.lt_trans _ _ _ Eab Ebc) as Hac.
      apply OrderedTypeEx.String_as_OT.cmp_lt in Hac.
      unfold OrderedTypeEx.String_as_OT.cmp in Hac. by rewrite Hac.
Qed.

Lemma StronglySorted_sublist {A} (R : relation A) (l' l : list A) :
  l' `sublist_of` l → StronglySorted R l → StronglySorted R l'.
Proof.
  induction 1 as [|x l1 l2 Hsub IH|x l1 l2 Hsub IH]; intros Hs; [done| |].
  - apply StronglySorted_inv in Hs as [Hs Hall]. constructor; [by apply IH|].
    apply Forall_forall. intros y Hy.
    eapply Forall_forall in Hall; [exact Hall|].
    eapply elem_of_sublist; [exact Hy|exact Hsub].
  - apply StronglySorted_inv in Hs as [Hs _]. by apply IH.
Qed.

Lemma sorted_elements_StronglySorted (s : gset string) :
  StronglySorted string_le (sorted_elements s).
Proof. apply Sorted_StronglySorted; [apply _|apply sorted_elements_Sorted]. Qed.

(** X16. Every config in the table of a reachable world is a config the
    muxer built itself: its buffer size is 0 and its atrace lists are
    empty, whatever the request said, and its event names are in the
    catalog, in increasing order and without repetition. *)
Theorem stored_configs_are_built_by_the_muxer w id config :
  reachable w → configs w !! id = Some config →
  buffer_size_kb config = 0
  ∧ atrace_categories config = [] ∧ atrace_apps config = []
  ∧ StronglySorted string_le (event_names config)
  ∧ NoDup (event_names config)
  ∧ ∀ name, name ∈ event_names config → is_Some (GetEventByName table_ name).
Proof.
  intros (k & ops & rets & Hrun). revert id config.
  eapply (run_invariant (λ w, ∀ id config, configs w !! id = Some config →
            buffer_size_kb config = 0
            ∧ atrace_categories config = [] ∧ atrace_apps config = []
            ∧ StronglySorted string_le (event_names config)
            ∧ NoDup (event_names config)
            ∧ ∀ name, name ∈ event_names config →
                is_Some (GetEventByName table_ name)));
    [|apply (initial_world_inv k)| |exact Hrun].
  2:{ intros id config Hlook. cbn in Hlook. by rewrite lookup_empty in Hlook. }
  clear. intros op w r w' _ HP Hstep id0 config Hlook. apply step_cases in Hstep.
  destruct op as [request|id].
  - destruct Hstep as (id & _ & Hreq).
    destruct (decide (bool_decide (configs w = ∅)
                      = (IsTracingEnabled ftrace_ (host w)).1)) as [Hcase|Hcase].
    { destruct (RequestConfig_rejected_detail _ _ _ _ Hreq Hcase) as [_ ->].
      by apply (HP id0). }
    destruct (RequestConfig_accepted_detail _ _ _ _ Hreq Hcase)
      as (accepted & setup & enables & Hfacts & _ & _ & _ & _ & _ & Hcs & _).
    destruct Hfacts as (Hsub & Hcat & _).
    rewrite Hcs in Hlook.
    apply lookup_emplace in Hlook as [Hold|[_ ->]]; [by apply (HP id0)|].
    cbn [event_names buffer_size_kb atrace_categories atrace_apps].
    split; [done|]. split; [done|]. split; [done|]. split; [|split; [|done]].
    + eapply StronglySorted_sublist; [exact Hsub|].
      apply sorted_elements_StronglySorted.
    + eapply sublist_NoDup; [apply sorted_elements_Sorted|exact Hsub].
  - destruct Hstep as (b & _ & Hrem).
    apply RemoveConfig_table in Hrem as [_ [(_ & -> & _)|(_ & _ & _ & Hcs)]];
      [by apply (HP id0)|].
    rewrite Hcs in Hlook. apply lookup_delete_Some in Hlook as [_ Hlook].
    by apply (HP id0).
Qed.

(** * Runs that cannot abort *)

Lemma RequestConfig_returns request w :
  muxer_inv w →
  PERFETTO_OS_ANDROID build = false ∨ RequiresAtrace request = false
  ∨ (∀ args k, (fork_execv_waitpid process_ "/system/bin/atrace" args k).1
               = Some 0%Z) →
  ∃ id w', RequestConfig request w = Ok id w'.
Proof.
  intros [H1 H2 _ _ _ _] Hcalm.
  destruct (decide (configs w = ∅)) as [Hempty|Hne].
  - assert (Hon : tracing_on (state w) = false).
    { destruct (tracing_on (state w)); [|done]. by destruct H1 as [[] _]. }
    assert (Hat : atrace_on (state w) = false).
    { destruct (atrace_on (state w)); [|done]. by destruct H2 as [[] _]. }
    destruct (IsTracingEnabled ftrace_ (host w)).1 eqn:Hen.
    + eexists _, _. apply RequestConfig_reject_cold; [done..|].
      by rewrite Hon, andb_false_r.
    + pose proof (RequestConfig_cold request w Hempty Hen) as Hcold.
      cbv zeta in Hcold.
      rewrite Hon, Hat, !andb_false_r in Hcold. cbn [orb] in Hcold.
      destruct Hcalm as [Ha|[Hr|Hhelper]].
      * rewrite Ha, andb_false_r in Hcold. cbn [andb] in Hcold.
        destruct Hcold as (? & ? & ? & ? & Heq & _). by eexists _, _.
      * rewrite Hr in Hcold. cbn [andb] in Hcold.
        destruct Hcold as (? & ? & ? & ? & Heq & _). by eexists _, _.
      * rewrite Hhelper, bool_decide_eq_true_2 in Hcold by done.
        cbn [negb] in Hcold. rewrite andb_false_r in Hcold.
        destruct Hcold as (? & ? & ? & ? & Heq & _). by eexists _, _.
  - destruct (IsTracingEnabled ftrace_ (host w)).1 eqn:Hen.
    + destruct (RequestConfig_warm request w Hne Hen)
        as (? & ? & ? & ? & Heq & _). by eexists _, _.
    + eexists _, _. by apply RequestConfig_reject_warm.
Qed.

Lemma RemoveConfig_returns id w :
  muxer_inv w →
  atrace_on (state w) = false
  ∨ (PERFETTO_DCHECK_IS_ON build = false
     ∧ ∀ args k, (fork_execv_waitpid process_ "/system/bin/atrace" args k).1
                 = Some 0%Z) →
  ∃ b w', RemoveConfig id w = Ok b w'.
Proof.
  intros Hinv Hcalm.
  destruct (decide (id = 0)) as [->|Hid].
  { exists false, w. apply RemoveConfig_unknown. by left. }
  destruct (configs w !! id) as [config|] eqn:Hconfig.
  2:{ exists false, w. apply RemoveConfig_unknown. by right. }
  destruct (RemoveConfig_known_detail id w config Hid Hconfig)
    as (E' & k' & new & _ & Heq).
  cbv zeta in Heq. rewrite Heq. clear Heq.
  assert (Hon : tracing_on (state w) = true).
  { apply (inv_tracing _ Hinv). intros Habs. by rewrite Habs in Hconfig. }
  rewrite Hon, andb_false_r.
  case_bool_decide; [|by eexists _, _].
  destruct Hcalm as [Hat|[Hd Hhelper]].
  - rewrite Hat. cbn [andb]. by eexists _, _.
  - rewrite Hd.
    destruct (atrace_on (state w) && PERFETTO_OS_ANDROID build);
      [|by eexists _, _].
    rewrite Hhelper, bool_decide_eq_true_2 by done. by eexists _, _.
Qed.

Lemma run_returns_from ops : ∀ w,
  muxer_inv w →
  (PERFETTO_DCHECK_IS_ON build = false
   ∧ ∀ args k, (fork_execv_waitpid process_ "/system/bin/atrace" args k).1
               = Some 0%Z)
  ∨ (atrace_on (state w) = false
     ∧ (PERFETTO_OS_ANDROID build = false
        ∨ Forall (λ op, ∀ request, op = OpRequestConfig request →
                          RequiresAtrace request = false) ops)) →
  ∃ rets w', run ops w = Ok rets w' ∧ length rets = length ops.
Proof.
  induction ops as [|op ops IH]; intros w Hinv Hcalm.
  - by exists [], w.
  - assert (Hstep : ∃ r w1, step op w = Ok r w1
              ∧ (atrace_on (state w) = false →
                 PERFETTO_OS_ANDROID build = false
                 ∨ (∀ request, op = OpRequestConfig request →
                      RequiresAtrace request = false) →
                 atrace_on (state w1) = false)).
    { destruct op as [request|id]; cbn [step].
      - destruct (RequestConfig_returns request w Hinv) as (id & w1 & Hreq).
        { destruct Hcalm as [[_ Hhelper]|[_ [Ha|Hall]]];
            [by right; right|by left|].
          right. left. apply Forall_cons in Hall as [Hop _]. by apply Hop. }
        exists (RetId id), w1. split.
        { unfold mbind, M_bind. by rewrite Hreq. }
        intros Hat Hquiet.
        destruct (decide (bool_decide (configs w = ∅)
                          = (IsTracingEnabled ftrace_ (host w)).1))
          as [Hcase|Hcase].
        { by destruct (RequestConfig_rejected_detail _ _ _ _ Hreq Hcase)
            as [_ ->]. }
        destruct (RequestConfig_accepted_detail _ _ _ _ Hreq Hcase)
          as (? & ? & ? & _ & _ & Hat' & _).
        rewrite Hat', Hat, orb_false_r.
        destruct Hquiet as [->|Hr]; [by rewrite !andb_false_r|].
        by rewrite (Hr request eq_refl), andb_false_r.
      - destruct (RemoveConfig_returns id w Hinv) as (b & w1 & Hrem).
        { destruct Hcalm as [?|[? _]]; [by right|by left]. }
        exists (RetBool b), w1. split.
        { unfold mbind, M_bind. by rewrite Hrem. }
        intros Hat _. destruct b.
        + destruct (RemoveConfig_removed_detail _ _ _ Hrem)
            as (? & _ & _ & _ & _ & _ & _ & _ & Hat' & _).
          by rewrite Hat', Hat.
        + by apply RemoveConfig_table in Hrem as [_ [(_ & -> & _)|(? & _)]]. }
    destruct Hstep as (r & w1 & Hstep & Hquiet).
    destruct (IH w1) as (rs & w' & Hrun & Hlen).
    { by eapply step_preserves_inv. }
    { destruct Hcalm as [?|[Hat [Ha|Hall]]]; [by left|right..].
      - split; [apply Hquiet; [done|by left]|by left].
      - apply Forall_cons in Hall as [Hop Hall].
        split; [apply Hquiet; [done|by right]|by right]. }
    exists (r :: rs), w'. split; [|cbn [length]; by rewrite Hlen].
    apply run_cons_Ok. by exists r, w1, rs.
Qed.

(** X18. Every sequence of operations on a fresh muxer runs to its end,
    one result per operation, in each of these cases: the build is not
    for Android; no request of the sequence requires atrace; or
    [PERFETTO_DCHECK] is compiled out and the atrace helper always exits
    with status 0. *)
Theorem run_returns k ops :
  PERFETTO_OS_ANDROID build = false
  ∨ Forall (λ op, ∀ request, op = OpRequestConfig request →
                    RequiresAtrace request = false) ops
  ∨ (PERFETTO_DCHECK_IS_ON build = false
     ∧ ∀ args k, (fork_execv_waitpid process_ "/system/bin/atrace" args k).1
                 = Some 0%Z) →
  ∃ rets w, run ops (initial_world k) = Ok rets w ∧ length rets = length ops.
Proof.
  intros Hcalm. apply run_returns_from; [apply initial_world_inv|].
  destruct Hcalm as [Ha|[Hall|Hhelper]]; [right|right|by left].
  - split; [done|by left].
  - split; [done|by right].
Qed.

(** * The tracing switch *)

Lemma filter_is_nil {A} (P : A → Prop) `{∀ x, Decision (P x)} (l : list A) :
  Forall (λ x, ¬ P x) l → filter P l = [].
Proof.
  induction 1 as [|x l Hx _ IH]; [done|]. by rewrite filter_cons_False.
Qed.

Lemma concat_replicate_snoc {A} n (l : list A) :
  concat (replicate n l) ++ l = concat (replicate (S n) l).
Proof.
  induction n as [|n IH]; cbn [replicate concat] in *.
  - by rewrite app_nil_r.
  - by rewrite <- (assoc_L (++)), IH.
Qed.

(** X19. Sessions are properly bracketed on the control surface: in a
    reachable world the [EnableTracing] and [DisableTracing] calls made
    so far alternate, starting with [EnableTracing], and the last one is
    an [EnableTracing] exactly when the table is non-empty. *)
Theorem tracing_switch_calls_alternate w :
  reachable w →
  ∃ n, filter (λ c, is_tracing_switch c = true) (calls w)
       = concat (replicate n [CallEnableTracing; CallDisableTracing])
         ++ (if bool_decide (configs w = ∅) then [] else [CallEnableTracing]).
Proof.
  intros (k & ops & rets & Hrun).
  pose (P := λ w : World K,
          ∃ n, filter (λ c, is_tracing_switch c = true) (calls w)
               = concat (replicate n [CallEnableTracing; CallDisableTracing])
                 ++ (if bool_decide (configs w = ∅) then []
                     else [CallEnableTracing])).
  change (P w).
  eapply (run_invariant P); [|apply (initial_world_inv k)| |exact Hrun].
  2:{ by exists 0%nat. }
  subst P. cbn beta. clear.
  intros op w r w' _ [n Hn] Hstep. apply step_cases in Hstep.
  destruct op as [request|id].
  - destruct Hstep as (id & _ & Hreq).
    destruct (decide (bool_decide (configs w = ∅)
                      = (IsTracingEnabled ftrace_ (host w)).1)) as [Hcase|Hcase].
    { destruct (RequestConfig_rejected_detail _ _ _ _ Hreq Hcase) as [_ ->].
      cbn [muxer calls]. exists n. rewrite filter_app, Hn.
      by rewrite (filter_is_nil _ [_]), app_nil_r by (by repeat constructor). }
    destruct (RequestConfig_accepted_detail _ _ _ _ Hreq Hcase)
      as (accepted & setup & enables & Hfacts & _ & _ & _ & _ & _ & Hcs
          & Hcalls & Hsetup).
    destruct Hfacts as (_ & _ & _ & Henables & _).
    assert (Hen : filter (λ c, is_tracing_switch c = true) enables = []).
    { apply filter_is_nil. eapply Forall_impl; [exact Henables|]. cbn.
      by intros c (? & ? & ? & -> & _). }
    assert (Hne : configs w' ≠ ∅) by (rewrite Hcs; apply emplace_not_empty).
    exists n. rewrite Hcalls, !filter_app, Hn, Hen.
    rewrite (bool_decide_eq_false_2 _ Hne). case_bool_decide as Hempty.
    + destruct Hsetup as (cur & av & ->).
      rewrite (filter_is_nil _ (_ ++ _)); [by rewrite !app_nil_r|].
      destruct (RequiresAtrace request && PERFETTO_OS_ANDROID build),
        (preferred_clock av) as [t|]; try destruct (bool_decide (t = cur));
        cbn [app]; by repeat first [apply Forall_nil_2 | apply Forall_cons_2].
    + subst setup.
      by rewrite (filter_is_nil _ [_]), !app_nil_r by (by repeat constructor).
  - destruct Hstep as (b & _ & Hrem). destruct b.
    + destruct (RemoveConfig_removed_detail _ _ _ Hrem)
        as (disables & _ & [config Hconfig] & Hfacts & Hcs & _ & _ & _ & _
            & Hcalls).
      destruct Hfacts as (_ & _ & _ & Hdis).
      assert (Hd : filter (λ c, is_tracing_switch c = true) disables = []).
      { apply filter_is_nil. eapply Forall_impl; [exact Hdis|]. cbn.
        by intros c (? & ? & ? & -> & _). }
      assert (Hne : configs w ≠ ∅).
      { intros Habs. by rewrite Habs in Hconfig. }
      rewrite (bool_decide_eq_false_2 _ Hne) in Hn.
      rewrite Hcalls, Hcs, !filter_app, Hn, Hd.
      case_bool_decide as Hlast.
      * exists (S n). rewrite <- concat_replicate_snoc.
        destruct (atrace_on (state w) && PERFETTO_OS_ANDROID build);
          cbn; by rewrite !app_nil_r, <- (assoc_L (++)).
      * exists n. by rewrite !app_nil_r.
    + apply RemoveConfig_table in Hrem as [_ [(_ & -> & _)|(? & _)]]; [|done].
      by exists n.
Qed.

End Muxer.

(** * Buffer sizing *)

Lemma one_page_at_least (q : N) : (if q =? 0 then 1 else q) = N.max 1 q.
Proof.
  destruct (N.eqb_spec q 0); destruct (N.max_spec 1 q) as [[? ->]|[? ->]]; lia.
Qed.

Section BufferSize.
Variable kPageSize : N.
Let page_kb : N := kPageSize / 1024.

Lemma ComputeCpuBufferSizeInPages_unfold requested :
  ComputeCpuBufferSizeInPages kPageSize requested =
  N.max 1 (effective_buffer_size_kb requested / page_kb).
Proof.
  unfold ComputeCpuBufferSizeInPages, effective_buffer_size_kb,
    kDefaultPerCpuBufferSizeKb, kMaxPerCpuBufferSizeKb, page_kb.
  change (2 * 1024) with 2048. rewrite one_page_at_least. do 2 f_equal.
  destruct (N.eqb_spec requested 0) as [->|Hnz].
  - by rewrite bool_decide_eq_true_2 by (by left).
  - destruct (N.ltb_spec 2048 requested) as [Hgt|Hle].
    + by rewrite bool_decide_eq_true_2 by (by right).
    + by rewrite bool_decide_eq_false_2 by lia.
Qed.

(** C4. For a page size of at least 1 KB and at most the 2048 KB
    ceiling, [ComputeCpuBufferSizeInPages] returns at least one page for
    every input; 0 and every input above 2048 KB give the pages of the
    512 KB default; any other input gives the requested KB divided by
    the page size in KB, a zero quotient becoming one page; and the
    result times the page size in KB stays within the 2048 KB ceiling. *)
Theorem ComputeCpuBufferSizeInPages_policy (requested : N) :
  1024 ≤ kPageSize → kPageSize / 1024 ≤ kMaxPerCpuBufferSizeKb →
  1 ≤ ComputeCpuBufferSizeInPages kPageSize requested
  ∧ (requested = 0 ∨ kMaxPerCpuBufferSizeKb < requested →
     ComputeCpuBufferSizeInPages kPageSize requested
     = N.max 1 (kDefaultPerCpuBufferSizeKb / page_kb)
     ∧ ComputeCpuBufferSizeInPages kPageSize requested
       = ComputeCpuBufferSizeInPages kPageSize kDefaultPerCpuBufferSizeKb)
  ∧ (requested ≠ 0 → requested ≤ kMaxPerCpuBufferSizeKb →
     ComputeCpuBufferSizeInPages kPageSize requested
     = if requested / page_kb =? 0 then 1 else requested / page_kb)
  ∧ ComputeCpuBufferSizeInPages kPageSize requested * page_kb
    ≤ kMaxPerCpuBufferSizeKb.
Proof.
  intros Hlo Hhi.
  assert (Hpk : 1 ≤ page_kb).
  { unfold page_kb. change 1 with (1024 / 1024).
    by apply N.Div0.div_le_mono. }
  rewrite !ComputeCpuBufferSizeInPages_unfold.
  unfold kDefaultPerCpuBufferSizeKb, kMaxPerCpuBufferSizeKb in *.
  change (2 * 1024) with 2048 in *. fold page_kb in Hhi |- *.
  replace (effective_buffer_size_kb 512) with 512
    by (unfold effective_buffer_size_kb; by rewrite bool_decide_eq_false_2 by lia).
  split; [destruct (N.max_spec 1 (effective_buffer_size_kb requested / page_kb))
            as [[? ->]|[? ->]]; lia|].
  unfold effective_buffer_size_kb.
  split; [|split].
  - intros Hd. by rewrite bool_decide_eq_true_2.
  - intros Hnz Hle. rewrite bool_decide_eq_false_2 by lia.
    by rewrite one_page_at_least.
  - assert (Hq : ∀ x, x ≤ 2048 → N.max 1 (x / page_kb) * page_kb ≤ 2048).
    { intros x Hx. destruct (N.max_spec 1 (x / page_kb)) as [[_ ->]|[_ ->]].
      - pose proof (N.Div0.mul_div_le x page_kb). lia.
      - lia. }
    case_bool_decide; apply Hq; lia.
Qed.

End BufferSize.

(** * Concrete runs *)

(** Two overlapping clients: the union of their events is enabled, and
    removing the first one disables only the event nobody else needs. *)
Example overlapping_clients :
  ∃ w, run Fake.procfs Fake.process Fake.table Fake.android
           [OpRequestConfig (mkFtraceConfig ["sched_switch"; "sched_wakeup"] 0 [] []);
            OpRequestConfig (mkFtraceConfig ["sched_switch"; "cpu_idle"] 0 [] []);
            OpRemoveConfig 1]
           (initial_world Fake.android Fake.idle)
       = Ok [RetId 1; RetId 2; RetBool true] w
     ∧ ftrace_events (current_state_ (muxer w)) = {["cpu_idle"; "sched_switch"]}
     ∧ filter (λ c, is_DisableEvent c = true) (calls w)
       = [CallDisableEvent "sched" "sched_wakeup" true].
Proof.
  eexists. split; [vm_compute; reflexivity|].
  repeat (split; [vm_compute; reflexivity|]). vm_compute. reflexivity.
Qed.

(** An unknown event name is skipped and never reaches the control
    surface; a request above the ceiling gets the default buffer. *)
Example unknown_event_and_buffer_clamp :
  ∃ w, run Fake.procfs Fake.process Fake.table Fake.android
           [OpRequestConfig (mkFtraceConfig ["does_not_exist"; "sched_switch"] 8192 [] [])]
           (initial_world Fake.android Fake.idle)
       = Ok [RetId 1] w
     ∧ configs_ (muxer w) !! 1 = Some (mkFtraceConfig ["sched_switch"] 0 [] [])
     ∧ cpu_buffer_size_pages (current_state_ (muxer w)) = 128
     ∧ calls w = [CallIsTracingEnabled false; CallGetClock "local";
                  CallAvailableClocks {["boot"; "global"; "local"]};
                  CallSetClock "boot"; CallSetCpuBufferSizeInPages 128;
                  CallEnableEvent "sched" "sched_switch" true; CallEnableTracing].
Proof.
  eexists. split; [vm_compute; reflexivity|].
  repeat (split; [vm_compute; reflexivity|]). vm_compute. reflexivity.
Qed.

(** Off Android the atrace entry points do nothing: no helper is run and
    [atrace_on] stays false, while "print" is still requested. *)
Example atrace_request_off_android :
  ∃ w, run Fake.procfs Fake.process Fake.table Fake.linux
           [OpRequestConfig (mkFtraceConfig [] 0 ["gfx"] [])]
           (initial_world Fake.linux Fake.idle)
       = Ok [RetId 1] w
     ∧ atrace_on (current_state_ (muxer w)) = false
     ∧ filter (λ c, is_Execv c = true) (calls w) = []
     ∧ configs_ (muxer w) !! 1 = Some (mkFtraceConfig ["print"] 0 [] []).
Proof.
  eexists. split; [vm_compute; reflexivity|].
  repeat (split; [vm_compute; reflexivity|]). vm_compute. reflexivity.
Qed.

(** When the kernel refuses to disable an event, the event stays in
    [ftrace_events] after the last config is removed. *)
Example refused_disable_leaves_event :
  ∃ w, run Fake.procfs Fake.process Fake.table Fake.android
           [OpRequestConfig (mkFtraceConfig ["sched_switch"] 0 [] []);
            OpRemoveConfig 1]
           (initial_world Fake.android Fake.sticky)
       = Ok [RetId 1; RetBool true] w
     ∧ current_state_ (muxer w) = mkFtraceState {["sched_switch"]} false false 128.
Proof.
  eexists. split; [vm_compute; reflexivity|].
  repeat (split; [vm_compute; reflexivity|]). vm_compute. reflexivity.
Qed.

(** C9 (defect in the code). On an Android build with [PERFETTO_DCHECK]
    compiled in, a request with the atrace category "gfx" on a fresh muxer
    followed by the removal of its id reaches [DisableAtrace] with
    [atrace_on] still true, and the assertion [!current_state_.atrace_on]
    at its entry aborts the process. *)
Theorem DisableAtrace_entry_dcheck_fails :
  run Fake.procfs Fake.process Fake.table Fake.android_debug
      [OpRequestConfig (mkFtraceConfig [] 0 ["gfx"] []); OpRemoveConfig 1]
      (initial_world Fake.android_debug Fake.idle)
  = Crash (DcheckFailed "DisableAtrace: !current_state_.atrace_on").
Proof. vm_compute. reflexivity. Qed.

(** C1 (defect in the code). One client asks for "sched_switch" on a fresh
    muxer and is removed again, so the ids are balanced.  On a quiet
    device the teardown writes 0 through [SetCpuBufferSizeInPages], yet
    [cpu_buffer_size_pages] keeps the 128 pages of the cold start, where
    the initial state has 0: [RemoveConfig] resets the control surface
    without mirroring it into [CurrentState], as [SetupBufferSize] does
    for every write it makes.  On a device that refuses [DisableEvent]
    the same teardown calls [DisableAllEvents] and leaves "sched_switch"
    in [ftrace_events], and the next session makes no [EnableEvent] call
    for it. *)
Theorem balanced_run_leaves_CurrentState_stale :
  let request := mkFtraceConfig ["sched_switch"] 0 [] [] in
  let ops := [OpRequestConfig request; OpRemoveConfig 1] in
  let rets := [RetId 1; RetBool true] in
  pending ∅ ops rets = ∅
  ∧ current_state_ (muxer (initial_world Fake.android Fake.idle))
    = mkFtraceState ∅ false false 0
  ∧ (∃ w, run Fake.procfs Fake.process Fake.table Fake.android ops
              (initial_world Fake.android Fake.idle) = Ok rets w
        ∧ last_buffer_write (calls w) = Some (CallSetCpuBufferSizeInPages 0)
        ∧ current_state_ (muxer w) = mkFtraceState ∅ false false 128
        ∧ cpu_buffer_size_pages (current_state_ (muxer w)) ≠ 0)
  ∧ (∃ w w', run Fake.procfs Fake.process Fake.table Fake.android ops
                 (initial_world Fake.android Fake.sticky) = Ok rets w
        ∧ filter (λ c, bool_decide (c = CallDisableAllEvents)) (calls w)
          = [CallDisableAllEvents]
        ∧ ftrace_events (current_state_ (muxer w)) = {["sched_switch"]}
        ∧ RequestConfig Fake.procfs Fake.process Fake.table Fake.android
            request w = Ok 2 w'
        ∧ filter (λ c, is_EnableEvent c = true) (calls w')
          = [CallEnableEvent "sched" "sched_switch" true]).
Proof.
  intros request ops rets.
  split; [vm_compute; reflexivity|]. split; [reflexivity|]. split.
  - eexists. split; [vm_compute; reflexivity|].
    split; [vm_compute; reflexivity|]. split; [vm_compute; reflexivity|].
    vm_compute. discriminate.
  - eexists _, _. split; [vm_compute; reflexivity|].
    split; [vm_compute; reflexivity|]. split; [vm_compute; reflexivity|].
    split; [vm_compute; reflexivity|]. vm_compute. reflexivity.
Qed.

Lemma balanced_run_returns_to_idle_witness :
  let ops := [OpRequestConfig (mkFtraceConfig ["sched_switch"] 0 [] ["com.app"]);
              OpRequestConfig (mkFtraceConfig ["cpu_idle"] 64 [] []);
              OpRemoveConfig 2; OpRemoveConfig 1] in
  ∃ rets w,
    run Fake.procfs Fake.process Fake.table Fake.android ops
        (initial_world Fake.android Fake.idle) = Ok rets w
    ∧ pending ∅ ops rets = ∅
    ∧ configs_ (muxer w) = ∅
    ∧ tracing_on (current_state_ (muxer w)) = false
    ∧ atrace_on (current_state_ (muxer w)) = false
    ∧ ftrace_events (current_state_ (muxer w)) = ∅.
Proof.
  intros ops. eexists _, _.
  assert (Hrun : run Fake.procfs Fake.process Fake.table Fake.android ops
                   (initial_world Fake.android Fake.idle) = Ok _ _)
    by (vm_compute; reflexivity).
  split; [exact Hrun|].
  assert (Hbal : pending ∅ ops [RetId 1; RetId 2; RetBool true; RetBool true] = ∅)
    by (vm_compute; reflexivity).
  split; [exact Hbal|].
  destruct (balanced_run_returns_to_idle Fake.procfs Fake.process Fake.table
              Fake.android Fake.idle ops _ _ Hrun)
    as (Hcs & Hon & Hat & _ & _ & _).
  - vm_compute. reflexivity.
  - exact Hbal.
  - repeat split; assumption || reflexivity.
Defined.

(** A request for "print" alone: the catalog has it in the virtual group
    "ftrace", so it is accepted without being enabled, and the accepted
    names are not all in [ftrace_events]. *)
Lemma accepted_print_not_in_ftrace_events :
  ∃ w, run Fake.procfs Fake.process Fake.table Fake.android
           [OpRequestConfig (mkFtraceConfig ["print"] 0 [] [])]
           (initial_world Fake.android Fake.idle)
       = Ok [RetId 1] w
     ∧ configs_ (muxer w) !! 1 = Some (mkFtraceConfig ["print"] 0 [] [])
     ∧ ftrace_events (current_state_ (muxer w)) = ∅
     ∧ ¬ (expected_ftrace_events (configs_ (muxer w))
          ⊆ ftrace_events (current_state_ (muxer w))).
Proof.
  eexists. split; [vm_compute; reflexivity|].
  cbn [muxer current_state_ configs_ ftrace_events].
  split; [vm_compute; reflexivity|]. split; [reflexivity|].
  intros Hsub. assert (Hin : "print" ∈ (∅ : gset string)); [|set_solver].
  apply Hsub, elem_of_expected_ftrace_events.
  exists 1, (mkFtraceConfig ["print"] 0 [] []).
  split; [vm_compute; reflexivity|]. by apply list_elem_of_singleton.
Qed.

Lemma ftrace_events_cover_accepted_witness :
  ∃ w, reachable Fake.procfs Fake.process Fake.table Fake.android w
     ∧ configs_ (muxer w) !! 1
       = Some (mkFtraceConfig ["print"; "sched_switch"] 0 [] [])
     ∧ ("sched_switch" ∈ ftrace_events (current_state_ (muxer w))
        ∨ in_ftrace_group Fake.table "sched_switch")
     ∧ enabled_by_muxer Fake.table (calls w) "sched_switch".
Proof.
  eexists.
  match goal with |- ?R ∧ _ => assert (Hreach : R) end.
  { exists Fake.idle,
      [OpRequestConfig (mkFtraceConfig ["sched_switch"; "print"] 0 [] [])],
      [RetId 1].
    vm_compute. reflexivity. }
  split; [exact Hreach|].
  match goal with |- ?L ∧ _ => assert (Hlook : L) by (vm_compute; reflexivity) end.
  split; [exact Hlook|].
  destruct (ftrace_events_cover_accepted _ _ _ _ _ Hreach) as [Hcover Hen].
  split.
  - eapply Hcover; [exact Hlook|]. apply list_elem_of_In. cbn. tauto.
  - apply Hen. cbn [muxer current_state_ ftrace_events]. set_solver.
Defined.

Lemma RequestConfig_rejection_witness :
  let w := initial_world Fake.android Fake.foreign in
  reachable Fake.procfs Fake.process Fake.table Fake.android w
  ∧ RequestConfig Fake.procfs Fake.process Fake.table Fake.android
      (mkFtraceConfig ["sched_switch"] 0 [] []) w
    = Ok 0 (mkWorld (muxer w) Fake.foreign [CallIsTracingEnabled true]).
Proof.
  intros w.
  assert (Hreach : reachable Fake.procfs Fake.process Fake.table Fake.android w)
    by (exists Fake.foreign, [], []; reflexivity).
  split; [exact Hreach|].
  destruct (RequestConfig_rejection Fake.procfs Fake.process Fake.table Fake.android
              (mkFtraceConfig ["sched_switch"] 0 [] []) w Hreach) as [Hrej _].
  destruct Hrej as [Heq _]; [left; split; reflexivity|exact Heq].
Defined.

Lemma ComputeCpuBufferSizeInPages_policy_witness :
  1024 ≤ 4096 ∧ 4096 / 1024 ≤ kMaxPerCpuBufferSizeKb
  ∧ 1 ≤ ComputeCpuBufferSizeInPages 4096 8192
  ∧ ComputeCpuBufferSizeInPages 4096 8192 = 128
  ∧ ComputeCpuBufferSizeInPages 4096 8192 * (4096 / 1024) ≤ kMaxPerCpuBufferSizeKb.
Proof.
  assert (Hlo : 1024 ≤ 4096) by (vm_compute; discriminate).
  assert (Hhi : 4096 / 1024 ≤ kMaxPerCpuBufferSizeKb) by (vm_compute; discriminate).
  destruct (ComputeCpuBufferSizeInPages_policy 4096 8192 Hlo Hhi)
    as (Hone & Hdefault & _ & Hceiling).
  split; [exact Hlo|]. split; [exact Hhi|]. split; [exact Hone|].
  split; [|exact Hceiling].
  destruct Hdefault as [Heq _]; [right; reflexivity|exact Heq].
Defined.

Lemma issued_ids_strictly_increasing_witness :
  let request := mkFtraceConfig ["sched_switch"] 0 [] [] in
  let ops := [OpRequestConfig request; OpRequestConfig request;
              OpRemoveConfig 1; OpRequestConfig request] in
  ∃ rets w,
    run Fake.procfs Fake.process Fake.table Fake.android ops
        (initial_world Fake.android Fake.idle) = Ok rets w
    ∧ issued_ids rets = [1; 2; 3]
    ∧ StronglySorted N.lt (issued_ids rets) ∧ NoDup (issued_ids rets).
Proof.
  intros request ops. eexists _, _.
  match goal with |- ?R ∧ _ => assert (Hrun : R) by (vm_compute; reflexivity) end.
  split; [exact Hrun|]. split; [reflexivity|].
  apply (issued_ids_strictly_increasing Fake.procfs Fake.process Fake.table
           Fake.android Fake.idle ops _ _ Hrun).
  vm_compute. reflexivity.
Defined.

Lemma atrace_start_and_effective_events_witness :
  let w := initial_world Fake.android Fake.idle in
  let request := mkFtraceConfig ["sched_switch"] 0 ["gfx"; "view"] ["com.app"] in
  let argv := ["atrace"; "--async_start"; "gfx"; "view"; "-a"; "com.app"] in
  reachable Fake.procfs Fake.process Fake.table Fake.android w
  ∧ configs_ (muxer w) = ∅
  ∧ (IsTracingEnabled Fake.procfs (host w)).1 = false
  ∧ RequiresAtrace request = true
  ∧ PERFETTO_OS_ANDROID Fake.android = true
  ∧ ("print" ∈ GetFtraceEvents request ∧ "sched_switch" ∈ GetFtraceEvents request)
  ∧ ∃ id w' rest,
      RequestConfig Fake.procfs Fake.process Fake.table Fake.android request w
      = Ok id w'
      ∧ calls w' = [CallIsTracingEnabled false;
                    CallExecv "/system/bin/atrace" argv (Some 0%Z)] ++ rest.
Proof.
  intros w request argv.
  assert (Hreach : reachable Fake.procfs Fake.process Fake.table Fake.android w)
    by (exists Fake.idle, [], []; reflexivity).
  destruct (atrace_start_and_effective_events Fake.procfs Fake.process Fake.table
              Fake.android request w) as (Hevents & _ & Hcold).
  destruct (Hcold Hreach eq_refl eq_refl eq_refl eq_refl) as [Hok _].
  destruct (Hok eq_refl) as (id & w' & rest & Hrun & Hcalls & _).
  repeat (split; [first [exact Hreach | reflexivity]|]).
  split.
  - split; apply Hevents.
    + right. split; reflexivity.
    + left. apply list_elem_of_In. cbn. tauto.
  - exists id, w', rest. split; [exact Hrun|exact Hcalls].
Defined.

Lemma RemoveConfig_result_witness :
  let ops := [OpRequestConfig (mkFtraceConfig ["sched_switch"] 0 ["gfx"] [])] in
  let start := initial_world Fake.android Fake.idle in
  let w := world_after (run Fake.procfs Fake.process Fake.table Fake.android ops)
             start in
  reachable Fake.procfs Fake.process Fake.table Fake.android w
  ∧ is_Some (configs_ (muxer w) !! 1)
  ∧ atrace_on (current_state_ (muxer w)) = true
  ∧ delete 1 (configs_ (muxer w)) = ∅
  ∧ (∃ w',
       RemoveConfig Fake.procfs Fake.process Fake.table Fake.android 1 w
       = Ok true w'
       ∧ configs_ (muxer w') = delete 1 (configs_ (muxer w))
       ∧ configs_ (muxer w') !! 1 = None)
  ∧ RemoveConfig Fake.procfs Fake.process Fake.table Fake.android 7 w = Ok false w
  ∧ RemoveConfig Fake.procfs Fake.process Fake.table Fake.android 0 w = Ok false w.
Proof.
  intros ops start w.
  assert (Hreach : reachable Fake.procfs Fake.process Fake.table Fake.android w).
  { exists Fake.idle, ops, [RetId 1]. vm_compute. reflexivity. }
  assert (Hsome : is_Some (configs_ (muxer w) !! 1))
    by (eexists; vm_compute; reflexivity).
  assert (Hid : (1 : N) ≠ 0) by discriminate.
  split; [exact Hreach|]. split; [exact Hsome|].
  split; [vm_compute; reflexivity|]. split; [vm_compute; reflexivity|].
  split; [|split].
  - destruct (RemoveConfig_result Fake.procfs Fake.process Fake.table Fake.android
                1 w) as (_ & _ & Htrue & Hknown).
    destruct (Hknown Hreach Hid Hsome) as [[_ Hreturns] _].
    destruct Hreturns as [w' Hrem].
    { right. right. split; vm_compute; reflexivity. }
    exists w'. split; [exact Hrem|].
    destruct (Htrue w' Hrem) as (_ & _ & Hcs & Hgone).
    split; [exact Hcs|exact Hgone].
  - destruct (RemoveConfig_result Fake.procfs Fake.process Fake.table Fake.android
                7 w) as [Hfalse _].
    apply Hfalse. right. vm_compute. reflexivity.
  - destruct (RemoveConfig_result Fake.procfs Fake.process Fake.table Fake.android
                0 w) as [Hfalse _].
    apply Hfalse. left. reflexivity.
Defined.

Lemma RequestConfig_warm_frame_witness :
  let request := mkFtraceConfig ["cpu_idle"] 1024 ["gfx"] [] in
  ∃ w,
    run Fake.procfs Fake.process Fake.table Fake.android
        [OpRequestConfig (mkFtraceConfig ["sched_switch"] 0 [] [])]
        (initial_world Fake.android Fake.idle) = Ok [RetId 1] w
    ∧ configs_ (muxer w) ≠ ∅
    ∧ ∃ id w' new,
        RequestConfig Fake.procfs Fake.process Fake.table Fake.android request w
        = Ok id w'
        ∧ calls w' = calls w ++ new
        ∧ Forall (λ c, is_SetClock c = false
                       ∧ is_SetCpuBufferSizeInPages c = false
                       ∧ is_Execv c = false) new
        ∧ cpu_buffer_size_pages (current_state_ (muxer w')) = 128
        ∧ atrace_on (current_state_ (muxer w')) = false.
Proof.
  intros request. eexists.
  split; [vm_compute; reflexivity|].
  match goal with |- ?R ∧ _ => assert (Hne : R) by (vm_compute; discriminate) end.
  split; [exact Hne|].
  destruct (RequestConfig_warm_frame Fake.procfs Fake.process Fake.table Fake.android
              request _ Hne) as [(id & w' & new & Hrun & Hcalls & Hnew & Hcpu & Hat & _) _].
  exists id, w', new. split; [exact Hrun|]. split; [exact Hcalls|].
  split; [exact Hnew|]. split; [by rewrite Hcpu|by rewrite Hat].
Defined.

(** * Concrete runs for the further properties *)

Lemma session_flags_follow_table_witness :
  let ops := [OpRequestConfig (mkFtraceConfig ["sched_switch"] 0 [] [])] in
  let start := initial_world Fake.android Fake.idle in
  let w := world_after (run Fake.procfs Fake.process Fake.table Fake.android ops)
             start in
  reachable Fake.procfs Fake.process Fake.table Fake.android w
  ∧ configs_ (muxer w) ≠ ∅
  ∧ tracing_on (current_state_ (muxer w)) = true.
Proof.
  intros ops start w.
  assert (Hreach : reachable Fake.procfs Fake.process Fake.table Fake.android w).
  { exists Fake.idle, ops, [RetId 1]. vm_compute. reflexivity. }
  assert (Hne : configs_ (muxer w) ≠ ∅) by (vm_compute; discriminate).
  split; [exact Hreach|]. split; [exact Hne|].
  destruct (session_flags_follow_table _ _ _ _ _ Hreach) as [Hiff _].
  apply Hiff. exact Hne.
Defined.

Lemma GetConfig_tracks_outstanding_ids_witness :
  let ops := [OpRequestConfig (mkFtraceConfig ["sched_switch"] 0 [] []);
              OpRequestConfig (mkFtraceConfig ["cpu_idle"] 0 [] []);
              OpRemoveConfig 1] in
  let rets := [RetId 1; RetId 2; RetBool true] in
  let start := initial_world Fake.android Fake.idle in
  let w := world_after (run Fake.procfs Fake.process Fake.table Fake.android ops)
             start in
  run Fake.procfs Fake.process Fake.table Fake.android ops start = Ok rets w
  ∧ pending ∅ ops rets = {[2]}
  ∧ dom (configs_ (muxer w)) = pending ∅ ops rets
  ∧ (∃ answer, GetConfig 2 w = Ok answer w ∧ is_Some answer)
  ∧ GetConfig 0 w = Ok None w.
Proof.
  intros ops rets start w.
  assert (Hrun : run Fake.procfs Fake.process Fake.table Fake.android ops start
                 = Ok rets w) by (vm_compute; reflexivity).
  assert (Hpend : pending ∅ ops rets = {[2]}) by (vm_compute; reflexivity).
  split; [exact Hrun|]. split; [exact Hpend|].
  destruct (GetConfig_tracks_outstanding_ids Fake.procfs Fake.process Fake.table
              Fake.android Fake.idle ops rets w Hrun) as (Hdom & Hget & Hzero).
  - vm_compute. reflexivity.
  - split; [exact Hdom|]. split; [|exact Hzero].
    destruct (Hget 2) as (answer & Heq & Hiff). exists answer.
    split; [exact Heq|]. apply Hiff. rewrite Hpend. by apply elem_of_singleton.
Defined.

Lemma RemoveConfig_releases_once_witness :
  let ops := [OpRequestConfig (mkFtraceConfig ["sched_switch"] 0 [] [])] in
  let start := initial_world Fake.android Fake.idle in
  let w := world_after (run Fake.procfs Fake.process Fake.table Fake.android ops)
             start in
  let w' := world_after (RemoveConfig Fake.procfs Fake.process Fake.table
                           Fake.android 1) w in
  RemoveConfig Fake.procfs Fake.process Fake.table Fake.android 1 w = Ok true w'
  ∧ RemoveConfig Fake.procfs Fake.process Fake.table Fake.android 1 w' = Ok false w'
  ∧ GetConfig 1 w' = Ok None w'.
Proof.
  intros ops start w w'.
  assert (Hrem : RemoveConfig Fake.procfs Fake.process Fake.table Fake.android 1 w
                 = Ok true w') by (vm_compute; reflexivity).
  split; [exact Hrem|].
  destruct (RemoveConfig_releases_once _ _ _ _ _ _ _ Hrem) as (Hget & Hagain & _).
  split; [exact Hagain|exact Hget].
Defined.

Lemma RequestConfig_then_GetConfig_witness :
  let ops := [OpRequestConfig (mkFtraceConfig ["sched_switch"] 0 [] [])] in
  let request := mkFtraceConfig ["does_not_exist"; "cpu_idle"] 64 ["gfx"] [] in
  let start := initial_world Fake.android Fake.idle in
  let w := world_after (run Fake.procfs Fake.process Fake.table Fake.android ops)
             start in
  let w' := world_after (RequestConfig Fake.procfs Fake.process Fake.table
                           Fake.android request) w in
  run Fake.procfs Fake.process Fake.table Fake.android ops start = Ok [RetId 1] w
  ∧ RequestConfig Fake.procfs Fake.process Fake.table Fake.android request w
    = Ok 2 w'
  ∧ ∃ accepted,
      GetConfig 2 w' = Ok (Some (mkFtraceConfig accepted 0 [] [])) w'
      ∧ accepted `sublist_of` sorted_elements (GetFtraceEvents request).
Proof.
  intros ops request start w w'.
  assert (Hrun : run Fake.procfs Fake.process Fake.table Fake.android ops start
                 = Ok [RetId 1] w) by (vm_compute; reflexivity).
  assert (Hreq : RequestConfig Fake.procfs Fake.process Fake.table Fake.android
                   request w = Ok 2 w') by (vm_compute; reflexivity).
  assert (Hsmall : last_id_init Fake.android + N.of_nat (length ops) + 1
                   < 2 ^ FtraceConfigId_bits Fake.android)
    by (vm_compute; reflexivity).
  assert (Hid : (2 : N) ≠ 0) by discriminate.
  split; [exact Hrun|]. split; [exact Hreq|].
  destruct (RequestConfig_then_GetConfig Fake.procfs Fake.process Fake.table
              Fake.android Fake.idle ops _ w request 2 w' Hrun Hsmall Hreq Hid)
    as (accepted & Hget & Hsub & _).
  exists accepted. split; [exact Hget|exact Hsub].
Defined.

Lemma RequestConfig_only_acquires_witness :
  let w := initial_world Fake.android Fake.idle in
  let request := mkFtraceConfig ["sched_switch"; "print"] 0 [] [] in
  let w' := world_after (RequestConfig Fake.procfs Fake.process Fake.table
                           Fake.android request) w in
  RequestConfig Fake.procfs Fake.process Fake.table Fake.android request w
  = Ok 1 w'
  ∧ ∃ new,
      calls w' = calls w ++ new
      ∧ Forall (λ c, is_DisableEvent c = false ∧ c ≠ CallDisableTracing
                     ∧ c ≠ CallDisableAllEvents ∧ c ≠ CallClearTrace) new
      ∧ ftrace_events (current_state_ (muxer w'))
        ⊆ ftrace_events (current_state_ (muxer w)) ∪ GetFtraceEvents request.
Proof.
  intros w request w'.
  assert (Hreq : RequestConfig Fake.procfs Fake.process Fake.table Fake.android
                   request w = Ok 1 w') by (vm_compute; reflexivity).
  split; [exact Hreq|].
  destruct (RequestConfig_only_acquires _ _ _ _ _ _ _ _ Hreq)
    as (new & Hcalls & _ & Hnew & _ & Hsub).
  exists new. split; [exact Hcalls|]. split; [exact Hnew|exact Hsub].
Defined.

Lemma RequestConfig_of_enabled_events_is_free_witness :
  let ops := [OpRequestConfig
                (mkFtraceConfig ["sched_switch"; "cpu_idle"] 0 [] [])] in
  let request := mkFtraceConfig ["cpu_idle"] 0 ["gfx"] [] in
  let start := initial_world Fake.android Fake.idle in
  let w := world_after (run Fake.procfs Fake.process Fake.table Fake.android ops)
             start in
  reachable Fake.procfs Fake.process Fake.table Fake.android w
  ∧ configs_ (muxer w) ≠ ∅
  ∧ (IsTracingEnabled Fake.procfs (host w)).1 = true
  ∧ GetFtraceEvents request = {["cpu_idle"; "print"]}
  ∧ "cpu_idle" ∈ ftrace_events (current_state_ (muxer w))
  ∧ in_ftrace_group Fake.table "print"
  ∧ ∃ w',
      RequestConfig Fake.procfs Fake.process Fake.table Fake.android request w
      = Ok 2 w'
      ∧ current_state_ (muxer w') = current_state_ (muxer w)
      ∧ calls w' = calls w ++ [CallIsTracingEnabled true].
Proof.
  intros ops request start w.
  assert (Hreach : reachable Fake.procfs Fake.process Fake.table Fake.android w).
  { exists Fake.idle, ops, [RetId 1]. vm_compute. reflexivity. }
  assert (Hne : configs_ (muxer w) ≠ ∅) by (vm_compute; discriminate).
  assert (Hen : (IsTracingEnabled Fake.procfs (host w)).1 = true)
    by (vm_compute; reflexivity).
  assert (Hev : GetFtraceEvents request = {["cpu_idle"; "print"]})
    by (vm_compute; reflexivity).
  assert (Hin : "cpu_idle" ∈ ftrace_events (current_state_ (muxer w)))
    by (vm_compute; reflexivity).
  assert (Hgrp : in_ftrace_group Fake.table "print") by (vm_compute; reflexivity).
  repeat (split; [assumption|]).
  eexists. split.
  - apply (RequestConfig_of_enabled_events_is_free Fake.procfs Fake.process
             Fake.table Fake.android request w Hreach Hne Hen).
    intros name Hname. rewrite Hev in Hname.
    apply elem_of_union in Hname as [Hname|Hname];
      apply elem_of_singleton in Hname; subst name; [by left|by right].
  - split; reflexivity.
Defined.

Lemma RequestConfig_cold_start_sequence_witness :
  let w := initial_world Fake.android Fake.idle in
  let request := mkFtraceConfig ["sched_switch"] 1024 ["gfx"] [] in
  let w' := world_after (RequestConfig Fake.procfs Fake.process Fake.table
                           Fake.android request) w in
  RequestConfig Fake.procfs Fake.process Fake.table Fake.android request w
  = Ok 1 w'
  ∧ tracing_on (current_state_ (muxer w')) = true
  ∧ cpu_buffer_size_pages (current_state_ (muxer w'))
    = ComputeCpuBufferSizeInPages 4096 1024
  ∧ ∃ cur av enables,
      calls w' =
        calls w ++ [CallIsTracingEnabled false]
        ++ [CallExecv "/system/bin/atrace" (EnableAtrace_args request) (Some 0%Z)]
        ++ [CallGetClock cur; CallAvailableClocks av]
        ++ (match preferred_clock av with
            | Some target => if bool_decide (target = cur) then []
                             else [CallSetClock target]
            | None => []
            end)
        ++ [CallSetCpuBufferSizeInPages (ComputeCpuBufferSizeInPages 4096 1024)]
        ++ enables ++ [CallEnableTracing].
Proof.
  intros w request w'.
  assert (Hreq : RequestConfig Fake.procfs Fake.process Fake.table Fake.android
                   request w = Ok 1 w') by (vm_compute; reflexivity).
  split; [exact Hreq|].
  destruct (RequestConfig_cold_start_sequence Fake.procfs Fake.process Fake.table
              Fake.android request w 1 w' eq_refl eq_refl Hreq)
    as (cur & av & enables & Hcalls & _ & Hon & Hpages & _).
  split; [exact Hon|]. split; [exact Hpages|].
  exists cur, av, enables. exact Hcalls.
Defined.

Lemma RemoveConfig_only_releases_witness :
  let ops := [OpRequestConfig
                (mkFtraceConfig ["sched_switch"; "sched_wakeup"] 0 [] []);
              OpRequestConfig (mkFtraceConfig ["sched_switch"; "cpu_idle"] 0 [] [])] in
  let start := initial_world Fake.android Fake.idle in
  let w := world_after (run Fake.procfs Fake.process Fake.table Fake.android ops)
             start in
  let w' := world_after (RemoveConfig Fake.procfs Fake.process Fake.table
                           Fake.android 1) w in
  run Fake.procfs Fake.process Fake.table Fake.android ops start
  = Ok [RetId 1; RetId 2] w
  ∧ RemoveConfig Fake.procfs Fake.process Fake.table Fake.android 1 w = Ok true w'
  ∧ ∃ new,
      calls w' = calls w ++ new
      ∧ Forall (λ c, is_EnableEvent c = false ∧ c ≠ CallEnableTracing
                     ∧ is_SetClock c = false) new
      ∧ ftrace_events (current_state_ (muxer w'))
        ⊆ ftrace_events (current_state_ (muxer w)).
Proof.
  intros ops start w w'.
  split; [vm_compute; reflexivity|].
  assert (Hrem : RemoveConfig Fake.procfs Fake.process Fake.table Fake.android 1 w
                 = Ok true w') by (vm_compute; reflexivity).
  split; [exact Hrem|].
  destruct (RemoveConfig_only_releases _ _ _ _ _ _ _ Hrem)
    as (new & Hcalls & _ & Hnew & Hsub & _).
  exists new. split; [exact Hcalls|]. split; [exact Hnew|exact Hsub].
Defined.

Lemma RemoveConfig_teardown_sequence_witness :
  let ops := [OpRequestConfig (mkFtraceConfig ["sched_switch"] 0 ["gfx"] [])] in
  let start := initial_world Fake.android Fake.idle in
  let w := world_after (run Fake.procfs Fake.process Fake.table Fake.android ops)
             start in
  let w' := world_after (RemoveConfig Fake.procfs Fake.process Fake.table
                           Fake.android 1) w in
  reachable Fake.procfs Fake.process Fake.table Fake.android w
  ∧ RemoveConfig Fake.procfs Fake.process Fake.table Fake.android 1 w = Ok true w'
  ∧ configs_ (muxer w') = ∅
  ∧ atrace_on (current_state_ (muxer w)) = true
  ∧ tracing_on (current_state_ (muxer w')) = false
  ∧ atrace_on (current_state_ (muxer w')) = false
  ∧ ∃ disables,
      calls w' =
        calls w ++ disables
        ++ [CallDisableTracing; CallSetCpuBufferSizeInPages 0;
            CallDisableAllEvents; CallClearTrace]
        ++ (if atrace_on (current_state_ (muxer w))
            then [CallExecv "/system/bin/atrace" ["atrace"; "--async_stop"]
                    (Some 0%Z)]
            else []).
Proof.
  intros ops start w w'.
  assert (Hreach : reachable Fake.procfs Fake.process Fake.table Fake.android w).
  { exists Fake.idle, ops, [RetId 1]. vm_compute. reflexivity. }
  assert (Hrem : RemoveConfig Fake.procfs Fake.process Fake.table Fake.android 1 w
                 = Ok true w') by (vm_compute; reflexivity).
  assert (Hempty : configs_ (muxer w') = ∅) by (vm_compute; reflexivity).
  split; [exact Hreach|]. split; [exact Hrem|]. split; [exact Hempty|].
  split; [vm_compute; reflexivity|].
  destruct (RemoveConfig_teardown_sequence _ _ _ _ _ _ _ Hreach Hrem Hempty)
    as (disables & Hcalls & _ & Hon & Hat).
  split; [exact Hon|]. split; [exact Hat|].
  exists disables. exact Hcalls.
Defined.

Lemma buffer_pages_mirror_while_active_witness :
  let ops := [OpRequestConfig (mkFtraceConfig ["sched_switch"] 64 [] []);
              OpRequestConfig (mkFtraceConfig ["cpu_idle"] 1024 [] [])] in
  let start := initial_world Fake.android Fake.idle in
  let w := world_after (run Fake.procfs Fake.process Fake.table Fake.android ops)
             start in
  reachable Fake.procfs Fake.process Fake.table Fake.android w
  ∧ configs_ (muxer w) ≠ ∅
  ∧ last_buffer_write (calls w)
    = Some (CallSetCpuBufferSizeInPages
              (cpu_buffer_size_pages (current_state_ (muxer w))))
  ∧ 1 ≤ cpu_buffer_size_pages (current_state_ (muxer w)).
Proof.
  intros ops start w.
  assert (Hreach : reachable Fake.procfs Fake.process Fake.table Fake.android w).
  { exists Fake.idle, ops, [RetId 1; RetId 2]. vm_compute. reflexivity. }
  assert (Hne : configs_ (muxer w) ≠ ∅) by (vm_compute; discriminate).
  split; [exact Hreach|]. split; [exact Hne|].
  destruct (buffer_pages_mirror_while_active _ _ _ _ _ Hreach Hne)
    as (Hlast & _ & Hpos).
  split; [exact Hlast|exact Hpos].
Defined.

Lemma no_atrace_off_android_witness :
  let ops := [OpRequestConfig (mkFtraceConfig [] 0 ["gfx"] ["com.app"])] in
  let start := initial_world Fake.linux Fake.idle in
  let w := world_after (run Fake.procfs Fake.process Fake.table Fake.linux ops)
             start in
  reachable Fake.procfs Fake.process Fake.table Fake.linux w
  ∧ configs_ (muxer w) !! 1 = Some (mkFtraceConfig ["print"] 0 [] [])
  ∧ atrace_on (current_state_ (muxer w)) = false
  ∧ Forall (λ c, is_Execv c = false) (calls w).
Proof.
  intros ops start w.
  assert (Hreach : reachable Fake.procfs Fake.process Fake.table Fake.linux w).
  { exists Fake.idle, ops, [RetId 1]. vm_compute. reflexivity. }
  split; [exact Hreach|]. split; [vm_compute; reflexivity|].
  apply (no_atrace_off_android _ _ _ _ _ Hreach). reflexivity.
Defined.

Lemma ftrace_events_have_an_owner_witness :
  let ops := [OpRequestConfig (mkFtraceConfig ["sched_switch"] 0 [] []);
              OpRequestConfig (mkFtraceConfig ["cpu_idle"] 0 [] []);
              OpRemoveConfig 1] in
  let rets := [RetId 1; RetId 2; RetBool true] in
  let start := initial_world Fake.android Fake.sticky in
  let w := world_after (run Fake.procfs Fake.process Fake.table Fake.android ops)
             start in
  run Fake.procfs Fake.process Fake.table Fake.android ops start = Ok rets w
  ∧ "sched_switch" ∈ ftrace_events (current_state_ (muxer w))
  ∧ ((∃ id config, configs_ (muxer w) !! id = Some config
                   ∧ "sched_switch" ∈ event_names config)
     ∨ disable_refused Fake.table (calls w) "sched_switch").
Proof.
  intros ops rets start w.
  assert (Hrun : run Fake.procfs Fake.process Fake.table Fake.android ops start
                 = Ok rets w) by (vm_compute; reflexivity).
  assert (Hin : "sched_switch" ∈ ftrace_events (current_state_ (muxer w)))
    by (vm_compute; reflexivity).
  split; [exact Hrun|]. split; [exact Hin|].
  apply (ftrace_events_have_an_owner Fake.procfs Fake.process Fake.table
           Fake.android Fake.sticky ops rets w Hrun); [|exact Hin].
  vm_compute. reflexivity.
Defined.

Lemma buffer_writes_within_ceiling_witness :
  let ops := [OpRequestConfig (mkFtraceConfig ["sched_switch"] 8192 [] []);
              OpRemoveConfig 1] in
  let start := initial_world Fake.android Fake.idle in
  let w := world_after (run Fake.procfs Fake.process Fake.table Fake.android ops)
             start in
  reachable Fake.procfs Fake.process Fake.table Fake.android w
  ∧ 1024 ≤ kPageSize Fake.android
  ∧ kPageSize Fake.android / 1024 ≤ kMaxPerCpuBufferSizeKb
  ∧ filter (λ c, is_SetCpuBufferSizeInPages c = true) (calls w)
    = [CallSetCpuBufferSizeInPages 128; CallSetCpuBufferSizeInPages 0]
  ∧ cpu_buffer_size_pages (current_state_ (muxer w))
    * (kPageSize Fake.android / 1024) ≤ kMaxPerCpuBufferSizeKb.
Proof.
  intros ops start w.
  assert (Hreach : reachable Fake.procfs Fake.process Fake.table Fake.android w).
  { exists Fake.idle, ops, [RetId 1; RetBool true]. vm_compute. reflexivity. }
  assert (Hlo : 1024 ≤ kPageSize Fake.android) by (vm_compute; discriminate).
  assert (Hhi : kPageSize Fake.android / 1024 ≤ kMaxPerCpuBufferSizeKb)
    by (vm_compute; discriminate).
  split; [exact Hreach|]. split; [exact Hlo|]. split; [exact Hhi|].
  split; [vm_compute; reflexivity|].
  apply (buffer_writes_within_ceiling _ _ _ _ _ Hreach Hlo Hhi).
Defined.

Lemma RequestConfig_aborts_iff_witness :
  let w := initial_world Fake.android
             (Fake.mkHost false "local" {["boot"; "global"; "local"]} true true
                (Some 1%Z)) in
  let request := mkFtraceConfig ["sched_switch"] 0 ["gfx"] [] in
  reachable Fake.procfs Fake.process Fake.table Fake.android w
  ∧ RequestConfig Fake.procfs Fake.process Fake.table Fake.android request w
    = Crash (CheckFailed "RunAtrace(args)").
Proof.
  intros w request.
  assert (Hreach : reachable Fake.procfs Fake.process Fake.table Fake.android w)
    by (eexists _, [], []; reflexivity).
  split; [exact Hreach|].
  destruct (RequestConfig_aborts_iff Fake.procfs Fake.process Fake.table
              Fake.android request w Hreach) as [[_ Hif] Hshape].
  destruct Hif as [f Hf].
  { repeat (split; [reflexivity|]). discriminate. }
  rewrite Hf. f_equal. exact (Hshape f Hf).
Defined.

Lemma RequestConfig_at_last_id_witness :
  let tiny := mkBuild true false 4096 2 0 in
  let request := mkFtraceConfig ["sched_switch"] 0 [] [] in
  let ops := [OpRequestConfig request; OpRequestConfig request;
              OpRequestConfig request] in
  let start := initial_world tiny Fake.idle in
  let w := world_after (run Fake.procfs Fake.process Fake.table tiny ops) start in
  let w' := world_after (RequestConfig Fake.procfs Fake.process Fake.table tiny
                           request) w in
  reachable Fake.procfs Fake.process Fake.table tiny w
  ∧ last_id_ (muxer w) + 1 = 2 ^ FtraceConfigId_bits tiny
  ∧ RequestConfig Fake.procfs Fake.process Fake.table tiny request w = Ok 0 w'
  ∧ tracing_on (current_state_ (muxer w')) = true
  ∧ is_Some (configs_ (muxer w') !! 0)
  ∧ RemoveConfig Fake.procfs Fake.process Fake.table tiny 0 w' = Ok false w'.
Proof.
  intros tiny request ops start w w'.
  assert (Hreach : reachable Fake.procfs Fake.process Fake.table tiny w).
  { exists Fake.idle, ops, [RetId 1; RetId 2; RetId 3]. vm_compute. reflexivity. }
  assert (Hlast : last_id_ (muxer w) + 1 = 2 ^ FtraceConfigId_bits tiny)
    by (vm_compute; reflexivity).
  assert (Hreq : RequestConfig Fake.procfs Fake.process Fake.table tiny request w
                 = Ok 0 w') by (vm_compute; reflexivity).
  split; [exact Hreach|]. split; [exact Hlast|]. split; [exact Hreq|].
  destruct (RequestConfig_at_last_id _ _ _ _ _ _ _ _ Hreach Hlast Hreq)
    as [_ Hwrap].
  destruct Hwrap as (Hon & _ & Hsome & Hrem); [vm_compute; discriminate|].
  split; [exact Hon|]. split; [exact Hsome|exact Hrem].
Defined.

Lemma stored_configs_are_built_by_the_muxer_witness :
  let ops := [OpRequestConfig
                (mkFtraceConfig ["sched_wakeup"; "sched_switch"; "sched_wakeup"]
                   1024 ["gfx"] ["com.app"])] in
  let start := initial_world Fake.android Fake.idle in
  let w := world_after (run Fake.procfs Fake.process Fake.table Fake.android ops)
             start in
  let config := mkFtraceConfig ["print"; "sched_switch"; "sched_wakeup"] 0 [] [] in
  reachable Fake.procfs Fake.process Fake.table Fake.android w
  ∧ configs_ (muxer w) !! 1 = Some config
  ∧ StronglySorted string_le (event_names config)
  ∧ NoDup (event_names config).
Proof.
  intros ops start w config.
  assert (Hreach : reachable Fake.procfs Fake.process Fake.table Fake.android w).
  { exists Fake.idle, ops, [RetId 1]. vm_compute. reflexivity. }
  assert (Hlook : configs_ (muxer w) !! 1 = Some config)
    by (vm_compute; reflexivity).
  split; [exact Hreach|]. split; [exact Hlook|].
  destruct (stored_configs_are_built_by_the_muxer _ _ _ _ _ _ _ Hreach Hlook)
    as (_ & _ & _ & Hsorted & Hnodup & _).
  split; [exact Hsorted|exact Hnodup].
Defined.

Lemma run_returns_witness :
  let with_atrace :=
    [OpRequestConfig (mkFtraceConfig ["sched_switch"] 0 ["gfx"] []);
     OpRequestConfig (mkFtraceConfig ["cpu_idle"] 0 [] ["com.app"]);
     OpRemoveConfig 1; OpRemoveConfig 2; OpRemoveConfig 2] in
  let without_atrace :=
    [OpRequestConfig (mkFtraceConfig ["sched_switch"] 0 [] []);
     OpRemoveConfig 1; OpRemoveConfig 7] in
  (∃ rets w,
     run Fake.procfs Fake.process Fake.table Fake.linux with_atrace
         (initial_world Fake.linux Fake.sticky) = Ok rets w
     ∧ length rets = length with_atrace)
  ∧ (∃ rets w,
       run Fake.procfs Fake.process Fake.table Fake.android_debug without_atrace
           (initial_world Fake.android_debug Fake.idle) = Ok rets w
       ∧ length rets = length without_atrace).
Proof.
  intros with_atrace without_atrace. split.
  - apply (run_returns Fake.procfs Fake.process Fake.table Fake.linux
             Fake.sticky with_atrace).
    left. reflexivity.
  - apply (run_returns Fake.procfs Fake.process Fake.table Fake.android_debug
             Fake.idle without_atrace).
    right. left.
    repeat first [apply Forall_nil_2 | apply Forall_cons_2];
      intros request Heq; try discriminate Heq; injection Heq as <-; reflexivity.
Defined.

Lemma tracing_switch_calls_alternate_witness :
  let request := mkFtraceConfig ["sched_switch"] 0 [] [] in
  let ops := [OpRequestConfig request; OpRequestConfig request;
              OpRemoveConfig 1; OpRemoveConfig 2; OpRequestConfig request] in
  let start := initial_world Fake.android Fake.idle in
  let w := world_after (run Fake.procfs Fake.process Fake.table Fake.android ops)
             start in
  reachable Fake.procfs Fake.process Fake.table Fake.android w
  ∧ filter (λ c, is_tracing_switch c = true) (calls w)
    = [CallEnableTracing; CallDisableTracing; CallEnableTracing]
  ∧ ∃ n, filter (λ c, is_tracing_switch c = true) (calls w)
         = concat (replicate n [CallEnableTracing; CallDisableTracing])
           ++ (if bool_decide (configs_ (muxer w) = ∅) then []
               else [CallEnableTracing]).
Proof.
  intros request ops start w.
  assert (Hreach : reachable Fake.procfs Fake.process Fake.table Fake.android w).
  { exists Fake.idle, ops, [RetId 1; RetId 2; RetBool true; RetBool true; RetId 3].
    vm_compute. reflexivity. }
  split; [exact Hreach|]. split; [vm_compute; reflexivity|].
  apply (tracing_switch_calls_alternate _ _ _ _ _ Hreach).
Defined.
